(** * CANONIC EMAIL: the authentication-and-audit pipeline

    A shallow embedding of [email.py], [auth.py] and
    [validators/email_audit.py], and the properties of the send gate, the
    mail sender, the audit log and the token provider.

    Python values are a small universe [pyval]; exceptions are an explicit
    [outcome]; the process state (file system below the application
    directory, UTC clock, identity provider, mail provider, and the trace of
    everything the process prints or sends) is threaded through a state and
    exception monad [io].  The libraries the program calls (msal, requests,
    json, datetime.fromisoformat) are interfaces: every statement holds for
    all of their behaviours.

    Conventions.  A string is a sequence of characters, one [ascii] each.
    A dict is a finite map: the order of its keys is not kept.  The two
    directories of the application hold plain files.  A write fails for a
    directory that does not exist and for a name the directory cannot
    hold: one with a NUL or a slash, or of more than 255 bytes.  A file
    is looked up under a name within the limits of the system.
    [json.dumps] fails on a value that holds a [bytes] or a datetime.
    [requests.post] and the msal calls always answer. *)

From Stdlib Require Import ZArith NArith Ascii String.
From stdpp Require Import base option list strings gmap pretty.

Set Warnings "-register-all".
Local Open Scope string_scope.

(** ** Python values *)

(** A naive [datetime.datetime] (no tzinfo), as [datetime.utcnow()] returns. *)
Record datetime := {
  year : N; month : N; day : N;
  hour : N; minute : N; second : N; microsecond : N
}.

Inductive pyval :=
| PNone
| PBool (b : bool)
| PInt (z : Z)
| PStr (s : string)
| PBytes (s : string)
| PList (l : list pyval)
| PDict (d : gmap string pyval)
| PDatetime (d : datetime).

Inductive exn :=
| ValueError | AttributeError | TypeError | KeyError | IndexError
| FileNotFoundError | FileExistsError | NotADirectoryError
| OSError.

Inductive outcome (A : Type) :=
| Ok (a : A)
| Raise (e : exn).
Arguments Ok {A} a.
Arguments Raise {A} e.

#[global] Instance outcome_ret : MRet outcome := fun _ a => Ok a.
#[global] Instance outcome_bind : MBind outcome := fun _ _ k m =>
  match m with
  | Ok a => k a
  | Raise e => Raise e
  end.

(** [bool(v)]: what [if v] and [not v] test. *)
Definition truthy (v : pyval) : bool :=
  match v with
  | PNone => false
  | PBool b => b
  | PInt z => negb (Z.eqb z 0)
  | PStr s => negb (String.eqb s EmptyString)
  | PBytes s => negb (String.eqb s EmptyString)
  | PList l => match l with [] => false | _ :: _ => true end
  | PDict d => negb (Nat.eqb (size d) 0)
  | PDatetime _ => true
  end.

(** [d[k]] on a dict. *)
Definition getitem (d : gmap string pyval) (k : string) : outcome pyval :=
  match d !! k with
  | Some v => Ok v
  | None => Raise KeyError
  end.

(** [d.get(k, default)]. *)
Definition dict_get (d : gmap string pyval) (k : string) (default : pyval) : pyval :=
  match d !! k with
  | Some v => v
  | None => default
  end.

(** [k in d]. *)
Definition dict_in (k : string) (d : gmap string pyval) : bool :=
  match d !! k with
  | Some _ => true
  | None => false
  end.

(** The values [json.dumps] serializes: it raises a TypeError for [bytes]
    and for a datetime, also inside a list or a dict.  (The keys of a dict
    are strings here.) *)
Fixpoint json_serializable (v : pyval) : bool :=
  match v with
  | PNone | PBool _ | PInt _ | PStr _ => true
  | PBytes _ | PDatetime _ => false
  | PList l => forallb json_serializable l
  | PDict d => map_fold (fun _ v rest => json_serializable v && rest) true d
  end.

(** ** String methods *)

(** [s.replace(old, new)] for a one-character [old], the only way the
    program calls it. *)
Fixpoint str_replace (old : ascii) (new s : string) : string :=
  match s with
  | EmptyString => EmptyString
  | String c r =>
      if Ascii.eqb c old then new +:+ str_replace old new r
      else String c (str_replace old new r)
  end.

(** [s.split(sep)] for a one-character [sep]. *)
Fixpoint str_split (sep : ascii) (s : string) : list string :=
  match s with
  | EmptyString => [EmptyString]
  | String c r =>
      if Ascii.eqb c sep then EmptyString :: str_split sep r
      else match str_split sep r with
           | h :: t => String c h :: t
           | [] => [String c EmptyString]
           end
  end.

(** [s[:n]]. *)
Fixpoint str_take (n : nat) (s : string) : string :=
  match n, s with
  | S n', String c r => String c (str_take n' r)
  | _, _ => EmptyString
  end.

(** [l[0]]. *)
Definition index0 {A} (l : list A) : outcome A :=
  match l with
  | x :: _ => Ok x
  | [] => Raise IndexError
  end.

(** [v.replace(old, new)] with two [str] arguments: [str] has the method;
    [bytes] and [datetime] have a method of that name which rejects [str]
    arguments with a TypeError; the other values have no such attribute. *)
Definition py_replace (v : pyval) (old : ascii) (new : string) : outcome pyval :=
  match v with
  | PStr s => Ok (PStr (str_replace old new s))
  | PBytes _ | PDatetime _ => Raise TypeError
  | PNone | PBool _ | PInt _ | PList _ | PDict _ => Raise AttributeError
  end.

(** [v.split(sep)] with a [str] argument. *)
Definition py_split (v : pyval) (sep : ascii) : outcome (list string) :=
  match v with
  | PStr s => Ok (str_split sep s)
  | PBytes _ => Raise TypeError
  | PNone | PBool _ | PInt _ | PList _ | PDict _ | PDatetime _ => Raise AttributeError
  end.

(** ** datetime formatting *)

Definition zfill (width : nat) (s : string) : string :=
  String.concat EmptyString (replicate (width - String.length s) "0") +:+ s.

Definition dec (width : nat) (n : N) : string := zfill width (pretty n).

(** [d.strftime('%Y%m%d-%H%M%S')], the year on four digits as for every
    year the clock can show. *)
Definition strftime_compact (d : datetime) : string :=
  dec 4 (year d) +:+ dec 2 (month d) +:+ dec 2 (day d) +:+ "-" +:+
  dec 2 (hour d) +:+ dec 2 (minute d) +:+ dec 2 (second d).

(** [d.isoformat()]: the fraction is printed only when it is not zero. *)
Definition isoformat (d : datetime) : string :=
  dec 4 (year d) +:+ "-" +:+ dec 2 (month d) +:+ "-" +:+ dec 2 (day d) +:+ "T" +:+
  dec 2 (hour d) +:+ ":" +:+ dec 2 (minute d) +:+ ":" +:+ dec 2 (second d) +:+
  (if N.eqb (microsecond d) 0 then EmptyString
   else "." +:+ dec 6 (microsecond d)).

(** ** Library interfaces *)

(** The pure library functions the program calls. *)
Class PyLib := {
  (** [datetime.fromisoformat] on a [str]: [None] is its ValueError. *)
  fromisoformat : string -> option datetime;
  (** [json.dumps(v, indent=2)], for a value it serializes. *)
  json_dumps : pyval -> string;
  (** [json.loads(text)]: [None] is its JSONDecodeError, a ValueError. *)
  json_loads : string -> option pyval;
  (** What [json.loads] returns is a JSON value: it holds no [bytes] and
      no datetime. *)
  json_loads_value : forall text v, json_loads text = Some v -> json_serializable v = true;
  (** [str(v)] for the values whose [str] is their [repr]. *)
  py_repr : pyval -> string
}.

(** [json.dumps(v, indent=2)]: a TypeError for a value that is not
    serializable. *)
Definition py_json_dumps `{PyLib} (v : pyval) : outcome string :=
  if json_serializable v then Ok (json_dumps v) else Raise TypeError.

(** [str(v)], as an f-string formats [{v}]. *)
Definition py_str `{PyLib} (v : pyval) : string :=
  match v with
  | PStr s => s
  | PNone => "None"
  | PBool true => "True"
  | PBool false => "False"
  | PInt z => pretty z
  | PBytes _ | PList _ | PDict _ | PDatetime _ => py_repr v
  end.

(** [datetime.fromisoformat(v)]: a TypeError unless [v] is a [str]. *)
Definition py_fromisoformat `{PyLib} (v : pyval) : outcome datetime :=
  match v with
  | PStr s =>
      match fromisoformat s with
      | Some d => Ok d
      | None => Raise ValueError
      end
  | _ => Raise TypeError
  end.

(** ** The file system below the application directory *)

(** The two directories and the files the program names:
    [APP_DIR / "templates"], [APP_DIR / "sent"], [APP_DIR / "config.json"],
    [APP_DIR / ".token_cache.json"] and the files inside the directories. *)
Inductive dir := TEMPLATES_DIR | SENT_DIR.

Inductive file :=
| CONFIG_FILE
| TOKEN_CACHE
| InDir (d : dir) (name : string).

Notation "d // name" := (InDir d name) (at level 40, left associativity).

(** [f.name]: the last component of the path. *)
Definition file_name (f : file) : string :=
  match f with
  | CONFIG_FILE => "config.json"
  | TOKEN_CACHE => ".token_cache.json"
  | InDir _ name => name
  end.

(** A directory is absent ([None]) or holds named files; a file is absent
    or holds text. *)
Record filesystem := {
  config_json : option string;
  token_cache_json : option string;
  templates : option (gmap string string);
  sent : option (gmap string string)
}.

Definition entries (fs : filesystem) (d : dir) : option (gmap string string) :=
  match d with
  | TEMPLATES_DIR => templates fs
  | SENT_DIR => sent fs
  end.

Definition set_entries (fs : filesystem) (d : dir) (m : gmap string string) : filesystem :=
  match d with
  | TEMPLATES_DIR =>
      {| config_json := config_json fs; token_cache_json := token_cache_json fs;
         templates := Some m; sent := sent fs |}
  | SENT_DIR =>
      {| config_json := config_json fs; token_cache_json := token_cache_json fs;
         templates := templates fs; sent := Some m |}
  end.

(** [d.exists()]. *)
Definition dir_exists (fs : filesystem) (d : dir) : bool :=
  match entries fs d with
  | Some _ => true
  | None => false
  end.

Definition content (fs : filesystem) (f : file) : option string :=
  match f with
  | CONFIG_FILE => config_json fs
  | TOKEN_CACHE => token_cache_json fs
  | InDir d name => m ← entries fs d; m !! name
  end.

(** [f.exists()], for a name within the limits of the system. *)
Definition file_exists (fs : filesystem) (f : file) : bool :=
  match content fs f with
  | Some _ => true
  | None => false
  end.

(** [f.read_text()]. *)
Definition fs_read (fs : filesystem) (f : file) : outcome string :=
  match content fs f with
  | Some s => Ok s
  | None => Raise FileNotFoundError
  end.

(** The file system once [TOKEN_CACHE] holds [s]. *)
Definition token_saved (fs : filesystem) (s : string) : filesystem :=
  {| config_json := config_json fs; token_cache_json := Some s;
     templates := templates fs; sent := sent fs |}.

(** [c in s] for a one-character [c]. *)
Definition str_contains (c : ascii) (s : string) : bool :=
  existsb (Ascii.eqb c) (list_ascii_of_string s).

(** The bytes of a name on disk: a character below 128 is one byte of
    UTF-8, another one two. *)
Definition encoded_length (s : string) : nat :=
  foldr (fun c n => (if (nat_of_ascii c <? 128)%nat then 1 else 2) + n)%nat 0%nat
    (list_ascii_of_string s).

(** The longest file name the system takes, in bytes. *)
Definition NAME_MAX : nat := 255.

(** The part of a name before its first slash: with a slash in the
    name, the sub-directory the path goes through. *)
Definition first_component (name : string) : string :=
  match str_split "/"%char name with
  | part :: _ => part
  | [] => EmptyString
  end.

(** What the system makes of a name when a file is created under it in
    a directory that holds the files [m]: a first component of more than
    [NAME_MAX] bytes is refused (ENAMETOOLONG); a name with a slash is a
    path through a sub-directory, and the directories hold files only, so
    that the path is through a file (ENOTDIR) or through nothing (ENOENT).
    The names the program writes neither begin nor end with a slash. *)
Definition create_error (m : gmap string string) (name : string) : option exn :=
  if (NAME_MAX <? encoded_length (first_component name))%nat then Some OSError
  else if str_contains "/" name then
    match m !! first_component name with
    | Some _ => Some NotADirectoryError
    | None => Some FileNotFoundError
    end
  else None.

(** A name under which a file can be created in every directory: no
    NUL, no slash, at most [NAME_MAX] bytes. *)
Definition storable (name : string) : bool :=
  negb (str_contains (ascii_of_nat 0) name) && negb (str_contains "/" name) &&
  (encoded_length name <=? NAME_MAX)%nat.

(** [f.write_text(s)]: creates or overwrites the file.  A NUL in the
    name is refused before the system is asked (ValueError: embedded null
    byte); the directory the file is in must exist; the name must be one
    the system takes. *)
Definition fs_write (fs : filesystem) (f : file) (s : string) : outcome filesystem :=
  match f with
  | CONFIG_FILE =>
      Ok {| config_json := Some s; token_cache_json := token_cache_json fs;
            templates := templates fs; sent := sent fs |}
  | TOKEN_CACHE => Ok (token_saved fs s)
  | InDir d name =>
      if str_contains (ascii_of_nat 0) name then Raise ValueError
      else
        match entries fs d with
        | Some m =>
            match create_error m name with
            | Some e => Raise e
            | None => Ok (set_entries fs d (<[name := s]> m))
            end
        | None => Raise FileNotFoundError
        end
  end.

(** [d.mkdir(exist_ok=True)]. *)
Definition fs_mkdir (fs : filesystem) (d : dir) : filesystem :=
  match entries fs d with
  | Some _ => fs
  | None => set_entries fs d ∅
  end.

(** ** The external collaborators *)

(** [requests.Response]: the two attributes the program reads. *)
Record response := { status_code : Z; text : string }.

(** What [msal.PublicClientApplication] is built from. *)
Record client_app := { client_id : pyval; authority : string }.

(** msal: the serializable token cache and the public client application.
    The application holds a reference to the cache object it was given and
    updates it in place; here every operation that may update the cache
    takes it and returns it.  [idp] is the state of the identity provider,
    which decides what the calls answer. *)
Class Msal := {
  token_cache : Type;
  account : Type;
  idp : Type;
  (** [msal.SerializableTokenCache()]. *)
  new_cache : token_cache;
  (** [cache.deserialize(text)]. *)
  deserialize : token_cache -> string -> outcome token_cache;
  (** [cache.serialize()]. *)
  serialize : token_cache -> string;
  (** [app.get_accounts()]. *)
  get_accounts : client_app -> token_cache -> list account;
  (** [app.acquire_token_silent(scopes, account=a)]: [None] or a dict. *)
  acquire_token_silent :
    client_app -> list string -> account -> token_cache -> idp ->
    option (gmap string pyval) * token_cache * idp;
  (** [app.initiate_device_flow(scopes=scopes)]. *)
  initiate_device_flow :
    client_app -> list string -> idp -> gmap string pyval * idp;
  (** [app.acquire_token_by_device_flow(flow)]: blocks until the provider
      reports the exchange approved, denied or expired. *)
  acquire_token_by_device_flow :
    client_app -> gmap string pyval -> token_cache -> idp ->
    gmap string pyval * token_cache * idp
}.

(** requests: [net] is the state of the mail provider. *)
Class Requests := {
  net : Type;
  (** [requests.post(url, headers=headers, json=payload)]. *)
  requests_post : string -> gmap string pyval -> pyval -> net -> response * net;
  (** Lines 31 to 45 of auth.py: one [requests.get] for the ten newest
      messages with the bearer token; the lines printed from its answer,
      and the exception that ends the listing, if one does. *)
  inbox_listing : pyval -> net -> (list string * option exn) * net
}.

(** ** Process state and effects *)

(** What the process does that is visible outside it, oldest first. *)
Inductive event :=
| Print (line : string)
| AcquireTokenSilent (scopes : list string)
| InitiateDeviceFlow (scopes : list string)
| AcquireTokenByDeviceFlow (flow : gmap string pyval)
| HttpPost (url : string) (headers : gmap string pyval) (payload : pyval)
| HttpGetInbox (token : pyval)
| WriteText (f : file) (s : string)
| BrowserOpen (uri : pyval).

Section Effects.
Context `{PyLib, Msal, Requests}.

(** [clock n] is what the [n]-th call of [datetime.utcnow()] returns. *)
Record world := {
  fs : filesystem;
  clock : nat -> datetime;
  tick : nat;
  idp_state : idp;
  net_state : net;
  trace : list event
}.

Definition set_fs (f : filesystem) (w : world) : world :=
  {| fs := f; clock := clock w; tick := tick w;
     idp_state := idp_state w; net_state := net_state w; trace := trace w |}.

Definition set_idp (i : idp) (w : world) : world :=
  {| fs := fs w; clock := clock w; tick := tick w;
     idp_state := i; net_state := net_state w; trace := trace w |}.

Definition set_net (n : net) (w : world) : world :=
  {| fs := fs w; clock := clock w; tick := tick w;
     idp_state := idp_state w; net_state := n; trace := trace w |}.

Definition advance (w : world) : world :=
  {| fs := fs w; clock := clock w; tick := S (tick w);
     idp_state := idp_state w; net_state := net_state w; trace := trace w |}.

Definition log_event (e : event) (w : world) : world :=
  {| fs := fs w; clock := clock w; tick := tick w;
     idp_state := idp_state w; net_state := net_state w;
     trace := trace w ++ [e] |}.

Definition io (A : Type) : Type := world -> outcome A * world.

Definition io_ret {A} (a : A) : io A := fun w => (Ok a, w).

Definition io_bind {A B} (m : io A) (k : A -> io B) : io B := fun w =>
  match m w with
  | (Ok a, w') => k a w'
  | (Raise e, w') => (Raise e, w')
  end.

Definition lift {A} (o : outcome A) : io A := fun w => (o, w).

Definition emit (e : event) : io unit := fun w => (Ok tt, log_event e w).

Definition print (line : string) : io unit := emit (Print line).

(** [datetime.utcnow()]. *)
Definition utcnow : io datetime := fun w => (Ok (clock w (tick w)), advance w).

Definition exists_dir (d : dir) : io bool := fun w => (Ok (dir_exists (fs w) d), w).

Definition exists_file (f : file) : io bool := fun w => (Ok (file_exists (fs w) f), w).

Definition read_text (f : file) : io string := fun w => (fs_read (fs w) f, w).

Definition write_text (f : file) (s : string) : io unit := fun w =>
  match fs_write (fs w) f s with
  | Ok fs' => (Ok tt, log_event (WriteText f s) (set_fs fs' w))
  | Raise e => (Raise e, w)
  end.

Definition mkdir (d : dir) : io unit := fun w =>
  (Ok tt, set_fs (fs_mkdir (fs w) d) w).

(** A call to the identity provider: runs on its state, leaves a mark in
    the trace. *)
Definition with_idp {A} (e : event) (call : idp -> A * idp) : io A := fun w =>
  let '(a, i) := call (idp_state w) in
  (Ok a, log_event e (set_idp i w)).

(** A call to the mail provider, likewise. *)
Definition with_net {A} (e : event) (call : net -> A * net) : io A := fun w =>
  let '(a, n) := call (net_state w) in
  (Ok a, log_event e (set_net n w)).

End Effects.

Notation "x <- c ;; k" := (io_bind c (fun x => k))
  (at level 100, c at next level, right associativity).
Notation "c ;; k" := (io_bind c (fun _ => k))
  (at level 100, right associativity).

(** [v[k]] with a [str] key: only a dict accepts one. *)
Definition subscript (v : pyval) (k : string) : outcome pyval :=
  match v with
  | PDict d => getitem d k
  | _ => Raise TypeError
  end.

(** A dict display [{k1: v1, ...}]. *)
Definition dict_of (l : list (string * pyval)) : gmap string pyval := list_to_map l.

Definition nl : string := String (ascii_of_nat 10) EmptyString.

(** [s * n]. *)
Fixpoint str_mul (s : string) (n : nat) : string :=
  match n with
  | O => EmptyString
  | S n' => s +:+ str_mul s n'
  end.

(** ** validators/email_audit.py *)

Definition VERSION : string := "1.0.0".
Definition VALIDATOR_ID : string := "email.audit".

Definition verdict (status reason : string) : gmap string pyval :=
  dict_of [("status", PStr status); ("reason", PStr reason)].

Definition required : list string := ["to"; "subject"; "timestamp"].

(** [field not in context or not context[field]]. *)
Definition absent_or_empty (context : gmap string pyval) (field : string) : bool :=
  negb (dict_in field context) ||
  match context !! field with
  | Some v => negb (truthy v)
  | None => true
  end.

(** The loop over the required fields, up to its first [return]. *)
Fixpoint first_missing (fields : list string) (context : gmap string pyval) : option string :=
  match fields with
  | [] => None
  | field :: rest =>
      if absent_or_empty context field then Some field
      else first_missing rest context
  end.

(** The body of the [try]. *)
Definition parse_timestamp `{PyLib} (context : gmap string pyval) : outcome datetime :=
  ts ← getitem context "timestamp";
  z ← py_replace ts "Z"%char "+00:00";
  py_fromisoformat z.

Section Validator.
Context `{PyLib, Msal, Requests}.

Definition validate (context : gmap string pyval) : io (gmap string pyval) :=
  match first_missing required context with
  | Some field => io_ret (verdict "fail" ("Missing required field: " +:+ field))
  | None =>
      match parse_timestamp context with
      | Raise ValueError | Raise AttributeError =>
          io_ret (verdict "fail" "Invalid timestamp format")
      | Raise e => lift (Raise e)
      | Ok _ =>
          sent_dir_exists <- exists_dir SENT_DIR ;;
          if negb sent_dir_exists then
            io_ret (verdict "fail" "Audit directory does not exist")
          else
            io_ret (verdict "pass" "Audit trail ready")
      end
  end.

Definition log_send (context : gmap string pyval) (sent_dir : dir) : io file :=
  timestamp <- utcnow ;;
  to <- lift (getitem context "to") ;;
  subject <- lift (getitem context "subject") ;;
  let log_entry := dict_of [
    ("validator", PStr VALIDATOR_ID);
    ("version", PStr VERSION);
    ("timestamp", PStr (isoformat timestamp +:+ "Z"));
    ("to", to);
    ("subject", subject);
    ("status", PStr "sent");
    ("outlook", PBool true)
  ] in
  recipient <- lift (getitem context "to") ;;
  parts <- lift (py_split recipient "@"%char) ;;
  local_part <- lift (index0 parts) ;;
  let recipient_prefix := str_take 20 local_part in
  let log_file :=
    sent_dir // (strftime_compact timestamp +:+ "-" +:+ recipient_prefix +:+ ".json") in
  dumped <- lift (py_json_dumps (PDict log_entry)) ;;
  write_text log_file dumped ;;
  io_ret log_file.

End Validator.

(** ** email.py *)

Definition GRAPH_ENDPOINT : string := "https://graph.microsoft.com/v1.0".
Definition SCOPES : list string := ["Mail.Send"; "Mail.ReadWrite"; "User.Read"].

Section Email.
Context `{PyLib, Msal, Requests}.

Definition ensure_dirs : io unit :=
  mkdir TEMPLATES_DIR ;;
  mkdir SENT_DIR.

Definition load_config : io pyval :=
  present <- exists_file CONFIG_FILE ;;
  if negb present then io_ret PNone
  else
    text <- read_text CONFIG_FILE ;;
    match json_loads text with
    | Some v => io_ret v
    | None => lift (Raise ValueError)
    end.

Definition get_msal_app (config : pyval) : io (client_app * token_cache) :=
  let cache := new_cache in
  cached <- exists_file TOKEN_CACHE ;;
  cache <- (if cached then
              text <- read_text TOKEN_CACHE ;;
              lift (deserialize cache text)
            else io_ret cache) ;;
  cid <- lift (subscript config "client_id") ;;
  tid <- lift (subscript config "tenant_id") ;;
  let app := {| client_id := cid;
                authority := "https://login.microsoftonline.com/" +:+ py_str tid |} in
  io_ret (app, cache).

(** Lines 80 to 102: the device code flow, entered when the cache gave
    no token. *)
Definition device_code_flow (app : client_app) (cache : token_cache) : io pyval :=
  flow <- with_idp (InitiateDeviceFlow SCOPES) (initiate_device_flow app SCOPES) ;;
  if negb (dict_in "user_code" flow) then
    print ("ERROR: " +:+
           py_str (dict_get flow "error_description" (PStr "Could not initiate auth"))) ;;
    io_ret PNone
  else
    print (nl +:+ str_mul "=" 60) ;;
    print "AUTHENTICATE WITH MICROSOFT" ;;
    print (str_mul "=" 60) ;;
    uri <- lift (getitem flow "verification_uri") ;;
    print (nl +:+ "1. Go to: " +:+ py_str uri) ;;
    code <- lift (getitem flow "user_code") ;;
    print ("2. Enter code: " +:+ py_str code) ;;
    print (nl +:+ "Waiting for authentication..." +:+ nl) ;;
    answer <- with_idp (AcquireTokenByDeviceFlow flow)
                (fun i => let '(r, c, i') := acquire_token_by_device_flow app flow cache i
                          in ((r, c), i')) ;;
    let '(result, cache) := answer in
    if dict_in "access_token" result then
      write_text TOKEN_CACHE (serialize cache) ;;
      print ("Authentication successful!" +:+ nl) ;;
      lift (getitem result "access_token")
    else
      print ("ERROR: " +:+
             py_str (dict_get result "error_description" (PStr "Authentication failed"))) ;;
      io_ret PNone.

Definition get_access_token (config : pyval) : io pyval :=
  made <- get_msal_app config ;;
  let '(app, cache) := made in
  match get_accounts app cache with
  | first :: _ =>
      answer <- with_idp (AcquireTokenSilent SCOPES)
                  (fun i => let '(r, c, i') := acquire_token_silent app SCOPES first cache i
                            in ((r, c), i')) ;;
      let '(result, cache) := answer in
      match result with
      | Some d =>
          if truthy (PDict d) && dict_in "access_token" d then
            lift (getitem d "access_token")
          else device_code_flow app cache
      | None => device_code_flow app cache
      end
  | [] => device_code_flow app cache
  end.

(** The message payload of lines 113 to 125. *)
Definition sendmail_payload (to subject body : string) : pyval :=
  PDict (dict_of [
    ("message", PDict (dict_of [
       ("subject", PStr subject);
       ("body", PDict (dict_of [("contentType", PStr "Text"); ("content", PStr body)]));
       ("toRecipients",
        PList [PDict (dict_of [("emailAddress", PDict (dict_of [("address", PStr to)]))])])
     ]));
    ("saveToSentItems", PBool true)
  ]).

(** The headers of lines 127 to 130. *)
Definition bearer_headers (token : pyval) : gmap string pyval :=
  dict_of [
    ("Authorization", PStr ("Bearer " +:+ py_str token));
    ("Content-Type", PStr "application/json")
  ].

Definition send_email (to subject body : string) (config : pyval) : io bool :=
  token <- get_access_token config ;;
  if negb (truthy token) then io_ret false
  else
    let endpoint := GRAPH_ENDPOINT +:+ "/me/sendMail" in
    let message := sendmail_payload to subject body in
    let headers := bearer_headers token in
    response <- with_net (HttpPost endpoint headers message)
                  (requests_post endpoint headers message) ;;
    if Z.eqb (status_code response) 202 then
      stamp <- utcnow ;;
      let log_entry := dict_of [
        ("timestamp", PStr (isoformat stamp +:+ "Z"));
        ("to", PStr to);
        ("subject", PStr subject);
        ("status", PStr "sent");
        ("outlook", PBool true)
      ] in
      named <- utcnow ;;
      local_part <- lift (index0 (str_split "@"%char to)) ;;
      let log_file :=
        SENT_DIR // (strftime_compact named +:+ "-" +:+ local_part +:+ ".json") in
      dumped <- lift (py_json_dumps (PDict log_entry)) ;;
      write_text log_file dumped ;;
      print (str_mul "=" 60) ;;
      print "EMAIL SENT" ;;
      print (str_mul "=" 60) ;;
      print ("To:      " +:+ to) ;;
      print ("Subject: " +:+ subject) ;;
      print ("Log:     " +:+ file_name log_file) ;;
      print "Outlook: Check your Sent folder!" ;;
      print (str_mul "=" 60) ;;
      io_ret true
    else
      print ("ERROR: " +:+ pretty (status_code response) +:+ " - " +:+ text response) ;;
      io_ret false.

End Email.

(** ** auth.py *)

Section Auth.
Context `{PyLib, Msal, Requests}.

Fixpoint print_lines (lines : list string) : io unit :=
  match lines with
  | [] => io_ret tt
  | line :: rest => print line ;; print_lines rest
  end.

(** The script, top to bottom.  It starts from an empty cache: the
    persisted one is not read. *)
Definition auth_script : io unit :=
  text <- read_text CONFIG_FILE ;;
  config <- lift (match json_loads text with
                  | Some v => Ok v
                  | None => Raise ValueError
                  end) ;;
  let cache := new_cache in
  cid <- lift (subscript config "client_id") ;;
  tid <- lift (subscript config "tenant_id") ;;
  let app := {| client_id := cid;
                authority := "https://login.microsoftonline.com/" +:+ py_str tid |} in
  print (nl +:+ str_mul "=" 50) ;;
  print "CANONIC EMAIL AUTHENTICATION" ;;
  print (str_mul "=" 50) ;;
  flow <- with_idp (InitiateDeviceFlow SCOPES) (initiate_device_flow app SCOPES) ;;
  uri <- lift (getitem flow "verification_uri") ;;
  print (nl +:+ "1. Go to: " +:+ py_str uri) ;;
  code <- lift (getitem flow "user_code") ;;
  print ("2. Enter code: " +:+ py_str code) ;;
  print (nl +:+ "Opening browser...") ;;
  uri <- lift (getitem flow "verification_uri") ;;
  emit (BrowserOpen uri) ;;
  print (nl +:+ "Waiting for you to authenticate..." +:+ nl) ;;
  answer <- with_idp (AcquireTokenByDeviceFlow flow)
              (fun i => let '(r, c, i') := acquire_token_by_device_flow app flow cache i
                        in ((r, c), i')) ;;
  let '(result, cache) := answer in
  if dict_in "access_token" result then
    write_text TOKEN_CACHE (serialize cache) ;;
    print ("SUCCESS! Token saved." +:+ nl) ;;
    token <- lift (getitem result "access_token") ;;
    listing <- with_net (HttpGetInbox token) (inbox_listing token) ;;
    print_lines (fst listing) ;;
    match snd listing with
    | Some e => lift (Raise e)
    | None => io_ret tt
    end
  else
    print ("FAILED: " +:+ py_str (dict_get result "error_description" (PDict result))).

End Auth.

(** ** email.py: templates, the log, setup and the commands *)

(** *** More string methods *)

(** [c.isspace()], for a character below 256. *)
Definition is_space (c : ascii) : bool :=
  let n := nat_of_ascii c in
  ((9 <=? n)%nat && (n <=? 13)%nat) || ((28 <=? n)%nat && (n <=? 32)%nat) ||
  (n =? 133)%nat || (n =? 160)%nat.

Fixpoint str_lstrip (s : string) : string :=
  match s with
  | EmptyString => EmptyString
  | String c r => if is_space c then str_lstrip r else s
  end.

Fixpoint str_rstrip (s : string) : string :=
  match s with
  | EmptyString => EmptyString
  | String c r =>
      match str_rstrip r with
      | EmptyString => if is_space c then EmptyString else String c EmptyString
      | String c' r' => String c (String c' r')
      end
  end.

(** [s.strip()]. *)
Definition str_strip (s : string) : string := str_rstrip (str_lstrip s).

(** [c.lower()], for a character below 256: the letters A to Z and the
    capital letters of Latin-1. *)
Definition lower_char (c : ascii) : ascii :=
  let n := nat_of_ascii c in
  if ((65 <=? n)%nat && (n <=? 90)%nat) ||
     ((192 <=? n)%nat && (n <=? 222)%nat && negb (n =? 215)%nat)
  then ascii_of_nat (n + 32) else c.

(** [s.lower()]. *)
Fixpoint str_lower (s : string) : string :=
  match s with
  | EmptyString => EmptyString
  | String c r => String (lower_char c) (str_lower r)
  end.

(** [s.split(sep, 1)] for a one-character [sep]. *)
Fixpoint str_split_once (sep : ascii) (s : string) : list string :=
  match s with
  | EmptyString => [EmptyString]
  | String c r =>
      if Ascii.eqb c sep then [EmptyString; r]
      else match str_split_once sep r with
           | h :: t => String c h :: t
           | [] => [String c EmptyString]
           end
  end.

(** [l[1]]. *)
Definition index1 {A} (l : list A) : outcome A :=
  match l !! 1%nat with
  | Some x => Ok x
  | None => Raise IndexError
  end.

(** [s[n:]]. *)
Fixpoint str_drop (n : nat) (s : string) : string :=
  match n, s with
  | S n', String _ r => str_drop n' r
  | _, _ => s
  end.

(** [s.endswith(suffix)]. *)
Definition str_endswith (suffix s : string) : bool :=
  (String.length suffix <=? String.length s)%nat &&
  String.eqb (str_drop (String.length s - String.length suffix) s) suffix.

(** [s.rfind(c)] for a one-character [c]: [None] is its -1. *)
Fixpoint str_rfind (c : ascii) (s : string) : option nat :=
  match s with
  | EmptyString => None
  | String a r =>
      match str_rfind c r with
      | Some i => Some (S i)
      | None => if Ascii.eqb a c then Some 0 else None
      end
  end.

(** [format(s, "<width>")] on a [str]: padded with spaces on the right. *)
Definition str_ljust (width : nat) (s : string) : string :=
  s +:+ str_mul " " (width - String.length s).

(** The same on a number: padded on the left. *)
Definition str_rjust (width : nat) (s : string) : string :=
  str_mul " " (width - String.length s) +:+ s.

(** [PurePath.stem] of a file name: the name without its last suffix; a
    leading or trailing dot starts no suffix. *)
Definition stem (name : string) : string :=
  match str_rfind "."%char name with
  | Some i =>
      if (0 <? i)%nat && (i <? String.length name - 1)%nat then str_take i name
      else name
  | None => name
  end.

(** [v[:n]]: [str], [bytes] and [list] can be sliced; [None], numbers and
    datetimes are not subscriptable, and a dict rejects the slice as a
    key.  All of these are TypeErrors. *)
Definition py_slice_to (n : nat) (v : pyval) : outcome pyval :=
  match v with
  | PStr s => Ok (PStr (str_take n s))
  | PBytes s => Ok (PBytes (str_take n s))
  | PList l => Ok (PList (take n l))
  | PNone | PBool _ | PInt _ | PDict _ | PDatetime _ => Raise TypeError
  end.

(** [format(v, "30")], what an f-string does with [{v:30}]: a [str] is
    padded on the right, an [int] (and a [bool], as the number it is) on
    the left, a datetime takes the specification for a [strftime] format;
    the other values accept no format specification. *)
Definition py_format_30 (v : pyval) : outcome string :=
  match v with
  | PStr s => Ok (str_ljust 30 s)
  | PInt z => Ok (str_rjust 30 (pretty z))
  | PBool b => Ok (str_rjust 30 (if b then "1" else "0"))
  | PDatetime _ => Ok "30"
  | PNone | PBytes _ | PList _ | PDict _ => Raise TypeError
  end.

(** [v.get(k)]: only a dict has the method. *)
Definition py_get (v : pyval) (k : string) : outcome pyval :=
  match v with
  | PDict d => Ok (dict_get d k PNone)
  | _ => Raise AttributeError
  end.

Definition dquote : string := String (ascii_of_nat 34) EmptyString.

(** The check mark of line 203, U+2713.  It is outside the characters of
    [ascii]; it stands here as the three bytes of its UTF-8 encoding. *)
Definition check_mark : string :=
  String (ascii_of_nat 226) (String (ascii_of_nat 156) (String (ascii_of_nat 147) EmptyString)).

(** [a or b] and [bool(a)] on values that are [None] or a [str]. *)
Definition opt_truthy (a : option string) : bool :=
  match a with
  | Some s => truthy (PStr s)
  | None => false
  end.

Definition opt_or (a b : option string) : option string :=
  if opt_truthy a then a else b.

(** *** More of the file system *)

(** [f.unlink()]. *)
Definition fs_unlink (fs : filesystem) (f : file) : outcome filesystem :=
  match content fs f with
  | None => Raise FileNotFoundError
  | Some _ =>
      Ok match f with
         | CONFIG_FILE =>
             {| config_json := None; token_cache_json := token_cache_json fs;
                templates := templates fs; sent := sent fs |}
         | TOKEN_CACHE =>
             {| config_json := config_json fs; token_cache_json := None;
                templates := templates fs; sent := sent fs |}
         | InDir d name =>
             match entries fs d with
             | Some m => set_entries fs d (delete name m)
             | None => fs
             end
         end
  end.

(** The order of two paths of one directory is the order of their names,
    character by character. *)
Definition path_leb (a b : file) : bool := String.leb (file_name a) (file_name b).

(** [sorted(paths, reverse=True)]. *)
Fixpoint insert_reverse (x : file) (l : list file) : list file :=
  match l with
  | [] => [x]
  | y :: rest => if path_leb y x then x :: l else y :: insert_reverse x rest
  end.

Definition sorted_reverse (l : list file) : list file := foldr insert_reverse [] l.

(** *** The host of the process *)

(** What the process gets from the machine it runs on: how the paths
    below [APP_DIR] print, the order in which a directory lists its files
    (any order, every file once), the terminal behind [input], the shell
    behind [os.system], and the usage text argparse composes. *)
Class Host `{PyLib, Msal, Requests} := {
  (** [str(p)]. *)
  str_path : file -> string;
  (** The names of a directory, as [os.scandir] yields them. *)
  listdir : gmap string string -> list string;
  listdir_perm : forall m, listdir m ≡ₚ (map_to_list m).*1;
  (** [input(prompt)]. *)
  input : string -> io string;
  (** [os.system(command)]. *)
  os_system : string -> io Z;
  (** What [parser.print_help()] writes, without its last line break. *)
  format_help : string
}.

Section Commands.
Context `{PyLib, Msal, Requests}.
Context `{!Host}.

Definition unlink (f : file) : io unit := fun w =>
  match fs_unlink (fs w) f with
  | Ok fs' => (Ok tt, set_fs fs' w)
  | Raise e => (Raise e, w)
  end.

(** [list(d.glob("*" + suffix))]: the files of [d] whose names end with
    [suffix], hidden ones included, in the order the directory lists
    them; none when [d] does not exist. *)
Definition glob (d : dir) (suffix : string) : io (list file) := fun w =>
  (Ok match entries (fs w) d with
      | Some m => map (InDir d) (List.filter (str_endswith suffix) (listdir m))
      | None => []
      end, w).

Definition save_config (config : pyval) : io unit :=
  dumped <- lift (py_json_dumps config) ;;
  write_text CONFIG_FILE dumped.

(** The tuple [load_template] returns holds two strings or two [None]s.
    A template name is a file name: it holds no slash, and it is within
    the limits of the system ([Path.exists] raises OSError on a longer
    one). *)
Definition load_template (name : string) : io (option string * option string) :=
  let template_file := TEMPLATES_DIR // (name +:+ ".md") in
  present <- exists_file template_file ;;
  if negb present then
    print ("ERROR: Template not found: " +:+ str_path template_file) ;;
    io_ret (None, None)
  else
    text <- read_text template_file ;;
    let lines := str_split (ascii_of_nat 10) text in
    first <- lift (index0 lines) ;;
    if String.prefix "subject:" (str_lower first) then
      rest <- lift (index1 (str_split_once ":"%char first)) ;;
      let subject := str_strip rest in
      let body_start :=
        if (1 <? length lines)%nat &&
           match lines !! 1%nat with
           | Some second => String.eqb (str_strip second) EmptyString
           | None => false
           end
        then 2%nat else 1%nat in
      io_ret (Some subject, Some (String.concat nl (drop body_start lines)))
    else
      io_ret (Some "CANONIC", Some (String.concat nl (drop 0 lines))).

(** The loop of lines 188 and 189. *)
Fixpoint print_stems (found : list file) : io unit :=
  match found with
  | [] => io_ret tt
  | t :: rest => print ("  - " +:+ stem (file_name t)) ;; print_stems rest
  end.

Definition list_templates : io unit :=
  found <- glob TEMPLATES_DIR ".md" ;;
  match found with
  | [] => print "No templates found. Add .md files to templates/"
  | _ :: _ =>
      print (nl +:+ "Available templates:") ;;
      print_stems found ;;
      print EmptyString
  end.

(** The line of one record, lines 203 and 204: the expressions are
    evaluated, and formatted, from left to right. *)
Definition log_line (data : pyval) : outcome string :=
  flag ← py_get data "outlook";
  let outlook := if truthy flag then check_mark +:+ " Outlook" else EmptyString in
  timestamp ← subscript data "timestamp";
  minute ← py_slice_to 16 timestamp;
  to ← subscript data "to";
  recipient ← py_format_30 to;
  subject ← subscript data "subject";
  title ← py_slice_to 30 subject;
  Ok ("  " +:+ py_str minute +:+ " | " +:+ recipient +:+ " | " +:+
      py_str title +:+ " " +:+ outlook).

(** The loop of lines 201 to 204. *)
Fixpoint print_logs (logs : list file) : io unit :=
  match logs with
  | [] => io_ret tt
  | log :: rest =>
      text <- read_text log ;;
      data <- lift (match json_loads text with
                    | Some v => Ok v
                    | None => Raise ValueError
                    end) ;;
      line <- lift (log_line data) ;;
      print line ;;
      print_logs rest
  end.

Definition view_log : io unit :=
  found <- glob SENT_DIR ".json" ;;
  let logs := sorted_reverse found in
  match logs with
  | [] => print "No emails sent yet."
  | _ :: _ =>
      print (nl +:+ "Sent emails:") ;;
      print (str_mul "-" 80) ;;
      print_logs (take 20 logs) ;;
      print EmptyString
  end.

(** The text of lines 218 to 235. *)
Definition azure_steps : string :=
  nl +:+
  "In Azure Portal:" +:+ nl +:+
  "1. Click 'New registration'" +:+ nl +:+
  "2. Name: CANONIC-EMAIL" +:+ nl +:+
  "3. Supported account types: 'Accounts in this organizational directory only'" +:+ nl +:+
  "4. Redirect URI: Select 'Public client/native' and enter:" +:+ nl +:+
  "   https://login.microsoftonline.com/common/oauth2/nativeclient" +:+ nl +:+
  "5. Click 'Register'" +:+ nl +:+
  nl +:+
  "After registration:" +:+ nl +:+
  "- Copy the 'Application (client) ID'" +:+ nl +:+
  "- Copy the 'Directory (tenant) ID'" +:+ nl +:+
  nl +:+
  "Then go to 'API permissions':" +:+ nl +:+
  "- Add permission > Microsoft Graph > Delegated permissions" +:+ nl +:+
  "- Add: Mail.Send, Mail.ReadWrite, User.Read" +:+ nl +:+
  "- Click 'Grant admin consent' (if you're admin)" +:+ nl.

Definition portal_url : string :=
  "https://portal.azure.com/#blade/Microsoft_AAD_RegisteredApps/ApplicationsListBlade".

Definition setup : io unit :=
  print (nl +:+ str_mul "=" 60) ;;
  print "CANONIC EMAIL SETUP" ;;
  print (str_mul "=" 60) ;;
  print (nl +:+ "Step 1: Register app in Azure Portal") ;;
  print (str_mul "-" 40) ;;
  os_system ("open " +:+ dquote +:+ portal_url +:+ dquote) ;;
  print azure_steps ;;
  print (nl +:+ "Step 2: Enter your credentials") ;;
  print (str_mul "-" 40) ;;
  answer <- input "Application (client) ID: " ;;
  let client := str_strip answer in
  answer <- input "Directory (tenant) ID: " ;;
  let tenant := str_strip answer in
  if truthy (PStr client) && truthy (PStr tenant) then
    let config := PDict (dict_of [("client_id", PStr client); ("tenant_id", PStr tenant)]) in
    save_config config ;;
    print (nl +:+ "Config saved to " +:+ str_path CONFIG_FILE) ;;
    print (nl +:+ "Run: ./email.py send --to someone@example.com --template atom-proposal")
  else
    print (nl +:+ "Setup cancelled. Run ./email.py setup again when ready.").

(** What [parser.parse_args()] returns: the command and, for [send], its
    options, each [None] or a string. *)
Inductive args :=
| CmdSend (to : string) (template subject body : option string)
| CmdTemplates
| CmdLog
| CmdSetup
| CmdLogout
| CmdNone.

(** Lines 308 to 316: the subject and the body to send, or [None] when
    the template was not found. *)
Definition choose_content (template subject body : option string) :
    io (option (option string * option string)) :=
  match template with
  | Some name =>
      if truthy (PStr name) then
        loaded <- load_template name ;;
        let '(t_subject, t_body) := loaded in
        match t_subject with
        | None => io_ret None
        | Some _ => io_ret (Some (opt_or subject t_subject, opt_or body t_body))
        end
      else io_ret (Some (subject, body))
  | None => io_ret (Some (subject, body))
  end.

Definition main (a : args) : io unit :=
  ensure_dirs ;;
  match a with
  | CmdSetup => setup
  | CmdLogout =>
      cached <- exists_file TOKEN_CACHE ;;
      if cached then
        unlink TOKEN_CACHE ;;
        print "Logged out. Token cache cleared."
      else io_ret tt
  | CmdTemplates => list_templates
  | CmdLog => view_log
  | CmdSend to template subject body =>
      config <- load_config ;;
      if negb (truthy config) then print "ERROR: Run ./email.py setup first"
      else
        chosen <- choose_content template subject body ;;
        match chosen with
        | None => io_ret tt
        | Some (Some subject, Some body) =>
            if negb (truthy (PStr subject)) || negb (truthy (PStr body)) then
              print "ERROR: Provide --template or both --subject and --body"
            else
              send_email to subject body config ;;
              io_ret tt
        | Some _ => print "ERROR: Provide --template or both --subject and --body"
        end
  | CmdNone => print format_help
  end.

End Commands.

(** ** A simulated environment

    One concrete implementation of the three interfaces, to run the program
    on examples: a parser for the timestamps [isoformat] prints, a compact
    JSON printer, an identity provider whose user approves or declines the
    device code, and a mail provider that answers every post with the same
    response. *)

Module Sim.

Definition digit_value (c : ascii) : option N :=
  let n := N_of_ascii c in
  if (N.leb 48 n && N.leb n 57)%bool then Some (n - 48)%N else None.

Fixpoint number_from (acc : N) (s : string) : option N :=
  match s with
  | EmptyString => Some acc
  | String c r => d ← digit_value c; number_from (acc * 10 + d)%N r
  end.

(** A field of exactly [width] decimal digits starting at [pos]. *)
Definition field (pos width : nat) (s : string) : option N :=
  let part := String.substring pos width s in
  if Nat.eqb (String.length part) width then number_from 0 part else None.

Definition char_at (pos : nat) (c : ascii) (s : string) : bool :=
  match String.get pos s with
  | Some c' => Ascii.eqb c c'
  | None => false
  end.

Definition in_range (lo hi n : N) : bool := (N.leb lo n && N.leb n hi)%bool.

(** What may follow the seconds: nothing, a fraction of six digits, a
    [+HH:MM] offset, or both. *)
Definition tail_ok (s : string) : option N :=
  let offset_ok (t : string) :=
    (Nat.eqb (String.length t) 0) ||
    ((Nat.eqb (String.length t) 6) &&
     (char_at 0 "+" t || char_at 0 "-" t) && char_at 3 ":" t &&
     match field 1 2 t, field 4 2 t with
     | Some h, Some m => in_range 0 23 h && in_range 0 59 m
     | _, _ => false
     end) in
  if char_at 0 "." s then
    us ← field 1 6 s;
    if offset_ok (String.substring 7 (String.length s - 7) s) then Some us else None
  else if offset_ok s then Some 0%N else None.

(** [YYYY-MM-DD], alone or followed by any one character, [HH:MM:SS] and
    a tail. *)
Definition sim_fromisoformat (s : string) : option datetime :=
  y ← field 0 4 s;
  mo ← field 5 2 s;
  d ← field 8 2 s;
  if negb (char_at 4 "-" s && char_at 7 "-" s &&
           in_range 1 9999 y && in_range 1 12 mo && in_range 1 31 d) then None
  else if Nat.eqb (String.length s) 10 then
    Some {| year := y; month := mo; day := d;
            hour := 0; minute := 0; second := 0; microsecond := 0 |}
  else
    h ← field 11 2 s;
    mi ← field 14 2 s;
    se ← field 17 2 s;
    us ← tail_ok (String.substring 19 (String.length s - 19) s);
    if char_at 13 ":" s && char_at 16 ":" s &&
       in_range 0 23 h && in_range 0 59 mi && in_range 0 59 se
    then Some {| year := y; month := mo; day := d;
                 hour := h; minute := mi; second := se; microsecond := us |}
    else None.

Definition quote : string := String (ascii_of_nat 34) EmptyString.

(** A compact rendering, keys in the order of the map; strings are
    quoted as they are. *)
Fixpoint render (depth : nat) (v : pyval) : string :=
  match depth with
  | O => "..."
  | S depth' =>
      match v with
      | PNone => "null"
      | PBool true => "true"
      | PBool false => "false"
      | PInt z => pretty z
      | PStr s => quote +:+ s +:+ quote
      | PBytes s => "b" +:+ quote +:+ s +:+ quote
      | PList l => "[" +:+ String.concat ", " (map (render depth') l) +:+ "]"
      | PDict d =>
          "{" +:+
          String.concat ", "
            (map (fun kv => quote +:+ fst kv +:+ quote +:+ ": " +:+ render depth' (snd kv))
                 (map_to_list d)) +:+ "}"
      | PDatetime d => quote +:+ isoformat d +:+ quote
      end
  end.

Definition config : pyval :=
  PDict (dict_of [("client_id", PStr "abc"); ("tenant_id", PStr "def")]).

(** What [config.json] holds. *)
Definition config_text : string := render 8 config.

(** [json_loads] reads back the one document the examples store. *)
Definition sim_json_loads (text : string) : option pyval :=
  if String.eqb text config_text then Some config else None.

Lemma sim_json_loads_value text v :
  sim_json_loads text = Some v → json_serializable v = true.
Proof.
  unfold sim_json_loads. destruct (String.eqb text config_text); [| discriminate].
  intros [= <-]. reflexivity.
Qed.

#[export] Instance pylib : PyLib := {
  fromisoformat := sim_fromisoformat;
  json_dumps := render 8;
  json_loads := sim_json_loads;
  json_loads_value := sim_json_loads_value;
  py_repr := render 8
}.

(** The identity provider: will the user approve the device code, and is
    the cached refresh material still good. *)
Record provider := { approves : bool; refresh_valid : bool }.

(** The cache holds the names of the signed-in accounts, one per line of
    its serialized form. *)
#[export] Instance msal : Msal := {
  token_cache := list string;
  account := string;
  idp := provider;
  new_cache := [];
  deserialize := fun _ text =>
    Ok (filter (fun a => a ≠ EmptyString) (str_split (ascii_of_nat 10) text));
  serialize := fun c => String.concat nl c;
  get_accounts := fun _ c => c;
  acquire_token_silent := fun _ _ a c i =>
    if refresh_valid i
    then (Some (dict_of [("access_token", PStr ("token-of-" +:+ a))]), c, i)
    else (None, c, i);
  initiate_device_flow := fun _ _ i =>
    (dict_of [("user_code", PStr "ABCD1234");
              ("verification_uri", PStr "https://microsoft.com/devicelogin")], i);
  acquire_token_by_device_flow := fun _ _ c i =>
    if approves i
    then (dict_of [("access_token", PStr "token-of-user@example.com")],
          (c ++ ["user@example.com"])%list, i)
    else (dict_of [("error", PStr "authorization_declined");
                   ("error_description", PStr "The user declined the request")], c, i)
}.

(** The mail provider: the response it gives, and what it was sent. *)
Record provider_net := { answer : response; outbox : list pyval }.

#[export] Instance requests : Requests := {
  net := provider_net;
  requests_post := fun _ _ payload n =>
    (answer n, {| answer := answer n; outbox := (outbox n ++ [payload])%list |});
  inbox_listing := fun _ n => (([], None), n)
}.

(** The application [get_msal_app] builds from [config]. *)
Definition app : client_app :=
  {| client_id := PStr "abc"; authority := "https://login.microsoftonline.com/def" |}.

(** A cache that knows the given accounts. *)
Definition cache_of (names : list string) : token_cache := names.

(** A clock that stands at noon and advances one microsecond per reading. *)
Definition clock_at_noon (n : nat) : datetime :=
  {| year := 2024; month := 1; day := 1;
     hour := 12; minute := 0; second := 0; microsecond := N.of_nat n |}.

Definition fs_signed_in : filesystem :=
  {| config_json := Some config_text;
     token_cache_json := Some "user@example.com";
     templates := Some ∅;
     sent := Some ∅ |}.

Definition fs_fresh : filesystem :=
  {| config_json := Some config_text;
     token_cache_json := None;
     templates := Some ∅;
     sent := Some ∅ |}.

(** A signed-in user, a provider that answers [status] with [body]. *)
Definition signed_in (status : Z) (body : string) : world :=
  {| fs := fs_signed_in; clock := clock_at_noon; tick := 0;
     idp_state := {| approves := true; refresh_valid := true |};
     net_state := {| answer := {| status_code := status; text := body |}; outbox := [] |};
     trace := [] |}.

(** The same, but the audit directory is missing. *)
Definition without_audit_dir (status : Z) (body : string) : world :=
  set_fs {| config_json := Some config_text;
            token_cache_json := Some "user@example.com";
            templates := Some ∅;
            sent := None |} (signed_in status body).

(** Nobody signed in yet; the user will approve or decline. *)
Definition first_run (approve : bool) : world :=
  {| fs := fs_fresh; clock := clock_at_noon; tick := 0;
     idp_state := {| approves := approve; refresh_valid := true |};
     net_state := {| answer := {| status_code := 202; text := EmptyString |}; outbox := [] |};
     trace := [] |}.

(** An identity provider that refuses to start the device code flow, as
    it does for an application it does not know. *)
Definition msal_refusing : Msal := {|
  token_cache := list string;
  account := string;
  idp := provider;
  new_cache := [];
  deserialize := fun _ text =>
    Ok (filter (fun a => a ≠ EmptyString) (str_split (ascii_of_nat 10) text));
  serialize := fun c => String.concat nl c;
  get_accounts := fun _ c => c;
  acquire_token_silent := fun _ _ a c i => (None, c, i);
  initiate_device_flow := fun _ _ i =>
    (dict_of [("error", PStr "invalid_client");
              ("error_description", PStr "Application not found in the directory")], i);
  acquire_token_by_device_flow := fun _ flow c i => (flow, c, i)
|}.

(** Nobody signed in yet, and that provider. *)
Definition first_run_refused : @world msal_refusing requests :=
  @Build_world msal_refusing requests fs_fresh clock_at_noon 0
    {| approves := true; refresh_valid := true |}
    {| answer := {| status_code := 202; text := EmptyString |}; outbox := [] |}
    [].

(** An identity provider whose device code expires before the user
    enters it. *)
Definition msal_expiring : Msal := {|
  token_cache := list string;
  account := string;
  idp := provider;
  new_cache := [];
  deserialize := fun _ text =>
    Ok (filter (fun a => a ≠ EmptyString) (str_split (ascii_of_nat 10) text));
  serialize := fun c => String.concat nl c;
  get_accounts := fun _ c => c;
  acquire_token_silent := fun _ _ a c i => (None, c, i);
  initiate_device_flow := fun _ _ i =>
    (dict_of [("user_code", PStr "ABCD1234");
              ("verification_uri", PStr "https://microsoft.com/devicelogin")], i);
  acquire_token_by_device_flow := fun _ _ c i =>
    (dict_of [("error", PStr "expired_token");
              ("error_description", PStr "The device code has expired")], c, i)
|}.

(** Nobody signed in yet, and that provider. *)
Definition first_run_expiring : @world msal_expiring requests :=
  @Build_world msal_expiring requests fs_fresh clock_at_noon 0
    {| approves := true; refresh_valid := true |}
    {| answer := {| status_code := 202; text := EmptyString |}; outbox := [] |}
    [].

(** A configuration without [tenant_id]. *)
Definition config_without_tenant : pyval :=
  PDict (dict_of [("client_id", PStr "abc")]).

(** A host: the application lives in [/app], a directory lists its
    files in the order of the map, the user answers the questions of
    [setup] with abc and def and some white space, and the shell does
    nothing to the files. *)
Definition sim_path (f : file) : string :=
  "/app/" +:+
  match f with
  | CONFIG_FILE => "config.json"
  | TOKEN_CACHE => ".token_cache.json"
  | InDir TEMPLATES_DIR name => "templates/" +:+ name
  | InDir SENT_DIR name => "sent/" +:+ name
  end.

#[export] Instance host : Host := {
  str_path := sim_path;
  listdir := fun m => (map_to_list m).*1;
  listdir_perm := fun m => reflexivity ((map_to_list m).*1);
  input := fun prompt w =>
    (Ok (if String.prefix "Application" prompt then "  abc " else " def  "), w);
  os_system := fun _ w => (Ok 0%Z, w);
  format_help := "usage: email.py [-h] {send,templates,log,setup,logout} ..."
}.

(** A template with a subject line, a blank line and a body. *)
Definition template_text : string :=
  "Subject: Proposal" +:+ nl +:+ nl +:+ "Dear reader," +:+ nl +:+ "here it is.".

Definition fs_with_templates : filesystem :=
  {| config_json := Some config_text;
     token_cache_json := Some "user@example.com";
     templates := Some {[ "welcome.md" := template_text; "plain.md" := "Hello" ]};
     sent := Some ∅ |}.

(** A signed-in user with two templates. *)
Definition with_templates (status : Z) (body : string) : world :=
  set_fs fs_with_templates (signed_in status body).

(** Before [setup]: no configuration yet. *)
Definition unconfigured : world :=
  set_fs {| config_json := None; token_cache_json := None;
            templates := None; sent := None |} (first_run true).

End Sim.

(** ** Vocabulary of the statements *)

(** A field is present and non-empty. *)
Definition present (context : gmap string pyval) (field : string) : Prop :=
  ∃ v, context !! field = Some v ∧ truthy v = true.

(** A field is missing, or holds an empty (falsy) value. *)
Definition missing_or_empty (context : gmap string pyval) (field : string) : Prop :=
  context !! field = None ∨ ∃ v, context !! field = Some v ∧ truthy v = false.

(** The audit records a trace wrote: name and text of every file written
    into [SENT_DIR], oldest first. *)
Definition audit_writes (tr : list event) : list (string * string) :=
  omap (fun e => match e with
                 | WriteText (InDir SENT_DIR name) s => Some (name, s)
                 | _ => None
                 end) tr.

(** The posts a trace sent to the mail provider. *)
Definition posts (tr : list event) : list (string * gmap string pyval * pyval) :=
  omap (fun e => match e with
                 | HttpPost url headers payload => Some (url, headers, payload)
                 | _ => None
                 end) tr.

(** The interactive exchanges a trace started. *)
Definition device_flows (tr : list event) : list (list string) :=
  omap (fun e => match e with
                 | InitiateDeviceFlow scopes => Some scopes
                 | _ => None
                 end) tr.

Definition sendmail_url : string := GRAPH_ENDPOINT +:+ "/me/sendMail".

Section Vocabulary.
Context `{PyLib, Msal, Requests}.

(** What a run of the token provider leaves alone: the clock, the mail
    provider, every file but the credential cache, and the audit records
    and posts of the trace. *)
Definition token_frame (w w' : world) : Prop :=
  clock w' = clock w ∧ tick w' = tick w ∧ net_state w' = net_state w ∧
  config_json (fs w') = config_json (fs w) ∧
  templates (fs w') = templates (fs w) ∧
  sent (fs w') = sent (fs w) ∧
  audit_writes (trace w') = audit_writes (trace w) ∧
  posts (trace w') = posts (trace w).

(** The silent stage of [get_access_token] gave no token: either the
    cache knows no account, or the silent acquisition for the first
    account answered [None], an empty dict or a dict without
    [access_token].  The cache and the world it leaves are those the
    device code flow starts from. *)
Inductive silent_stage_fails (app : client_app) (cache : token_cache) (w : world) :
  token_cache -> world -> Prop :=
| no_account :
    get_accounts app cache = [] →
    silent_stage_fails app cache w cache w
| no_silent_token first rest result cache' i :
    get_accounts app cache = first :: rest →
    acquire_token_silent app SCOPES first cache (idp_state w) = (result, cache', i) →
    match result with
    | Some d => truthy (PDict d) && dict_in "access_token" d = false
    | None => True
    end →
    silent_stage_fails app cache w cache'
      (log_event (AcquireTokenSilent SCOPES) (set_idp i w)).

End Vocabulary.

(** The context [validate] documents as its input: to, subject, body,
    timestamp, here all strings. *)
Definition send_context (to subject body timestamp : string) : gmap string pyval :=
  dict_of [("to", PStr to); ("subject", PStr subject);
           ("body", PStr body); ("timestamp", PStr timestamp)].

(** The file name both writers build: compact timestamp, hyphen, prefix,
    extension. *)
Definition audit_file_name (stamp : datetime) (prefix : string) : string :=
  strftime_compact stamp +:+ "-" +:+ prefix +:+ ".json".

(** The lines of the success report of [send_email], lines 145 to 152. *)
Definition success_report (to subject name : string) : list string :=
  [str_mul "=" 60; "EMAIL SENT"; str_mul "=" 60;
   "To:      " +:+ to; "Subject: " +:+ subject; "Log:     " +:+ name;
   "Outlook: Check your Sent folder!"; str_mul "=" 60].

(** The part of an address before its first [@]. *)
Definition local_part (to : string) : string :=
  match str_split "@"%char to with
  | part :: _ => part
  | [] => EmptyString
  end.

(** Two clock readings in the same second. *)
Definition same_second (a b : datetime) : Prop :=
  year a = year b ∧ month a = month b ∧ day a = day b ∧
  hour a = hour b ∧ minute a = minute b ∧ second a = second b.

(** What a trace did besides printing, oldest first. *)
Definition actions (tr : list event) : list event :=
  omap (fun e => match e with
                 | Print _ => None
                 | _ => Some e
                 end) tr.

(** What is wrong with a configuration the application cannot be built
    from: [config["client_id"]] or [config["tenant_id"]] raises. *)
Definition config_error (config : pyval) : option exn :=
  match config with
  | PDict d =>
      if dict_in "client_id" d && dict_in "tenant_id" d then None else Some KeyError
  | _ => Some TypeError
  end.

Section Indistinguishable.
Context `{PyLib, Msal, Requests}.

(** Two worlds that differ in their file systems only, which started as
    [f] and [g] and since then had, at most, the same text written to the
    credential cache. *)
Definition same_but_fs (f g : filesystem) (w1 w2 : world) : Prop :=
  clock w1 = clock w2 ∧ tick w1 = tick w2 ∧ idp_state w1 = idp_state w2 ∧
  net_state w1 = net_state w2 ∧ trace w1 = trace w2 ∧
  ((fs w1 = f ∧ fs w2 = g) ∨
   ∃ text, fs w1 = token_saved f text ∧ fs w2 = token_saved g text).

(** A computation that cannot tell such worlds apart. *)
Definition respects (f g : filesystem) {A} (m : io A) : Prop :=
  ∀ w1 w2, same_but_fs f g w1 w2 →
    fst (m w1) = fst (m w2) ∧ same_but_fs f g (snd (m w1)) (snd (m w2)).

(** The world once [ensure_dirs] ran: both directories are there, with
    what they held. *)
Definition started (w : world) : world :=
  set_fs (fs_mkdir (fs_mkdir (fs w) TEMPLATES_DIR) SENT_DIR) w.

(** The world after these lines were printed, one after the other. *)
Definition printed (lines : list string) (w : world) : world :=
  foldl (fun w line => log_event (Print line) w) w lines.

(** What [main] makes of the result of [send_email]: it drops it. *)
Definition dropped {A} (r : outcome A) : outcome unit :=
  match r with
  | Ok _ => Ok tt
  | Raise e => Raise e
  end.

End Indistinguishable.

(** * The send gate *)

Lemma absent_or_empty_true context field :
  missing_or_empty context field → absent_or_empty context field = true.
Proof.
  unfold absent_or_empty, dict_in.
  intros [Hnone | (v & Hv & Hfalsy)].
  - rewrite Hnone. reflexivity.
  - rewrite Hv, Hfalsy. reflexivity.
Qed.

Lemma absent_or_empty_false context field :
  present context field → absent_or_empty context field = false.
Proof.
  unfold absent_or_empty, dict_in.
  intros (v & Hv & Htruthy). rewrite Hv, Htruthy. reflexivity.
Qed.

Lemma first_missing_all_present context :
  present context "to" → present context "subject" → present context "timestamp" →
  first_missing required context = None.
Proof.
  intros Hto Hsubject Hts. unfold required. simpl.
  rewrite !absent_or_empty_false by assumption. reflexivity.
Qed.

Section Gate.
Context `{PyLib, Msal, Requests}.

(** The rules of [validate], one by one, each under the assumption that
    the rules before it passed. *)
Lemma validate_missing_first context w field :
  first_missing required context = Some field →
  validate context w = (Ok (verdict "fail" ("Missing required field: " +:+ field)), w).
Proof. intros Hfirst. unfold validate. rewrite Hfirst. reflexivity. Qed.

Lemma validate_bad_timestamp context w :
  first_missing required context = None →
  parse_timestamp context = Raise ValueError ∨
  parse_timestamp context = Raise AttributeError →
  validate context w = (Ok (verdict "fail" "Invalid timestamp format"), w).
Proof.
  intros Hfirst [Hparse | Hparse]; unfold validate; rewrite Hfirst, Hparse; reflexivity.
Qed.

Lemma validate_parsed context w d :
  first_missing required context = None →
  parse_timestamp context = Ok d →
  validate context w =
    (Ok (if dir_exists (fs w) SENT_DIR then verdict "pass" "Audit trail ready"
         else verdict "fail" "Audit directory does not exist"), w).
Proof.
  intros Hfirst Hparse. unfold validate. rewrite Hfirst, Hparse.
  unfold io_bind, exists_dir, io_ret. simpl.
  destruct (dir_exists (fs w) SENT_DIR); reflexivity.
Qed.

Lemma parse_timestamp_str context s :
  context !! "timestamp" = Some (PStr s) →
  parse_timestamp context =
    match fromisoformat (str_replace "Z"%char "+00:00" s) with
    | Some d => Ok d
    | None => Raise ValueError
    end.
Proof.
  intros Hts. unfold parse_timestamp, getitem. rewrite Hts. reflexivity.
Qed.

(** C6. The rules are checked in the fixed order (required fields, then
    timestamp format, then audit directory) and the first one that fails
    decides: a context whose [to] is missing or empty fails with
    "Missing required field: to" whatever its other fields, timestamp
    included, and whatever the file system; each later rule decides only
    when those before it passed. *)
Theorem validate_first_failing_rule_wins (context : gmap string pyval) (w : world) :
  (missing_or_empty context "to" →
     validate context w = (Ok (verdict "fail" "Missing required field: to"), w)) ∧
  (present context "to" → missing_or_empty context "subject" →
     validate context w = (Ok (verdict "fail" "Missing required field: subject"), w)) ∧
  (present context "to" → present context "subject" →
   missing_or_empty context "timestamp" →
     validate context w = (Ok (verdict "fail" "Missing required field: timestamp"), w)) ∧
  (∀ s, present context "to" → present context "subject" →
        context !! "timestamp" = Some (PStr s) → s ≠ EmptyString →
        fromisoformat (str_replace "Z"%char "+00:00" s) = None →
     validate context w = (Ok (verdict "fail" "Invalid timestamp format"), w)) ∧
  (∀ s d, present context "to" → present context "subject" →
          context !! "timestamp" = Some (PStr s) → s ≠ EmptyString →
          fromisoformat (str_replace "Z"%char "+00:00" s) = Some d →
     (sent (fs w) = None →
        validate context w = (Ok (verdict "fail" "Audit directory does not exist"), w)) ∧
     (sent (fs w) ≠ None →
        validate context w = (Ok (verdict "pass" "Audit trail ready"), w))).
Proof.
  assert (Hstr : ∀ s, context !! "timestamp" = Some (PStr s) → s ≠ EmptyString →
                      present context "timestamp").
  { intros s Hts Hne. exists (PStr s). split; [exact Hts |].
    simpl. destruct (String.eqb_spec s EmptyString); [contradiction | reflexivity]. }
  split; [| split; [| split; [| split]]].
  - intros Hto. apply (validate_missing_first context w "to").
    unfold required. simpl. rewrite absent_or_empty_true by assumption. reflexivity.
  - intros Hto Hsubject. apply (validate_missing_first context w "subject").
    unfold required. simpl.
    rewrite absent_or_empty_false, absent_or_empty_true by assumption. reflexivity.
  - intros Hto Hsubject Hts. apply (validate_missing_first context w "timestamp").
    unfold required. simpl.
    rewrite !absent_or_empty_false, absent_or_empty_true by assumption. reflexivity.
  - intros s Hto Hsubject Hts Hne Hparse. apply validate_bad_timestamp.
    + apply first_missing_all_present; eauto.
    + left. rewrite (parse_timestamp_str _ _ Hts), Hparse. reflexivity.
  - intros s d Hto Hsubject Hts Hne Hparse.
    assert (Hrun := validate_parsed context w d).
    rewrite Hrun.
    + unfold dir_exists. simpl.
      split; intros Hsent; destruct (sent (fs w)); congruence.
    + apply first_missing_all_present; eauto.
    + rewrite (parse_timestamp_str _ _ Hts), Hparse. reflexivity.
Qed.

End Gate.

Section GateTotality.
Context `{PyLib, Msal, Requests}.

(** A timestamp that is truthy and has no [replace] attribute is
    rejected: the AttributeError is caught. *)
Lemma validate_timestamp_without_replace context w ts :
  present context "to" → present context "subject" →
  context !! "timestamp" = Some ts → truthy ts = true →
  py_replace ts "Z"%char "+00:00" = Raise AttributeError →
  validate context w = (Ok (verdict "fail" "Invalid timestamp format"), w).
Proof.
  intros Hto Hsubject Hts Htruthy Hattr.
  apply validate_bad_timestamp.
  - apply first_missing_all_present; [assumption | assumption |].
    exists ts. auto.
  - right. unfold parse_timestamp, getitem. rewrite Hts. simpl. rewrite Hattr.
    reflexivity.
Qed.

(** A timestamp whose [replace] exists and rejects [str] arguments, a
    [bytes] or a [datetime] value, makes [validate] raise. *)
Lemma validate_raises_when_replace_rejects_str context w ts :
  present context "to" → present context "subject" →
  context !! "timestamp" = Some ts → truthy ts = true →
  py_replace ts "Z"%char "+00:00" = Raise TypeError →
  validate context w = (Raise TypeError, w).
Proof.
  intros Hto Hsubject Hts Htruthy Htype.
  unfold validate.
  rewrite first_missing_all_present; [| assumption | assumption | exists ts; auto].
  unfold parse_timestamp, getitem. rewrite Hts. simpl. rewrite Htype. reflexivity.
Qed.

(** C10. [validate] is not total: on the context
    [{"to": "a@b.com", "subject": "Hi", "timestamp": b"2024-01-01T00:00:00Z"}],
    whose three required entries are present and truthy and whose
    timestamp is a [bytes] value, not a string, [bytes.replace] rejects
    the [str] arguments with a TypeError, which the handler for ValueError
    and AttributeError does not catch: the exception leaves [validate].
    This holds in every state and for every library behaviour. *)
Theorem validate_raises_on_bytes_timestamp (w : world) :
  validate (dict_of [("to", PStr "a@b.com"); ("subject", PStr "Hi");
                     ("timestamp", PBytes "2024-01-01T00:00:00Z")]) w
  = (Raise TypeError, w).
Proof. reflexivity. Qed.

End GateTotality.

(** * Running the effects *)

Lemma dict_with_key_truthy (d : gmap string pyval) k v :
  d !! k = Some v → truthy (PDict d) = true.
Proof.
  intros Hk. simpl. destruct (size d) eqn:Hsize; [| reflexivity].
  apply map_size_empty_iff in Hsize. subst d. rewrite lookup_empty in Hk. discriminate.
Qed.

Lemma audit_writes_snoc tr e :
  audit_writes (tr ++ [e]) = (audit_writes tr ++ audit_writes [e])%list.
Proof. apply omap_app. Qed.

Lemma posts_snoc tr e : posts (tr ++ [e]) = (posts tr ++ posts [e])%list.
Proof. apply omap_app. Qed.

Lemma device_flows_snoc tr e :
  device_flows (tr ++ [e]) = (device_flows tr ++ device_flows [e])%list.
Proof. apply omap_app. Qed.

Ltac trace_simpl :=
  rewrite ?audit_writes_snoc, ?posts_snoc, ?device_flows_snoc;
  cbn [audit_writes posts device_flows omap list_omap];
  rewrite ?app_nil_r.

Ltac frame_done :=
  unfold token_frame; cbn [fs clock tick idp_state net_state trace
    set_fs set_idp set_net advance log_event token_saved
    config_json templates sent];
  trace_simpl; repeat split; reflexivity.

Lemma str_split_cons sep s : ∃ h t, str_split sep s = h :: t.
Proof.
  induction s as [| c r (h & t & IH)]; simpl.
  - eauto.
  - destruct (Ascii.eqb c sep); [eauto |]. rewrite IH. eauto.
Qed.

Lemma index0_split_local_part to :
  index0 (str_split "@"%char to) = Ok (local_part to).
Proof.
  unfold local_part. destruct (str_split_cons "@"%char to) as (h & t & ->). reflexivity.
Qed.

Section Runs.
Context `{PyLib, Msal, Requests}.

Lemma io_bind_ok {A B} (m : io A) (k : A → io B) w a w' :
  m w = (Ok a, w') → io_bind m k w = k a w'.
Proof. intros Hm. unfold io_bind. rewrite Hm. reflexivity. Qed.

Lemma io_bind_raise {A B} (m : io A) (k : A → io B) w e w' :
  m w = (Raise e, w') → io_bind m k w = (Raise e, w').
Proof. intros Hm. unfold io_bind. rewrite Hm. reflexivity. Qed.

Lemma token_frame_refl w : token_frame w w.
Proof. repeat split. Qed.

Lemma token_frame_trans w1 w2 w3 :
  token_frame w1 w2 → token_frame w2 w3 → token_frame w1 w3.
Proof.
  unfold token_frame. intros (?&?&?&?&?&?&?&?) (?&?&?&?&?&?&?&?).
  repeat split; congruence.
Qed.

Lemma silent_mark_frame w i :
  token_frame w (log_event (AcquireTokenSilent SCOPES) (set_idp i w)).
Proof. frame_done. Qed.

(** [ensure_dirs] leaves both directories in place, with what they held. *)
Lemma ensure_dirs_sent_exists w :
  ∃ w', ensure_dirs w = (Ok tt, w') ∧ dir_exists (fs w') SENT_DIR = true ∧
        (∀ m, sent (fs w) = Some m → sent (fs w') = Some m).
Proof.
  unfold ensure_dirs, io_bind, mkdir. eexists. split; [reflexivity |].
  unfold fs_mkdir, dir_exists, entries, set_entries. simpl.
  destruct (templates (fs w)); destruct (sent (fs w)) eqn:Hsent; simpl;
    rewrite ?Hsent; simpl; split; congruence.
Qed.

End Runs.

(** * The token provider *)

Section TokenProvider.
Context `{PyLib, Msal, Requests}.

(** Building the application only reads. *)
Lemma get_msal_app_pure config w r w' :
  get_msal_app config w = (r, w') → w' = w.
Proof.
  unfold get_msal_app, io_bind, exists_file, read_text, lift, io_ret.
  destruct (file_exists (fs w) TOKEN_CACHE).
  - destruct (fs_read (fs w) TOKEN_CACHE) as [text | e]; [| congruence].
    destruct (deserialize new_cache text) as [cache | e]; [| congruence].
    destruct (subscript config "client_id"); [| congruence].
    destruct (subscript config "tenant_id"); congruence.
  - destruct (subscript config "client_id"); [| congruence].
    destruct (subscript config "tenant_id"); congruence.
Qed.

(** With a persisted cache, the application starts from what
    [deserialize] makes of the file. *)
Lemma get_msal_app_loaded config w text cache cid tid :
  token_cache_json (fs w) = Some text →
  deserialize new_cache text = Ok cache →
  subscript config "client_id" = Ok cid →
  subscript config "tenant_id" = Ok tid →
  get_msal_app config w =
    (Ok ({| client_id := cid;
            authority := "https://login.microsoftonline.com/" +:+ py_str tid |},
         cache), w).
Proof.
  intros Hfile Hload Hcid Htid.
  unfold get_msal_app, io_bind, exists_file, read_text, lift, io_ret,
    file_exists, fs_read, content.
  cbv beta iota. rewrite Hfile. cbv beta iota. rewrite Hfile, Hload.
  cbv beta iota. rewrite Hcid, Htid. reflexivity.
Qed.

(** Every run of the device code flow: it leaves the file system as it
    was, unless the exchange gave a token, and then the only change is
    the credential cache, written from the cache the exchange updated. *)
Lemma device_code_flow_cases app cache w r w' :
  device_code_flow app cache w = (r, w') →
  token_frame w w' ∧
  ((fs w' = fs w ∧ (r = Ok PNone ∨ r = Raise KeyError)) ∨
   (∃ flow i1 result cache' i2,
      initiate_device_flow app SCOPES (idp_state w) = (flow, i1) ∧
      acquire_token_by_device_flow app flow cache i1 = (result, cache', i2) ∧
      dict_in "access_token" result = true ∧
      r = getitem result "access_token" ∧
      fs w' = token_saved (fs w) (serialize cache'))).
Proof.
  unfold device_code_flow, io_bind, with_idp, print, emit, lift, io_ret, write_text.
  destruct (initiate_device_flow app SCOPES (idp_state w)) as [flow i1] eqn:Hflow.
  destruct (dict_in "user_code" flow); cbn [negb].
  2:{ intros [= <- <-]. split; [frame_done |]. left. auto. }
  unfold getitem at 1.
  destruct (flow !! "verification_uri") as [uri |].
  2:{ intros [= <- <-]. split; [frame_done |]. left. auto. }
  unfold getitem at 1.
  destruct (flow !! "user_code") as [code |].
  2:{ intros [= <- <-]. split; [frame_done |]. left. auto. }
  cbn [idp_state log_event set_idp].
  destruct (acquire_token_by_device_flow app flow cache i1)
    as [[result cache'] i2] eqn:Hpoll.
  destruct (dict_in "access_token" result) eqn:Htok.
  - cbn [fs_write fs log_event set_idp set_fs].
    intros Hrun.
    destruct (getitem result "access_token") eqn:Hget; injection Hrun as <- <-.
    all: split; [frame_done |]; right; exists flow, i1, result, cache', i2; auto.
  - intros [= <- <-]. split; [frame_done |]. left. auto.
Qed.

(** The exchange is denied or expires: the answer has no token. *)
Lemma device_code_flow_denied app cache w flow i1 uri code result cache' i2 :
  initiate_device_flow app SCOPES (idp_state w) = (flow, i1) →
  flow !! "user_code" = Some code →
  flow !! "verification_uri" = Some uri →
  acquire_token_by_device_flow app flow cache i1 = (result, cache', i2) →
  dict_in "access_token" result = false →
  ∃ w', device_code_flow app cache w = (Ok PNone, w') ∧
        fs w' = fs w ∧
        last (trace w') =
          Some (Print ("ERROR: " +:+
                       py_str (dict_get result "error_description"
                                 (PStr "Authentication failed")))).
Proof.
  intros Hflow Hcode Huri Hpoll Hnone.
  unfold device_code_flow, io_bind, with_idp, print, emit, lift, io_ret.
  rewrite Hflow. unfold dict_in at 1. rewrite Hcode. cbn [negb].
  unfold getitem. rewrite Huri, Hcode.
  cbn [idp_state log_event set_idp]. rewrite Hpoll, Hnone.
  eexists. split; [reflexivity |]. split; [reflexivity |].
  cbn [trace log_event]. apply last_snoc.
Qed.

(** The exchange is approved: the cache it updated is persisted, then
    the token returned. *)
Lemma device_code_flow_approved app cache w flow i1 uri code result cache' i2 tok :
  initiate_device_flow app SCOPES (idp_state w) = (flow, i1) →
  flow !! "user_code" = Some code →
  flow !! "verification_uri" = Some uri →
  acquire_token_by_device_flow app flow cache i1 = (result, cache', i2) →
  result !! "access_token" = Some tok →
  ∃ w', device_code_flow app cache w = (Ok tok, w') ∧
        fs w' = token_saved (fs w) (serialize cache') ∧
        idp_state w' = i2.
Proof.
  intros Hflow Hcode Huri Hpoll Htok.
  unfold device_code_flow, io_bind, with_idp, print, emit, lift, io_ret, write_text.
  rewrite Hflow. unfold dict_in at 1. rewrite Hcode. cbn [negb].
  unfold getitem at 1 2. rewrite Huri, Hcode.
  cbn [idp_state log_event set_idp]. rewrite Hpoll.
  unfold dict_in, getitem. rewrite Htok.
  eexists. split; [reflexivity |]. split; reflexivity.
Qed.

(** The silent path. *)
Lemma get_access_token_silent config w app cache first rest d cache' i tok :
  get_msal_app config w = (Ok (app, cache), w) →
  get_accounts app cache = first :: rest →
  acquire_token_silent app SCOPES first cache (idp_state w) = (Some d, cache', i) →
  d !! "access_token" = Some tok →
  get_access_token config w =
    (Ok tok, log_event (AcquireTokenSilent SCOPES) (set_idp i w)).
Proof.
  intros Happ Haccounts Hsilent Htok.
  unfold get_access_token, io_bind. rewrite Happ, Haccounts.
  unfold with_idp. rewrite Hsilent.
  rewrite (dict_with_key_truthy d _ _ Htok).
  unfold dict_in, lift, getitem. rewrite Htok. reflexivity.
Qed.

(** Without a silent token, the request is the device code flow. *)
Lemma get_access_token_falls_through config w app cache cache1 w1 :
  get_msal_app config w = (Ok (app, cache), w) →
  silent_stage_fails app cache w cache1 w1 →
  get_access_token config w = device_code_flow app cache1 w1.
Proof.
  intros Happ Hstage.
  unfold get_access_token, io_bind. rewrite Happ.
  destruct Hstage as [Hnone | first rest result cache' i Haccounts Hsilent Hresult].
  - rewrite Hnone. reflexivity.
  - rewrite Haccounts. unfold with_idp. rewrite Hsilent.
    destruct result as [d |]; [| reflexivity].
    rewrite Hresult. reflexivity.
Qed.

Lemma silent_stage_fails_frame app cache w cache1 w1 :
  silent_stage_fails app cache w cache1 w1 → token_frame w w1 ∧ fs w1 = fs w.
Proof.
  intros [Hnone | first rest result cache' i Haccounts Hsilent Hresult].
  - split; [apply token_frame_refl | reflexivity].
  - split; [apply silent_mark_frame | reflexivity].
Qed.

(** Every run of [get_access_token]: the file system is as it was, or a
    device code exchange gave a token and the credential cache now holds
    the cache that exchange updated. *)
Lemma get_access_token_cases config w r w' :
  get_access_token config w = (r, w') →
  token_frame w w' ∧
  (fs w' = fs w ∨
   ∃ app cache flow i1 result cache' i2,
     acquire_token_by_device_flow app flow cache i1 = (result, cache', i2) ∧
     dict_in "access_token" result = true ∧
     r = getitem result "access_token" ∧
     fs w' = token_saved (fs w) (serialize cache')).
Proof.
  unfold get_access_token, io_bind.
  destruct (get_msal_app config w) as [[[app cache] | e] w0] eqn:Happ;
    apply get_msal_app_pure in Happ; subst w0.
  2:{ intros [= <- <-]. split; [apply token_frame_refl | auto]. }
  assert (Hflow : ∀ cache1 w1, token_frame w w1 → fs w1 = fs w →
            device_code_flow app cache1 w1 = (r, w') →
            token_frame w w' ∧
            (fs w' = fs w ∨
             ∃ app cache flow i1 result cache' i2,
               acquire_token_by_device_flow app flow cache i1 = (result, cache', i2) ∧
               dict_in "access_token" result = true ∧
               r = getitem result "access_token" ∧
               fs w' = token_saved (fs w) (serialize cache'))).
  { intros cache1 w1 Hframe Hfs Hrun.
    apply device_code_flow_cases in Hrun as [Hframe' Hcases].
    split; [eapply token_frame_trans; eassumption |].
    destruct Hcases as [[Hsame _] |
      (flow & i1 & result & cache' & i2 & _ & Hpoll & Hin & Hr & Hfs')].
    - left. congruence.
    - right. exists app, cache1, flow, i1, result, cache', i2.
      rewrite Hfs', Hfs. auto. }
  destruct (get_accounts app cache) as [| first rest].
  { apply Hflow; [apply token_frame_refl | reflexivity]. }
  unfold with_idp.
  destruct (acquire_token_silent app SCOPES first cache (idp_state w))
    as [[result cache1] i] eqn:Hsilent.
  destruct result as [d |].
  2:{ apply Hflow; [apply silent_mark_frame | reflexivity]. }
  destruct (truthy (PDict d) && dict_in "access_token" d).
  2:{ apply Hflow; [apply silent_mark_frame | reflexivity]. }
  unfold lift. intros [= <- <-]. split; [apply silent_mark_frame | left; reflexivity].
Qed.

Lemma print_lines_fs lines w :
  ∃ w', print_lines lines w = (Ok tt, w') ∧ fs w' = fs w.
Proof.
  revert w. induction lines as [| line rest IH]; intros w; simpl.
  - eexists. split; reflexivity.
  - unfold io_bind, print, emit.
    destruct (IH (log_event (Print line) w)) as (w' & Hrun & Hfs).
    exists w'. split; [exact Hrun | exact Hfs].
Qed.

(** Every run of the stand-alone script, likewise. *)
Lemma auth_script_cases w r w' :
  auth_script w = (r, w') →
  fs w' = fs w ∨
  ∃ app flow i1 result cache' i2,
    acquire_token_by_device_flow app flow new_cache i1 = (result, cache', i2) ∧
    dict_in "access_token" result = true ∧
    fs w' = token_saved (fs w) (serialize cache').
Proof.
  unfold auth_script, io_bind, read_text, lift, print, emit, with_idp, with_net,
    write_text, io_ret.
  destruct (fs_read (fs w) CONFIG_FILE) as [text | e]; [| intros [= <- <-]; auto].
  destruct (json_loads text) as [config |]; [| intros [= <- <-]; auto].
  destruct (subscript config "client_id") as [cid | e]; [| intros [= <- <-]; auto].
  destruct (subscript config "tenant_id") as [tid | e]; [| intros [= <- <-]; auto].
  cbn [idp_state log_event].
  match goal with
  | |- context [initiate_device_flow ?a SCOPES (idp_state w)] =>
      set (app := a);
      destruct (initiate_device_flow app SCOPES (idp_state w)) as [flow i1] eqn:Hflow
  end.
  unfold getitem, dict_in.
  destruct (flow !! "verification_uri") as [uri |]; [| intros [= <- <-]; auto].
  destruct (flow !! "user_code") as [code |]; [| intros [= <- <-]; auto].
  cbn [idp_state log_event set_idp].
  destruct (acquire_token_by_device_flow app flow new_cache i1)
    as [[result cache'] i2] eqn:Hpoll.
  destruct (result !! "access_token") as [token |] eqn:Htok.
  2:{ intros Hrun. left. injection Hrun as _ <-. reflexivity. }
  cbn [fs_write fs log_event set_idp set_fs net_state].
  intros Hrun. right. exists app, flow, i1, result, cache', i2.
  split; [exact Hpoll |]. split; [rewrite Htok; reflexivity |].
  destruct (inbox_listing token (net_state w)) as [[lines failure] n].
  cbn [fst snd] in Hrun.
  match type of Hrun with
  | context [print_lines lines ?w0] =>
      destruct (print_lines_fs lines w0) as (w1 & Hprint & Hfs);
      rewrite Hprint in Hrun
  end.
  destruct failure; injection Hrun as <- <-; rewrite Hfs; reflexivity.
Qed.

End TokenProvider.

Section TokenProviderClaims.
Context `{PyLib, Msal, Requests}.

(** C8. A token request whose device code exchange fails (the answer of
    the provider carries no [access_token]: denied or expired) returns
    [None] after printing the error with the description the provider
    gave, and leaves the file system, the credential cache included, as
    it was.  And in every run of [get_access_token], and of the
    stand-alone script, the file system changes only by the credential
    cache being written from the cache that a successful exchange
    updated. *)
Theorem failed_exchange_persists_nothing :
  (∀ config w app cache cache1 w1 flow i1 uri code result cache' i2,
     get_msal_app config w = (Ok (app, cache), w) →
     silent_stage_fails app cache w cache1 w1 →
     initiate_device_flow app SCOPES (idp_state w1) = (flow, i1) →
     flow !! "user_code" = Some code →
     flow !! "verification_uri" = Some uri →
     acquire_token_by_device_flow app flow cache1 i1 = (result, cache', i2) →
     dict_in "access_token" result = false →
     ∃ w', get_access_token config w = (Ok PNone, w') ∧
           fs w' = fs w ∧
           last (trace w') =
             Some (Print ("ERROR: " +:+
                          py_str (dict_get result "error_description"
                                    (PStr "Authentication failed"))))) ∧
  (∀ config w r w',
     get_access_token config w = (r, w') →
     fs w' = fs w ∨
     ∃ app cache flow i1 result cache' i2,
       acquire_token_by_device_flow app flow cache i1 = (result, cache', i2) ∧
       dict_in "access_token" result = true ∧
       r = getitem result "access_token" ∧
       fs w' = token_saved (fs w) (serialize cache')) ∧
  (∀ w r w',
     auth_script w = (r, w') →
     fs w' = fs w ∨
     ∃ app flow i1 result cache' i2,
       acquire_token_by_device_flow app flow new_cache i1 = (result, cache', i2) ∧
       dict_in "access_token" result = true ∧
       fs w' = token_saved (fs w) (serialize cache')).
Proof.
  split; [| split].
  - intros config w app cache cache1 w1 flow i1 uri code result cache' i2
      Happ Hstage Hflow Hcode Huri Hpoll Hnone.
    rewrite (get_access_token_falls_through _ _ _ _ _ _ Happ Hstage).
    destruct (device_code_flow_denied _ _ _ _ _ _ _ _ _ _ Hflow Hcode Huri Hpoll Hnone)
      as (w' & Hrun & Hfs & Hlast).
    exists w'. split; [exact Hrun |]. split; [| exact Hlast].
    apply silent_stage_fails_frame in Hstage as [_ Hsame]. congruence.
  - intros config w r w' Hrun.
    apply get_access_token_cases in Hrun as [_ Hcases]. exact Hcases.
  - intros w r w' Hrun. apply auth_script_cases in Hrun. exact Hrun.
Qed.

(** C9. When the loaded credential cache knows an account and the silent
    acquisition for the scopes Mail.Send, Mail.ReadWrite, User.Read
    answers with a token, [get_access_token] returns that token at once:
    the only event of the run is the silent acquisition, no device code
    exchange is started and nothing is written.  In particular, after a
    device code flow that gave a token, the credential cache file holds
    the cache that exchange updated, the next request loads it, and under
    the same two conditions on what it loaded it takes the silent path. *)
Theorem cached_token_skips_device_flow :
  (∀ config w app cache first rest d cache' i tok,
     get_msal_app config w = (Ok (app, cache), w) →
     get_accounts app cache = first :: rest →
     acquire_token_silent app SCOPES first cache (idp_state w) = (Some d, cache', i) →
     d !! "access_token" = Some tok →
     ∃ w', get_access_token config w = (Ok tok, w') ∧
           trace w' = (trace w ++ [AcquireTokenSilent SCOPES])%list ∧
           device_flows (trace w') = device_flows (trace w) ∧
           fs w' = fs w) ∧
  (∀ app0 cache0 w0 tok0 w config cid tid,
     device_code_flow app0 cache0 w0 = (Ok tok0, w) →
     truthy tok0 = true →
     subscript config "client_id" = Ok cid →
     subscript config "tenant_id" = Ok tid →
     ∃ flow i1 result saved i2,
       acquire_token_by_device_flow app0 flow cache0 i1 = (result, saved, i2) ∧
       token_cache_json (fs w) = Some (serialize saved) ∧
       ∀ cache first rest d cache' i tok,
         deserialize new_cache (serialize saved) = Ok cache →
         get_accounts
           {| client_id := cid;
              authority := "https://login.microsoftonline.com/" +:+ py_str tid |}
           cache = first :: rest →
         acquire_token_silent
           {| client_id := cid;
              authority := "https://login.microsoftonline.com/" +:+ py_str tid |}
           SCOPES first cache (idp_state w) = (Some d, cache', i) →
         d !! "access_token" = Some tok →
         ∃ w', get_access_token config w = (Ok tok, w') ∧
               trace w' = (trace w ++ [AcquireTokenSilent SCOPES])%list ∧
               device_flows (trace w') = device_flows (trace w)).
Proof.
  assert (Hsilent : ∀ config w app cache first rest d cache' i tok,
     get_msal_app config w = (Ok (app, cache), w) →
     get_accounts app cache = first :: rest →
     acquire_token_silent app SCOPES first cache (idp_state w) = (Some d, cache', i) →
     d !! "access_token" = Some tok →
     ∃ w', get_access_token config w = (Ok tok, w') ∧
           trace w' = (trace w ++ [AcquireTokenSilent SCOPES])%list ∧
           device_flows (trace w') = device_flows (trace w) ∧
           fs w' = fs w).
  { intros config w app cache first rest d cache' i tok Happ Haccounts Hcall Htok.
    eexists. split; [eapply get_access_token_silent; eassumption |].
    cbn [trace log_event set_idp fs]. split; [reflexivity |].
    split; [| reflexivity]. trace_simpl. reflexivity. }
  split; [exact Hsilent |].
  intros app0 cache0 w0 tok0 w config cid tid Hrun Htruthy Hcid Htid.
  apply device_code_flow_cases in Hrun as [_ [[_ [Hr | Hr]] |
    (flow & i1 & result & saved & i2 & _ & Hpoll & _ & _ & Hfs)]].
  - injection Hr as ->. discriminate Htruthy.
  - discriminate Hr.
  - exists flow, i1, result, saved, i2. split; [exact Hpoll |].
    assert (Hfile : token_cache_json (fs w) = Some (serialize saved))
      by (rewrite Hfs; reflexivity).
    split; [exact Hfile |].
    intros cache first rest d cache' i tok Hload Haccounts Hcall Htok.
    destruct (Hsilent config w _ cache first rest d cache' i tok
                (get_msal_app_loaded _ _ _ _ _ _ Hfile Hload Hcid Htid)
                Haccounts Hcall Htok) as (w' & Hnext & Htrace & Hflows & _).
    exists w'. auto.
Qed.

End TokenProviderClaims.

(** * The mail sender and the audit log *)

Lemma append_length a b : String.length (a +:+ b) = String.length a + String.length b.
Proof. induction a as [| c a IH]; simpl; [reflexivity | rewrite IH; reflexivity]. Qed.

Lemma append_inj_r s x y : x +:+ s = y +:+ s → x = y.
Proof.
  revert y. induction x as [| c x IH]; intros [| d y] Heq.
  - reflexivity.
  - apply (f_equal String.length) in Heq. rewrite !append_length in Heq.
    simpl in Heq. lia.
  - apply (f_equal String.length) in Heq. rewrite !append_length in Heq.
    simpl in Heq. lia.
  - change (String c (x +:+ s) = String d (y +:+ s)) in Heq.
    injection Heq as -> Heq. f_equal. apply IH. exact Heq.
Qed.

Lemma same_second_strftime a b : same_second a b → strftime_compact a = strftime_compact b.
Proof.
  unfold same_second, strftime_compact.
  intros (-> & -> & -> & -> & -> & ->). reflexivity.
Qed.

(** With the same compact timestamp, the file name determines the prefix. *)
Lemma audit_file_name_inj a b p q :
  same_second a b →
  (audit_file_name a p = audit_file_name b q ↔ p = q).
Proof.
  intros Hsame. unfold audit_file_name. rewrite (same_second_strftime a b Hsame).
  split; [| intros ->; reflexivity].
  intros Heq. apply String.app_inj in Heq. apply String.app_inj in Heq.
  apply append_inj_r in Heq. exact Heq.
Qed.

(** What [json.dumps] serializes, for a dict: every value of it. *)
Lemma json_serializable_dict d :
  json_serializable (PDict d) = true ↔
  ∀ k v, d !! k = Some v → json_serializable v = true.
Proof.
  cbn [json_serializable].
  apply (map_fold_weak_ind
           (fun (r : bool) (m : gmap string pyval) =>
              r = true ↔ ∀ k v, m !! k = Some v → json_serializable v = true)).
  - split; [intros _ k v Hk; rewrite lookup_empty in Hk; discriminate | reflexivity].
  - intros i x m r Hfresh IH. rewrite andb_true_iff, IH. split.
    + intros [Hx Hm] k v Hk. destruct (decide (k = i)) as [-> | Hne].
      * rewrite lookup_insert_eq in Hk. injection Hk as <-. exact Hx.
      * rewrite lookup_insert_ne in Hk by congruence. eauto.
    + intros Hall. split.
      * apply (Hall i). apply lookup_insert_eq.
      * intros k v Hk. apply (Hall k). rewrite lookup_insert_ne; [exact Hk |].
        intros ->. congruence.
Qed.

Lemma dict_of_serializable l :
  (∀ k v, (k, v) ∈ l → json_serializable v = true) →
  json_serializable (PDict (dict_of l)) = true.
Proof.
  intros Hall. apply json_serializable_dict. intros k v Hk.
  apply (Hall k). apply elem_of_list_to_map_2. exact Hk.
Qed.

Lemma first_component_flat name :
  str_contains "/" name = false → first_component name = name.
Proof.
  unfold first_component, str_contains.
  induction name as [| c r IH]; [reflexivity |].
  cbn [list_ascii_of_string existsb str_split]. intros Hrest.
  apply orb_false_elim in Hrest as [Hc Hrest]. rewrite Ascii.eqb_sym in Hc.
  rewrite Hc. specialize (IH Hrest).
  destruct (str_split "/" r) as [| h t]; [rewrite <- IH; reflexivity |].
  rewrite IH. reflexivity.
Qed.

(** A storable name is written in every directory that exists. *)
Lemma fs_write_storable f d name s m :
  storable name = true →
  entries f d = Some m →
  fs_write f (d // name) s = Ok (set_entries f d (<[name := s]> m)).
Proof.
  unfold storable, fs_write, create_error. intros Hname Hdir.
  apply andb_prop in Hname as [Hname Hfits]. apply andb_prop in Hname as [Hnul Hslash].
  apply negb_true_iff in Hnul, Hslash. rewrite Hnul, Hdir, Hslash.
  rewrite (first_component_flat name Hslash).
  apply Nat.leb_le in Hfits.
  destruct (Nat.ltb_spec NAME_MAX (encoded_length name)) as [Hlong | _]; [lia |].
  reflexivity.
Qed.

(** A write that succeeds added the file to a directory that exists. *)
Lemma fs_write_ok_inv f d name s f' :
  fs_write f (d // name) s = Ok f' →
  ∃ m, entries f d = Some m ∧ f' = set_entries f d (<[name := s]> m).
Proof.
  unfold fs_write.
  destruct (str_contains (ascii_of_nat 0) name); [discriminate |].
  destruct (entries f d) as [m |]; [| discriminate].
  destruct (create_error m name); [discriminate |].
  intros [= <-]. exists m. auto.
Qed.

(** A name with a slash is never written. *)
Lemma fs_write_slash f d name s :
  str_contains "/" name = true →
  ∃ e, fs_write f (d // name) s = Raise e.
Proof.
  unfold fs_write, create_error. intros Hslash.
  destruct (str_contains (ascii_of_nat 0) name); [eauto |].
  destruct (entries f d) as [m |]; [| eauto].
  destruct (NAME_MAX <? encoded_length (first_component name))%nat; [eauto |].
  rewrite Hslash. destruct (m !! first_component name); eauto.
Qed.

Section MailSender.
Context `{PyLib, Msal, Requests}.

Lemma printed_fs lines w :
  fs (printed lines w) = fs w ∧ clock (printed lines w) = clock w ∧
  tick (printed lines w) = tick w ∧ idp_state (printed lines w) = idp_state w ∧
  net_state (printed lines w) = net_state w ∧
  trace (printed lines w) = (trace w ++ map Print lines)%list.
Proof.
  revert w. induction lines as [| line rest IH]; intros w.
  - cbn [printed foldl map]. rewrite app_nil_r. auto 6.
  - change (printed (line :: rest) w) with (printed rest (log_event (Print line) w)).
    destruct (IH (log_event (Print line) w)) as (-> & -> & -> & -> & -> & ->).
    cbn [fs clock tick idp_state net_state trace log_event map].
    rewrite <- app_assoc. auto 6.
Qed.

(** The provider accepts (202): [send_email] up to the write of the
    record, and on from what the write gives.  The record itself, three
    strings and a flag, is always serialized. *)
Lemma send_email_accepted_write to subject body config w token w1 resp n :
  get_access_token config w = (Ok token, w1) →
  truthy token = true →
  requests_post sendmail_url (bearer_headers token)
    (sendmail_payload to subject body) (net_state w1) = (resp, n) →
  status_code resp = 202%Z →
  let name := audit_file_name (clock w1 (S (tick w1))) (local_part to) in
  let record := dict_of [
    ("timestamp", PStr (isoformat (clock w1 (tick w1)) +:+ "Z"));
    ("to", PStr to);
    ("subject", PStr subject);
    ("status", PStr "sent");
    ("outlook", PBool true)
  ] in
  let posted :=
    advance (advance
      (log_event
         (HttpPost sendmail_url (bearer_headers token) (sendmail_payload to subject body))
         (set_net n w1))) in
  send_email to subject body config w =
    match fs_write (fs w1) (SENT_DIR // name) (json_dumps (PDict record)) with
    | Ok written =>
        (Ok true,
         printed (success_report to subject name)
           (log_event (WriteText (SENT_DIR // name) (json_dumps (PDict record)))
              (set_fs written posted)))
    | Raise e => (Raise e, posted)
    end.
Proof.
  intros Htoken Htruthy Hpost Hstatus name record posted.
  unfold send_email. rewrite (io_bind_ok _ _ _ _ _ Htoken), Htruthy.
  cbn [negb]. cbv zeta. fold sendmail_url.
  erewrite io_bind_ok; [| unfold with_net; rewrite Hpost; reflexivity].
  rewrite Hstatus. change (202 =? 202)%Z with true. cbv iota.
  erewrite io_bind_ok; [| reflexivity].
  erewrite io_bind_ok; [| reflexivity].
  erewrite io_bind_ok; [| unfold lift; rewrite index0_split_local_part; reflexivity].
  erewrite io_bind_ok; [| reflexivity].
  unfold io_bind at 1, write_text.
  cbn [fs clock tick advance log_event set_net].
  fold (audit_file_name (clock w1 (S (tick w1))) (local_part to)). fold name record.
  destruct (fs_write (fs w1) (SENT_DIR // name) _) as [written | e]; reflexivity.
Qed.


(** ... and the record is stored: the run of [send_email], step by step.
    The audit directory is there and the name is one it can hold. *)
Lemma send_email_accepted_run to subject body config w token w1 resp n m :
  get_access_token config w = (Ok token, w1) →
  truthy token = true →
  requests_post sendmail_url (bearer_headers token)
    (sendmail_payload to subject body) (net_state w1) = (resp, n) →
  status_code resp = 202%Z →
  sent (fs w1) = Some m →
  storable (audit_file_name (clock w1 (S (tick w1))) (local_part to)) = true →
  let name := audit_file_name (clock w1 (S (tick w1))) (local_part to) in
  let record := dict_of [
    ("timestamp", PStr (isoformat (clock w1 (tick w1)) +:+ "Z"));
    ("to", PStr to);
    ("subject", PStr subject);
    ("status", PStr "sent");
    ("outlook", PBool true)
  ] in
  ∃ w',
    send_email to subject body config w = (Ok true, w') ∧
    fs w' = set_entries (fs w1) SENT_DIR (<[name := json_dumps (PDict record)]> m) ∧
    trace w' =
      (trace w1 ++
       [HttpPost sendmail_url (bearer_headers token) (sendmail_payload to subject body);
        WriteText (SENT_DIR // name) (json_dumps (PDict record));
        Print (str_mul "=" 60);
        Print "EMAIL SENT";
        Print (str_mul "=" 60);
        Print ("To:      " +:+ to);
        Print ("Subject: " +:+ subject);
        Print ("Log:     " +:+ name);
        Print "Outlook: Check your Sent folder!";
        Print (str_mul "=" 60)])%list.
Proof.
  intros Htoken Htruthy Hpost Hstatus Hsent Hname name record.
  rewrite (send_email_accepted_write to subject body config w token w1 resp n
             Htoken Htruthy Hpost Hstatus).
  cbv zeta. fold name record.
  rewrite (fs_write_storable (fs w1) SENT_DIR name _ m Hname Hsent).
  eexists. split; [reflexivity |]. split; [reflexivity |].
  simpl. rewrite <- !app_assoc. reflexivity.
Qed.

(** The provider answers anything else. *)
Lemma send_email_rejected_run to subject body config w token w1 resp n :
  get_access_token config w = (Ok token, w1) →
  truthy token = true →
  requests_post sendmail_url (bearer_headers token)
    (sendmail_payload to subject body) (net_state w1) = (resp, n) →
  status_code resp ≠ 202%Z →
  send_email to subject body config w =
    (Ok false,
     log_event (Print ("ERROR: " +:+ pretty (status_code resp) +:+ " - " +:+ text resp))
       (log_event
          (HttpPost sendmail_url (bearer_headers token) (sendmail_payload to subject body))
          (set_net n w1))).
Proof.
  intros Htoken Htruthy Hpost Hstatus.
  unfold send_email. rewrite (io_bind_ok _ _ _ _ _ Htoken), Htruthy.
  cbn [negb]. cbv zeta. fold sendmail_url.
  erewrite io_bind_ok; [| unfold with_net; rewrite Hpost; reflexivity].
  destruct (Z.eqb_spec (status_code resp) 202) as [Heq | _]; [contradiction |].
  reflexivity.
Qed.

(** The provider accepts and the write of the record raises: the message
    is sent, nothing is logged, and the exception of the write leaves
    [send_email]. *)
Lemma send_email_accepted_unlogged_run to subject body config w token w1 resp n e :
  get_access_token config w = (Ok token, w1) →
  truthy token = true →
  requests_post sendmail_url (bearer_headers token)
    (sendmail_payload to subject body) (net_state w1) = (resp, n) →
  status_code resp = 202%Z →
  fs_write (fs w1)
    (SENT_DIR // audit_file_name (clock w1 (S (tick w1))) (local_part to))
    (json_dumps (PDict (dict_of [
       ("timestamp", PStr (isoformat (clock w1 (tick w1)) +:+ "Z"));
       ("to", PStr to);
       ("subject", PStr subject);
       ("status", PStr "sent");
       ("outlook", PBool true)]))) = Raise e →
  send_email to subject body config w =
    (Raise e,
     advance (advance
       (log_event
          (HttpPost sendmail_url (bearer_headers token) (sendmail_payload to subject body))
          (set_net n w1)))).
Proof.
  intros Htoken Htruthy Hpost Hstatus Hwrite.
  rewrite (send_email_accepted_write to subject body config w token w1 resp n
             Htoken Htruthy Hpost Hstatus).
  cbv zeta. rewrite Hwrite. reflexivity.
Qed.

(** Between the token and the post there is no condition: with a token,
    [send_email] posts the message, once, whatever the recipient, the
    subject, the body and the file system are. *)
Lemma send_email_posts_whenever_token to subject body config w token w1 :
  get_access_token config w = (Ok token, w1) →
  truthy token = true →
  posts (trace (snd (send_email to subject body config w))) =
    (posts (trace w) ++
     [(sendmail_url, bearer_headers token, sendmail_payload to subject body)])%list.
Proof.
  intros Htoken Htruthy.
  pose proof (get_access_token_cases _ _ _ _ Htoken)
    as [(_ & _ & _ & _ & _ & _ & _ & Hposts) _].
  destruct (requests_post sendmail_url (bearer_headers token)
              (sendmail_payload to subject body) (net_state w1)) as [resp n] eqn:Hpost.
  destruct (Z.eq_dec (status_code resp) 202%Z) as [Hstatus | Hstatus].
  - rewrite (send_email_accepted_write to subject body config w token w1 resp n
               Htoken Htruthy Hpost Hstatus).
    cbv zeta.
    match goal with
    | |- context [fs_write ?f ?p ?t] => destruct (fs_write f p t) as [written | e]
    end.
    + cbn [snd]. rewrite (proj2 (proj2 (proj2 (proj2 (proj2 (printed_fs _ _)))))).
      cbn [trace advance log_event set_fs set_net].
      unfold posts. rewrite !omap_app. fold (posts (trace w1)). rewrite Hposts.
      cbn [omap list_omap success_report map]. rewrite !app_nil_r. reflexivity.
    + cbn [snd trace advance log_event set_net]. trace_simpl. rewrite Hposts. reflexivity.
  - rewrite (send_email_rejected_run to subject body config w token w1 resp n
               Htoken Htruthy Hpost Hstatus).
    cbn [snd trace log_event set_net]. trace_simpl. rewrite Hposts. reflexivity.
Qed.

(** No token: nothing is sent. *)
Lemma send_email_without_token to subject body config w token w1 :
  get_access_token config w = (Ok token, w1) →
  truthy token = false →
  send_email to subject body config w = (Ok false, w1).
Proof.
  intros Htoken Hfalsy.
  unfold send_email. rewrite (io_bind_ok _ _ _ _ _ Htoken), Hfalsy. reflexivity.
Qed.

(** A run that reports success went through the accepted branch, and the
    write of its record succeeded. *)
Lemma send_email_true_inv to subject body config w w' :
  send_email to subject body config w = (Ok true, w') →
  ∃ token w1 resp n m,
    let name := audit_file_name (clock w1 (S (tick w1))) (local_part to) in
    let text := json_dumps (PDict (dict_of [
      ("timestamp", PStr (isoformat (clock w1 (tick w1)) +:+ "Z"));
      ("to", PStr to);
      ("subject", PStr subject);
      ("status", PStr "sent");
      ("outlook", PBool true)])) in
    get_access_token config w = (Ok token, w1) ∧
    truthy token = true ∧
    requests_post sendmail_url (bearer_headers token)
      (sendmail_payload to subject body) (net_state w1) = (resp, n) ∧
    status_code resp = 202%Z ∧
    sent (fs w1) = Some m ∧
    fs w' = set_entries (fs w1) SENT_DIR (<[name := text]> m) ∧
    trace w' =
      (trace w1 ++
       [HttpPost sendmail_url (bearer_headers token) (sendmail_payload to subject body);
        WriteText (SENT_DIR // name) text] ++
       map Print (success_report to subject name))%list.
Proof.
  intros Hrun.
  destruct (get_access_token config w) as [[token | e] w1] eqn:Htoken.
  2:{ unfold send_email in Hrun. rewrite (io_bind_raise _ _ _ _ _ Htoken) in Hrun.
      discriminate Hrun. }
  destruct (truthy token) eqn:Htruthy.
  2:{ rewrite (send_email_without_token _ _ _ _ _ _ _ Htoken Htruthy) in Hrun.
      discriminate Hrun. }
  destruct (requests_post sendmail_url (bearer_headers token)
              (sendmail_payload to subject body) (net_state w1)) as [resp n] eqn:Hpost.
  destruct (Z.eq_dec (status_code resp) 202%Z) as [Hstatus | Hstatus].
  2:{ rewrite (send_email_rejected_run to subject body config w token w1 resp n
                 Htoken Htruthy Hpost Hstatus) in Hrun. discriminate Hrun. }
  rewrite (send_email_accepted_write to subject body config w token w1 resp n
             Htoken Htruthy Hpost Hstatus) in Hrun.
  cbv zeta in Hrun.
  match type of Hrun with
  | context [fs_write ?f ?p ?t] => destruct (fs_write f p t) as [written | e] eqn:Hwrite
  end; [| discriminate Hrun].
  apply fs_write_ok_inv in Hwrite as (m & Hsent & ->).
  injection Hrun as <-.
  exists token, w1, resp, n, m. cbv zeta.
  split; [reflexivity |]. split; [exact Htruthy |]. split; [exact Hpost |].
  split; [exact Hstatus |]. split; [exact Hsent |].
  split; [reflexivity |].
  cbn [printed success_report foldl trace advance log_event set_fs set_net map].
  rewrite <- !app_assoc. reflexivity.
Qed.

(** [log_send] on a context with a string recipient and a subject that
    json serializes, up to the write of the record and on from what the
    write gives. *)
Lemma log_send_write context d w to subject :
  context !! "to" = Some (PStr to) →
  context !! "subject" = Some subject →
  json_serializable subject = true →
  let name := audit_file_name (clock w (tick w)) (str_take 20 (local_part to)) in
  let record := dict_of [
    ("validator", PStr VALIDATOR_ID);
    ("version", PStr VERSION);
    ("timestamp", PStr (isoformat (clock w (tick w)) +:+ "Z"));
    ("to", PStr to);
    ("subject", subject);
    ("status", PStr "sent");
    ("outlook", PBool true)
  ] in
  log_send context d w =
    match fs_write (fs w) (d // name) (json_dumps (PDict record)) with
    | Ok written =>
        (Ok (d // name),
         log_event (WriteText (d // name) (json_dumps (PDict record)))
           (set_fs written (advance w)))
    | Raise e => (Raise e, advance w)
    end.
Proof.
  intros Hto Hsubject Hjson name record.
  assert (Hrecord : json_serializable (PDict record) = true).
  { apply dict_of_serializable. intros k v Hin.
    repeat (apply elem_of_cons in Hin; destruct Hin as [Heq | Hin];
            [injection Heq as _ ->; first [exact Hjson | reflexivity] |]).
    inversion Hin. }
  unfold log_send.
  erewrite io_bind_ok; [| reflexivity].
  unfold lift at 1 2 3, getitem. rewrite Hto, Hsubject.
  erewrite io_bind_ok; [| reflexivity].
  erewrite io_bind_ok; [| reflexivity].
  erewrite io_bind_ok; [| reflexivity].
  erewrite io_bind_ok; [| reflexivity].
  erewrite io_bind_ok; [| cbn [py_split]; rewrite index0_split_local_part; reflexivity].
  fold (audit_file_name (clock w (tick w)) (str_take 20 (local_part to))). fold name.
  fold record.
  erewrite io_bind_ok; [| unfold lift, py_json_dumps; rewrite Hrecord; reflexivity].
  unfold io_bind, write_text. cbn [fs advance].
  destruct (fs_write (fs w) (d // name) (json_dumps (PDict record))); reflexivity.
Qed.

(** A subject that json does not serialize (a [bytes], a [datetime], or
    a list or dict that holds one): [json.dumps] raises the TypeError,
    before anything is written. *)
Lemma log_send_unserializable context d w to subject :
  context !! "to" = Some (PStr to) →
  context !! "subject" = Some subject →
  json_serializable subject = false →
  log_send context d w = (Raise TypeError, advance w).
Proof.
  intros Hto Hsubject Hjson.
  assert (Hrecord : json_serializable (PDict (dict_of [
            ("validator", PStr VALIDATOR_ID);
            ("version", PStr VERSION);
            ("timestamp", PStr (isoformat (clock w (tick w)) +:+ "Z"));
            ("to", PStr to);
            ("subject", subject);
            ("status", PStr "sent");
            ("outlook", PBool true)])) = false).
  { apply not_true_is_false. intros Hall.
    rewrite json_serializable_dict in Hall.
    rewrite (Hall "subject" subject) in Hjson; [discriminate Hjson | reflexivity]. }
  unfold log_send.
  erewrite io_bind_ok; [| reflexivity].
  unfold lift at 1 2 3, getitem. rewrite Hto, Hsubject.
  erewrite io_bind_ok; [| reflexivity].
  erewrite io_bind_ok; [| reflexivity].
  erewrite io_bind_ok; [| reflexivity].
  erewrite io_bind_ok; [| reflexivity].
  erewrite io_bind_ok; [| cbn [py_split]; rewrite index0_split_local_part; reflexivity].
  erewrite io_bind_raise; [| unfold lift, py_json_dumps; rewrite Hrecord; reflexivity].
  reflexivity.
Qed.

(** [log_send] when nothing stands in the way: a string recipient, a
    subject json serializes, a directory that exists and a name it can
    hold. *)
Lemma log_send_run context d w to subject m :
  context !! "to" = Some (PStr to) →
  context !! "subject" = Some subject →
  json_serializable subject = true →
  entries (fs w) d = Some m →
  storable (audit_file_name (clock w (tick w)) (str_take 20 (local_part to))) = true →
  let name := audit_file_name (clock w (tick w)) (str_take 20 (local_part to)) in
  let record := dict_of [
    ("validator", PStr VALIDATOR_ID);
    ("version", PStr VERSION);
    ("timestamp", PStr (isoformat (clock w (tick w)) +:+ "Z"));
    ("to", PStr to);
    ("subject", subject);
    ("status", PStr "sent");
    ("outlook", PBool true)
  ] in
  log_send context d w =
    (Ok (d // name),
     log_event (WriteText (d // name) (json_dumps (PDict record)))
       (set_fs (set_entries (fs w) d (<[name := json_dumps (PDict record)]> m))
          (advance w))).
Proof.
  intros Hto Hsubject Hjson Hdir Hname name record.
  rewrite (log_send_write context d w to subject Hto Hsubject Hjson). cbv zeta.
  fold name record.
  rewrite (fs_write_storable (fs w) d name _ m Hname Hdir). reflexivity.
Qed.

End MailSender.

Section MailSenderClaims.
Context `{PyLib, Msal, Requests}.

Lemma log_send_ok_inv context d w to f w' :
  context !! "to" = Some (PStr to) →
  log_send context d w = (Ok f, w') →
  f = d // audit_file_name (clock w (tick w)) (str_take 20 (local_part to)).
Proof.
  intros Hto Hrun.
  destruct (context !! "subject") as [subject |] eqn:Hsubject.
  - destruct (json_serializable subject) eqn:Hjson.
    + rewrite (log_send_write context d w to subject Hto Hsubject Hjson) in Hrun.
      cbv zeta in Hrun.
      match type of Hrun with
      | context [fs_write ?f ?p ?t] => destruct (fs_write f p t)
      end; [| discriminate Hrun].
      injection Hrun as <- _. reflexivity.
    + rewrite (log_send_unserializable context d w to subject Hto Hsubject Hjson) in Hrun.
      discriminate Hrun.
  - exfalso. revert Hrun. unfold log_send, io_bind, utcnow, lift, getitem.
    rewrite Hto, Hsubject. discriminate.
Qed.

(** What an accepted send adds to the audit records of the trace. *)
Lemma send_email_true_audit to subject body config w w' :
  send_email to subject body config w = (Ok true, w') →
  ∃ text files,
    let name := audit_file_name (clock w (S (tick w))) (local_part to) in
    audit_writes (trace w') = (audit_writes (trace w) ++ [(name, text)])%list ∧
    sent (fs w') = Some files ∧ files !! name = Some text.
Proof.
  intros Hrun.
  destruct (send_email_true_inv _ _ _ _ _ _ Hrun)
    as (token & w1 & resp & n & m & Htoken & Htruthy & Hpost & Hstatus & Hsent &
        Hfs & Htrace).
  apply get_access_token_cases in Htoken
    as [(Hclock & Htick & _ & _ & _ & _ & Haudit & _) _].
  rewrite Hclock, Htick in Hfs, Htrace.
  eexists _, _. cbv zeta. split; [| split].
  - rewrite Htrace. unfold audit_writes. rewrite !omap_app. fold (audit_writes (trace w1)).
    rewrite Haudit. cbn [omap list_omap success_report map]. rewrite app_nil_r.
    reflexivity.
  - rewrite Hfs. reflexivity.
  - apply lookup_insert_eq.
Qed.

(** X27. When the provider answers 202 (a token was obtained), the audit
    directory exists and can hold the name of the record, [send_email]
    writes the record, with status "sent", into the audit directory and
    returns True: the directory then holds what it held and the record,
    which replaces a file of the same name; the trace gains one audit
    write, placed after the post and before anything of the success
    report is printed.  And whenever [send_email] returns True, the
    record it wrote last is in the audit directory. *)
Theorem accepted_send_is_logged_when_the_record_can_be_stored :
  (∀ to subject body config w token w1 resp n m,
     get_access_token config w = (Ok token, w1) →
     truthy token = true →
     requests_post sendmail_url (bearer_headers token)
       (sendmail_payload to subject body) (net_state w1) = (resp, n) →
     status_code resp = 202%Z →
     sent (fs w) = Some m →
     storable (audit_file_name (clock w (S (tick w))) (local_part to)) = true →
     ∃ name record reports w',
       send_email to subject body config w = (Ok true, w') ∧
       name = audit_file_name (clock w (S (tick w))) (local_part to) ∧
       record !! "status" = Some (PStr "sent") ∧
       sent (fs w') = Some (<[name := json_dumps (PDict record)]> m) ∧
       audit_writes (trace w') =
         (audit_writes (trace w) ++ [(name, json_dumps (PDict record))])%list ∧
       trace w' =
         (trace w1 ++
          [HttpPost sendmail_url (bearer_headers token) (sendmail_payload to subject body);
           WriteText (SENT_DIR // name) (json_dumps (PDict record))] ++
          reports)%list ∧
       Print "EMAIL SENT" ∈ reports) ∧
  (∀ to subject body config w w',
     send_email to subject body config w = (Ok true, w') →
     ∃ name text files,
       sent (fs w') = Some files ∧ files !! name = Some text ∧
       last (audit_writes (trace w')) = Some (name, text)).
Proof.
  split.
  - intros to subject body config w token w1 resp n m Htoken Htruthy Hpost Hstatus
      Hsent Hname.
    pose proof (get_access_token_cases _ _ _ _ Htoken)
      as [(Hclock & Htick & _ & _ & _ & Hsent1 & Haudit & _) _].
    rewrite <- Hsent1 in Hsent. rewrite <- Hclock, <- Htick in Hname.
    destruct (send_email_accepted_run to subject body config w token w1 resp n m
                Htoken Htruthy Hpost Hstatus Hsent Hname) as (w' & Hrun & Hfs & Htrace).
    rewrite Hclock, Htick in Hfs, Htrace.
    eexists _, _, _, w'. split; [exact Hrun |]. split; [reflexivity |].
    split; [| split; [| split; [| split]]].
    2:{ rewrite Hfs. reflexivity. }
    3:{ rewrite Htrace. reflexivity. }
    + reflexivity.
    + rewrite Htrace. unfold audit_writes. rewrite omap_app.
      fold (audit_writes (trace w1)). rewrite Haudit. reflexivity.
    + apply list_elem_of_lookup. exists 1. reflexivity.
  - intros to subject body config w w' Hrun.
    destruct (send_email_true_audit _ _ _ _ _ _ Hrun)
      as (text & files & Haudit & Hfiles & Hlookup).
    eexists _, text, files. split; [exact Hfiles |]. split; [exact Hlookup |].
    rewrite Haudit. apply last_snoc.
Qed.

(** C5. When the provider answers any status but 202, [send_email]
    returns False after printing one error line that carries the status
    code and the response body; it posts once (no retry), writes no
    audit record and leaves the file system as the token provider left
    it: the audit directory is unchanged. *)
Theorem rejected_send_reports_error_and_logs_nothing
    to subject body config w token w1 resp n :
  get_access_token config w = (Ok token, w1) →
  truthy token = true →
  requests_post sendmail_url (bearer_headers token)
    (sendmail_payload to subject body) (net_state w1) = (resp, n) →
  status_code resp ≠ 202%Z →
  ∃ w',
    send_email to subject body config w = (Ok false, w') ∧
    trace w' =
      (trace w1 ++
       [HttpPost sendmail_url (bearer_headers token) (sendmail_payload to subject body);
        Print ("ERROR: " +:+ pretty (status_code resp) +:+ " - " +:+ text resp)])%list ∧
    posts (trace w') =
      (posts (trace w) ++
       [(sendmail_url, bearer_headers token, sendmail_payload to subject body)])%list ∧
    audit_writes (trace w') = audit_writes (trace w) ∧
    fs w' = fs w1 ∧
    sent (fs w') = sent (fs w).
Proof.
  intros Htoken Htruthy Hpost Hstatus.
  pose proof (get_access_token_cases _ _ _ _ Htoken)
    as [(_ & _ & _ & _ & _ & Hsent & Haudit & Hposts) _].
  eexists. split; [apply (send_email_rejected_run to subject body config w token w1 resp n);
                   assumption |].
  cbn [trace fs log_event set_net].
  split; [rewrite <- app_assoc; reflexivity |].
  split; [trace_simpl; rewrite Hposts; reflexivity |].
  split; [trace_simpl; exact Haudit |].
  split; [reflexivity | exact Hsent].
Qed.

(** C7, as the code has it.  Two audit records written within the same
    second get the same file name exactly when the recipients have the
    same local part: its first 20 characters for [log_send], all of it
    for [send_email].  Recipients whose local parts differ in that sense
    get distinct names; recipients that differ only after the [@] do not. *)
Theorem file_names_differ_iff_local_parts_differ :
  (∀ context1 context2 to1 to2 d w1 w2 f1 f2 w1' w2',
     context1 !! "to" = Some (PStr to1) →
     context2 !! "to" = Some (PStr to2) →
     same_second (clock w1 (tick w1)) (clock w2 (tick w2)) →
     log_send context1 d w1 = (Ok f1, w1') →
     log_send context2 d w2 = (Ok f2, w2') →
     (f1 = f2 ↔ str_take 20 (local_part to1) = str_take 20 (local_part to2))) ∧
  (∀ to1 to2 subject1 subject2 body1 body2 config1 config2 w1 w2 w1' w2',
     same_second (clock w1 (S (tick w1))) (clock w2 (S (tick w2))) →
     send_email to1 subject1 body1 config1 w1 = (Ok true, w1') →
     send_email to2 subject2 body2 config2 w2 = (Ok true, w2') →
     ∃ name1 text1 name2 text2,
       audit_writes (trace w1') = (audit_writes (trace w1) ++ [(name1, text1)])%list ∧
       audit_writes (trace w2') = (audit_writes (trace w2) ++ [(name2, text2)])%list ∧
       (name1 = name2 ↔ local_part to1 = local_part to2)).
Proof.
  split.
  - intros context1 context2 to1 to2 d w1 w2 f1 f2 w1' w2' Hto1 Hto2 Hsame Hrun1 Hrun2.
    rewrite (log_send_ok_inv _ _ _ _ _ _ Hto1 Hrun1).
    rewrite (log_send_ok_inv _ _ _ _ _ _ Hto2 Hrun2).
    rewrite <- (audit_file_name_inj _ _ _ _ Hsame).
    split; [intros [= Hname]; exact Hname | intros ->; reflexivity].
  - intros to1 to2 subject1 subject2 body1 body2 config1 config2 w1 w2 w1' w2'
      Hsame Hrun1 Hrun2.
    destruct (send_email_true_audit _ _ _ _ _ _ Hrun1) as (text1 & files1 & Haudit1 & _).
    destruct (send_email_true_audit _ _ _ _ _ _ Hrun2) as (text2 & files2 & Haudit2 & _).
    eexists _, text1, _, text2. split; [exact Haudit1 |]. split; [exact Haudit2 |].
    apply audit_file_name_inj. exact Hsame.
Qed.

End MailSenderClaims.

(** * More of the send gate and the audit log *)

Lemma verdict_status_inj s1 r1 s2 r2 : verdict s1 r1 = verdict s2 r2 → s1 = s2.
Proof.
  intros Heq. apply (f_equal (fun d => d !! "status")) in Heq.
  change (Some (PStr s1) = Some (PStr s2)) in Heq. congruence.
Qed.

Lemma ok_verdict_status_inj s1 r1 s2 r2 :
  @Ok (gmap string pyval) (verdict s1 r1) = Ok (verdict s2 r2) → s1 = s2.
Proof.
  intros Heq.
  apply (f_equal (fun o => match o with Ok v => v !! "status" | Raise _ => None end)) in Heq.
  change (Some (PStr s1) = Some (PStr s2)) in Heq. congruence.
Qed.

Lemma first_missing_in_required fields context field :
  first_missing fields context = Some field → field ∈ fields.
Proof.
  induction fields as [| f rest IH]; simpl; [discriminate |].
  destruct (absent_or_empty context f).
  - intros [= ->]. left.
  - intros Hrest. right. auto.
Qed.

Lemma first_missing_none_present fields context field :
  first_missing fields context = None → field ∈ fields → present context field.
Proof.
  induction fields as [| f rest IH]; simpl; [intros _ Hin; inversion Hin |].
  destruct (absent_or_empty context f) eqn:Hf; [discriminate |].
  intros Hrest Hin. apply elem_of_cons in Hin as [Heq | Hin]; [subst field | auto].
  unfold absent_or_empty, dict_in in Hf.
  destruct (context !! f) as [v |] eqn:Hv; [| discriminate].
  exists v. split; [exact Hv |]. simpl in Hf. destruct (truthy v); [reflexivity | discriminate].
Qed.

Lemma parse_timestamp_raises `{PyLib} context e :
  is_Some (context !! "timestamp") →
  parse_timestamp context = Raise e →
  e = ValueError ∨ e = AttributeError ∨ e = TypeError.
Proof.
  intros [ts Hts]. unfold parse_timestamp, getitem. rewrite Hts. simpl.
  destruct ts; simpl; try (intros [= <-]; auto).
  destruct (fromisoformat _); [discriminate | intros [= <-]; auto].
Qed.

Section GateMore.
Context `{PyLib, Msal, Requests}.

(** X1. [validate] only looks, and only at the context and at whether
    the audit directory exists: whatever it answers, verdict or exception,
    the world it returns is the world it was given (no file written,
    nothing printed or sent, the clock not read), and in two worlds that
    agree on the existence of the audit directory it answers the same. *)
Theorem validate_changes_nothing (context : gmap string pyval) (w : world) :
  snd (validate context w) = w ∧
  ∀ w0, dir_exists (fs w0) SENT_DIR = dir_exists (fs w) SENT_DIR →
        fst (validate context w0) = fst (validate context w).
Proof.
  unfold validate.
  destruct (first_missing required context); [split; reflexivity |].
  destruct (parse_timestamp context) as [d | e].
  - unfold io_bind, exists_dir, io_ret. cbn [fst snd]. split.
    + destruct (dir_exists (fs w) SENT_DIR); reflexivity.
    + intros w0 ->. destruct (dir_exists (fs w) SENT_DIR); reflexivity.
  - destruct e; split; reflexivity.
Qed.

(** X2. Every answer of [validate] is one of six: pass with "Audit trail
    ready", fail with "Invalid timestamp format", fail with "Audit
    directory does not exist", or fail with "Missing required field: "
    followed by to, subject or timestamp.  It never answers warn.  The
    only exception that leaves it is a TypeError. *)
Theorem validate_answers (context : gmap string pyval) (w : world) :
  match fst (validate context w) with
  | Ok v =>
      (v = verdict "pass" "Audit trail ready" ∨
       v = verdict "fail" "Invalid timestamp format" ∨
       v = verdict "fail" "Audit directory does not exist" ∨
       ∃ field, field ∈ required ∧
                v = verdict "fail" ("Missing required field: " +:+ field)) ∧
      v !! "status" ≠ Some (PStr "warn")
  | Raise e => e = TypeError
  end.
Proof.
  unfold validate.
  destruct (first_missing required context) as [field |] eqn:Hfirst.
  - simpl. split; [| discriminate]. right. right. right. exists field.
    split; [eapply first_missing_in_required; eassumption | reflexivity].
  - destruct (parse_timestamp context) as [d | e] eqn:Hparse.
    + unfold io_bind, exists_dir, io_ret. simpl.
      destruct (dir_exists (fs w) SENT_DIR); simpl; (split; [auto | discriminate]).
    + assert (Hts : is_Some (context !! "timestamp")).
      { destruct (first_missing_none_present required context "timestamp" Hfirst)
          as (v & Hv & _); [unfold required; set_solver | eauto]. }
      destruct (parse_timestamp_raises context e Hts Hparse) as [-> | [-> | ->]]; simpl.
      * split; [auto | discriminate].
      * split; [auto | discriminate].
      * reflexivity.
Qed.

End GateMore.
Lemma str_take_length n s : (String.length (str_take n s) ≤ n)%nat.
Proof.
  revert s. induction n as [| n IH]; intros [| c r]; simpl; try lia.
  specialize (IH r). lia.
Qed.

Lemma str_take_all n s : (String.length s ≤ n)%nat → str_take n s = s.
Proof.
  revert s. induction n as [| n IH]; intros [| c r]; simpl; try reflexivity; try lia.
  intros Hlen. f_equal. apply IH. lia.
Qed.

Lemma str_take_append n s : ∃ rest, s = str_take n s +:+ rest.
Proof.
  revert s. induction n as [| n IH]; intros [| c r]; simpl.
  - exists EmptyString. reflexivity.
  - exists (String c r). reflexivity.
  - exists EmptyString. reflexivity.
  - destruct (IH r) as [rest Hrest]. exists rest.
    change (String c r = String c (str_take n r +:+ rest)). rewrite <- Hrest. reflexivity.
Qed.

Lemma str_take_chars n s c :
  c ∈ list_ascii_of_string (str_take n s) → c ∈ list_ascii_of_string s.
Proof.
  revert s. induction n as [| n IH]; intros [| a r]; simpl; try (intros Hin; inversion Hin; fail).
  intros Hin. apply elem_of_cons in Hin as [-> | Hin]; [left | right; auto].
Qed.

(** What [split] gives first holds no separator, and the string is that
    part, alone or followed by the separator and the rest. *)
Lemma str_split_first sep s :
  ∃ h t, str_split sep s = h :: t ∧
         (sep ∉ list_ascii_of_string h) ∧
         (s = h ∨ ∃ rest, s = h +:+ (String sep rest)).
Proof.
  induction s as [| c r (h & t & Hsplit & Hnot & Hshape)]; simpl.
  - exists EmptyString, []. split; [reflexivity |]. split; [intros Hin; inversion Hin | auto].
  - destruct (Ascii.eqb_spec c sep) as [-> | Hne].
    + exists EmptyString, (str_split sep r). split; [reflexivity |].
      split; [intros Hin; inversion Hin |]. right. exists r. reflexivity.
    + rewrite Hsplit. exists (String c h), t. split; [reflexivity |]. split.
      * simpl. intros Hin. apply elem_of_cons in Hin as [-> | Hin]; [congruence | auto].
      * destruct Hshape as [-> | [rest ->]]; [left; reflexivity |].
        right. exists rest. reflexivity.
Qed.

Lemma local_part_shape to :
  ("@"%char ∉ list_ascii_of_string (local_part to)) ∧
  (to = local_part to ∨ ∃ domain, to = local_part to +:+ ("@" +:+ domain)).
Proof.
  unfold local_part.
  destruct (str_split_first "@"%char to) as (h & t & -> & Hnot & Hshape).
  split; [exact Hnot | exact Hshape].
Qed.

Lemma append_assoc (a b c : string) : (a +:+ b) +:+ c = a +:+ (b +:+ c).
Proof.
  induction a as [| x a IH]; [reflexivity |].
  change (String x ((a +:+ b) +:+ c) = String x (a +:+ (b +:+ c))). rewrite IH. reflexivity.
Qed.

Lemma entries_set_entries f d m : entries (set_entries f d m) d = Some m.
Proof. destruct d; reflexivity. Qed.

Lemma set_entries_twice f d m1 m2 :
  set_entries (set_entries f d m1) d m2 = set_entries f d m2.
Proof. destruct d; reflexivity. Qed.

Section AuditLogMore.
Context `{PyLib, Msal, Requests}.

Lemma validate_pass_inv context w :
  fst (validate context w) = Ok (verdict "pass" "Audit trail ready") →
  first_missing required context = None ∧ sent (fs w) ≠ None.
Proof.
  unfold validate.
  destruct (first_missing required context) as [field |].
  { cbn [fst io_ret]. intros Heq. apply ok_verdict_status_inj in Heq. discriminate. }
  destruct (parse_timestamp context) as [d | e].
  - unfold io_bind, exists_dir, io_ret, dir_exists. cbn [entries fst].
    destruct (sent (fs w)); cbn [negb fst].
    + intros _. split; [reflexivity | discriminate].
    + intros Heq. apply ok_verdict_status_inj in Heq. discriminate.
  - destruct e; cbn [fst io_ret lift]; try discriminate;
      intros Heq; apply ok_verdict_status_inj in Heq; discriminate.
Qed.

(** A write that raises: the directory is missing or the name is not
    one it can hold, and the exception is one of four. *)
Lemma fs_write_raise_inv f d name s e :
  fs_write f (d // name) s = Raise e →
  (entries f d = None ∨ storable name = false) ∧
  (e = ValueError ∨ e = FileNotFoundError ∨ e = NotADirectoryError ∨ e = OSError).
Proof.
  unfold fs_write, create_error, storable.
  destruct (str_contains (ascii_of_nat 0) name) eqn:Hnul.
  { intros [= <-]. auto. }
  destruct (entries f d) as [m |]; [| intros [= <-]; auto].
  destruct (str_contains "/" name) eqn:Hslash.
  - destruct (NAME_MAX <? encoded_length (first_component name))%nat.
    + intros [= <-]. auto 6.
    + destruct (m !! first_component name); intros [= <-]; auto 6.
  - rewrite (first_component_flat name Hslash).
    destruct (Nat.ltb_spec NAME_MAX (encoded_length name)) as [Hlong | _];
      [| discriminate].
    intros [= <-]. split; [| auto 6]. right. cbn [negb andb].
    apply Nat.leb_gt. exact Hlong.
Qed.

(** X3. When the gate passes a context whose recipient is a string,
    whose subject is a value json serializes, and whose recipient gives
    the record a name the audit directory can hold, [log_send] on that
    context succeeds: it writes one record into the audit directory,
    under the name it returns.  (The gate asks for none of the three: a
    recipient that is not a string, a [bytes] subject, a slash in the
    recipient pass it, and [log_send] raises on them.) *)
Theorem passed_context_is_logged context w to subject :
  fst (validate context w) = Ok (verdict "pass" "Audit trail ready") →
  context !! "to" = Some (PStr to) →
  context !! "subject" = Some subject →
  json_serializable subject = true →
  storable (audit_file_name (clock w (tick w)) (str_take 20 (local_part to))) = true →
  ∃ name text m w',
    sent (fs w) = Some m ∧
    log_send context SENT_DIR w = (Ok (SENT_DIR // name), w') ∧
    sent (fs w') = Some (<[name := text]> m) ∧
    audit_writes (trace w') = (audit_writes (trace w) ++ [(name, text)])%list.
Proof.
  intros Hpass Hto Hsubject Hjson Hname.
  destruct (validate_pass_inv context w Hpass) as [_ Hdir].
  destruct (sent (fs w)) as [m |] eqn:Hsent; [| contradiction].
  eexists _, _, m, _. split; [reflexivity |].
  split; [apply (log_send_run context SENT_DIR w to subject m Hto Hsubject Hjson Hsent Hname) |].
  cbn [fs trace log_event set_fs advance]. split; [reflexivity |].
  trace_simpl. reflexivity.
Qed.

(** X4. A run of [log_send] writes one file or none.  When it returns,
    the directory it was given holds one more binding, under the returned
    name, and the trace one more write.  When it raises, the file system
    and the trace are as before, and the exception is a KeyError for a
    context without [to] or [subject]; an AttributeError or TypeError
    for a recipient that is not a string; the TypeError of [json.dumps]
    for a subject it does not serialize; or the exception of the write,
    for a directory that does not exist or a name it cannot hold (a
    slash or a NUL from the recipient). *)
Theorem log_send_writes_one_file_or_none
    (context : gmap string pyval) (d : dir) (w : world) :
  match log_send context d w with
  | (Ok f, w') =>
      ∃ name text m,
        f = d // name ∧ entries (fs w) d = Some m ∧
        fs w' = set_entries (fs w) d (<[name := text]> m) ∧
        trace w' = (trace w ++ [WriteText f text])%list
  | (Raise e, w') =>
      fs w' = fs w ∧ trace w' = trace w ∧
      ((e = KeyError ∧ (context !! "to" = None ∨ context !! "subject" = None)) ∨
       ((e = AttributeError ∨ e = TypeError) ∧
        ∃ v, context !! "to" = Some v ∧ ∀ s, v ≠ PStr s) ∨
       (e = TypeError ∧
        ∃ subject, context !! "subject" = Some subject ∧
                   json_serializable subject = false) ∨
       (∃ to, context !! "to" = Some (PStr to) ∧
          (entries (fs w) d = None ∨
           storable (audit_file_name (clock w (tick w))
                       (str_take 20 (local_part to))) = false) ∧
          (e = ValueError ∨ e = FileNotFoundError ∨
           e = NotADirectoryError ∨ e = OSError)))
  end.
Proof.
  destruct (context !! "to") as [v |] eqn:Hto.
  2:{ unfold log_send, io_bind, utcnow, lift, getitem. rewrite Hto.
      cbn [fs trace advance]. auto 6. }
  destruct (context !! "subject") as [subject |] eqn:Hsubject.
  2:{ unfold log_send, io_bind, utcnow, lift, getitem. rewrite Hto, Hsubject.
      cbn [fs trace advance]. auto 6. }
  assert (Hother : (∀ s, v ≠ PStr s) → ∀ e, py_split v "@"%char = Raise e →
            log_send context d w = (Raise e, advance w)).
  { intros _ e Hsplit. unfold log_send, io_bind, utcnow, lift, getitem.
    rewrite Hto, Hsubject, Hsplit. reflexivity. }
  destruct v as [| b | z | to | b | l | dd | dt];
    try (rewrite (Hother ltac:(discriminate) _ eq_refl); cbn [fs trace advance];
         split; [reflexivity |]; split; [reflexivity |]; right; left;
         split; [auto | eexists; split; [reflexivity | discriminate]]).
  destruct (json_serializable subject) eqn:Hjson.
  2:{ rewrite (log_send_unserializable context d w to subject Hto Hsubject Hjson).
      cbn [fs trace advance]. split; [reflexivity |]. split; [reflexivity |].
      right. right. left. split; [reflexivity |]. exists subject. auto. }
  rewrite (log_send_write context d w to subject Hto Hsubject Hjson). cbv zeta.
  match goal with
  | |- context [fs_write ?f ?p ?t] => destruct (fs_write f p t) as [written | e] eqn:Hwrite
  end.
  - apply fs_write_ok_inv in Hwrite as (m & Hdir & ->).
    cbn [fs trace log_event set_fs advance]. eexists _, _, m. auto.
  - apply fs_write_raise_inv in Hwrite as [Hwhy Hwhich].
    cbn [fs trace advance]. split; [reflexivity |]. split; [reflexivity |].
    right. right. right. exists to. auto.
Qed.

(** X5. Two records for recipients with the same (cut) local part,
    stamped in the same second, share a name: when both are written (the
    subjects are values json serializes, the directory exists and can
    hold the name), the second call of [log_send] replaces the file the
    first wrote, and the directory ends with one record more than it
    began with, the second. *)
Theorem log_send_same_name_overwrites
    context1 context2 to1 to2 subject1 subject2 d w m :
  context1 !! "to" = Some (PStr to1) → context1 !! "subject" = Some subject1 →
  context2 !! "to" = Some (PStr to2) → context2 !! "subject" = Some subject2 →
  json_serializable subject1 = true → json_serializable subject2 = true →
  entries (fs w) d = Some m →
  storable (audit_file_name (clock w (tick w)) (str_take 20 (local_part to1))) = true →
  same_second (clock w (tick w)) (clock w (S (tick w))) →
  str_take 20 (local_part to1) = str_take 20 (local_part to2) →
  ∃ name text1 text2 w1 w2,
    log_send context1 d w = (Ok (d // name), w1) ∧
    entries (fs w1) d = Some (<[name := text1]> m) ∧
    log_send context2 d w1 = (Ok (d // name), w2) ∧
    entries (fs w2) d = Some (<[name := text2]> m) ∧
    audit_writes (trace w2) =
      (audit_writes (trace w) ++
       audit_writes [WriteText (d // name) text1; WriteText (d // name) text2])%list.
Proof.
  intros Hto1 Hsubject1 Hto2 Hsubject2 Hjson1 Hjson2 Hdir Hstorable Hsame Hprefix.
  pose proof (log_send_run context1 d w to1 subject1 m Hto1 Hsubject1 Hjson1 Hdir
                Hstorable) as Hrun1.
  cbv zeta in Hrun1.
  set (name := audit_file_name (clock w (tick w)) (str_take 20 (local_part to1))) in *.
  match type of Hrun1 with
  | _ = (_, ?w1') => set (w1 := w1') in *
  end.
  assert (Hdir1 : entries (fs w1) d = Some (<[name :=
            json_dumps (PDict (dict_of [
              ("validator", PStr VALIDATOR_ID); ("version", PStr VERSION);
              ("timestamp", PStr (isoformat (clock w (tick w)) +:+ "Z"));
              ("to", PStr to1); ("subject", subject1);
              ("status", PStr "sent"); ("outlook", PBool true)]))]> m)).
  { subst w1. cbn [fs log_event set_fs]. apply entries_set_entries. }
  assert (Hname : audit_file_name (clock w1 (tick w1)) (str_take 20 (local_part to2)) = name).
  { subst w1 name. cbn [clock tick log_event set_fs advance]. rewrite <- Hprefix.
    symmetry. apply audit_file_name_inj; [exact Hsame | reflexivity]. }
  assert (Hstorable1 : storable (audit_file_name (clock w1 (tick w1))
                                   (str_take 20 (local_part to2))) = true).
  { rewrite Hname. exact Hstorable. }
  pose proof (log_send_run context2 d w1 to2 subject2 _ Hto2 Hsubject2 Hjson2 Hdir1
                Hstorable1) as Hrun2.
  cbv zeta in Hrun2.
  rewrite Hname in Hrun2.
  eexists name, _, _, w1, _.
  split; [exact Hrun1 |]. split; [exact Hdir1 |]. split; [exact Hrun2 |].
  cbn [fs trace log_event set_fs advance]. split.
  - rewrite entries_set_entries, insert_insert_eq. reflexivity.
  - subst w1. cbn [fs trace log_event set_fs advance].
    unfold audit_writes. rewrite <- app_assoc, omap_app. reflexivity.
Qed.

Lemma str_contains_app c a b :
  str_contains c (a +:+ b) = str_contains c a || str_contains c b.
Proof.
  unfold str_contains. induction a as [| x a IH]; [reflexivity |].
  change (String x a +:+ b) with (String x (a +:+ b)).
  cbn [list_ascii_of_string existsb]. rewrite IH. apply orb_assoc.
Qed.

(** X28. What the gate passes and [log_send] cannot log.  The gate asks
    the subject to be there and not empty, and the recipient likewise;
    it does not look into them.  A context it passes whose subject json
    does not serialize (a [bytes]) makes [log_send] raise TypeError; one
    whose recipient has a slash among the first 20 characters of its
    local part makes it raise the exception of the write, with the audit
    directory there.  In both cases nothing is written. *)
Theorem gate_passes_what_log_send_cannot_log :
  (∀ context w to subject,
     fst (validate context w) = Ok (verdict "pass" "Audit trail ready") →
     context !! "to" = Some (PStr to) →
     context !! "subject" = Some subject →
     json_serializable subject = false →
     log_send context SENT_DIR w = (Raise TypeError, advance w)) ∧
  (∀ context w to subject,
     fst (validate context w) = Ok (verdict "pass" "Audit trail ready") →
     context !! "to" = Some (PStr to) →
     context !! "subject" = Some subject →
     json_serializable subject = true →
     str_contains "/" (str_take 20 (local_part to)) = true →
     sent (fs w) ≠ None ∧
     ∃ e, log_send context SENT_DIR w = (Raise e, advance w)).
Proof.
  split.
  - intros context w to subject _ Hto Hsubject Hjson.
    apply (log_send_unserializable context SENT_DIR w to subject Hto Hsubject Hjson).
  - intros context w to subject Hpass Hto Hsubject Hjson Hslash.
    destruct (validate_pass_inv context w Hpass) as [_ Hdir].
    split; [exact Hdir |].
    rewrite (log_send_write context SENT_DIR w to subject Hto Hsubject Hjson). cbv zeta.
    destruct (fs_write_slash (fs w) SENT_DIR
                (audit_file_name (clock w (tick w)) (str_take 20 (local_part to)))
                (json_dumps (PDict (dict_of [
                   ("validator", PStr VALIDATOR_ID);
                   ("version", PStr VERSION);
                   ("timestamp", PStr (isoformat (clock w (tick w)) +:+ "Z"));
                   ("to", PStr to);
                   ("subject", subject);
                   ("status", PStr "sent");
                   ("outlook", PBool true)]))))
      as [e Hwrite].
    { unfold audit_file_name. rewrite !str_contains_app, Hslash.
      destruct (str_contains "/" (strftime_compact (clock w (tick w)))); reflexivity. }
    exists e. rewrite Hwrite. reflexivity.
Qed.

(** X6. The name [log_send] gives a file is the compact timestamp of the
    one clock reading it takes, a hyphen, a prefix of the recipient and
    [.json]; the prefix has at most 20 characters and no [@], and is the
    whole local part when that has at most 20 characters.  The recipient
    is its local part, alone or followed by [@] and the rest. *)
Theorem log_send_file_name_shape context d w to f w' :
  context !! "to" = Some (PStr to) →
  log_send context d w = (Ok f, w') →
  ∃ prefix rest,
    f = d // (strftime_compact (clock w (tick w)) +:+ "-" +:+ prefix +:+ ".json") ∧
    to = prefix +:+ rest ∧
    (String.length prefix ≤ 20)%nat ∧
    ("@"%char ∉ list_ascii_of_string prefix) ∧
    ((String.length (local_part to) ≤ 20)%nat → prefix = local_part to) ∧
    (to = local_part to ∨ ∃ domain, to = local_part to +:+ ("@" +:+ domain)).
Proof.
  intros Hto Hrun.
  pose proof (log_send_ok_inv context d w to f w' Hto Hrun) as ->.
  destruct (local_part_shape to) as [Hnot Hshape].
  destruct (str_take_append 20 (local_part to)) as [cut Hcut].
  exists (str_take 20 (local_part to)).
  assert (Hrest : ∃ rest, to = str_take 20 (local_part to) +:+ rest).
  { destruct Hshape as [Heq | [domain Heq]].
    - exists cut. rewrite <- Hcut. exact Heq.
    - exists (cut +:+ "@" +:+ domain). rewrite <- append_assoc, <- Hcut. exact Heq. }
  destruct Hrest as [rest Hrest]. exists rest.
  split; [reflexivity |]. split; [exact Hrest |].
  split; [apply str_take_length |].
  split; [intros Hin; apply Hnot; eapply str_take_chars; exact Hin |].
  split; [apply str_take_all | exact Hshape].
Qed.

End AuditLogMore.

Lemma actions_snoc tr e : actions (tr ++ [e]) = (actions tr ++ actions [e])%list.
Proof. apply omap_app. Qed.

Lemma actions_app tr1 tr2 : actions (tr1 ++ tr2) = (actions tr1 ++ actions tr2)%list.
Proof. apply omap_app. Qed.

Lemma config_error_subscript config e :
  config_error config = Some e →
  subscript config "client_id" = Raise e ∨
  (∃ cid, subscript config "client_id" = Ok cid) ∧ subscript config "tenant_id" = Raise e.
Proof.
  unfold config_error, subscript, getitem, dict_in.
  destruct config as [| b | z | s | s | l | d | dt]; try (intros [= <-]; auto).
  destruct (d !! "client_id") as [cid |]; [| intros [= <-]; auto].
  destruct (d !! "tenant_id") as [tid |]; [discriminate | intros [= <-]; eauto].
Qed.

Lemma config_error_none config :
  config_error config = None →
  ∃ cid tid, subscript config "client_id" = Ok cid ∧ subscript config "tenant_id" = Ok tid.
Proof.
  unfold config_error, subscript, getitem, dict_in.
  destruct config as [| b | z | s | s | l | d | dt]; try discriminate.
  destruct (d !! "client_id") as [cid |]; [| discriminate].
  destruct (d !! "tenant_id") as [tid |]; [eauto | discriminate].
Qed.

Section TokenProviderMore.
Context `{PyLib, Msal, Requests}.

(** The provider refuses to start the exchange. *)
Lemma device_code_flow_refused app cache w flow i1 :
  initiate_device_flow app SCOPES (idp_state w) = (flow, i1) →
  flow !! "user_code" = None →
  device_code_flow app cache w =
    (Ok PNone,
     log_event
       (Print ("ERROR: " +:+
               py_str (dict_get flow "error_description" (PStr "Could not initiate auth"))))
       (log_event (InitiateDeviceFlow SCOPES) (set_idp i1 w))).
Proof.
  intros Hflow Hcode.
  unfold device_code_flow, io_bind, with_idp, print, emit, io_ret.
  rewrite Hflow. unfold dict_in at 1. rewrite Hcode. reflexivity.
Qed.

(** X7. The identity provider refuses to start the device code exchange
    (its answer has no [user_code]): [get_access_token] prints
    "ERROR: " and the provider's description, or "Could not initiate auth"
    when it gave none, and returns None; it does not poll for a token and
    writes nothing.  [send_email] then returns False with nothing posted:
    the run ends with the refusal, after at most the silent attempt. *)
Theorem refused_device_flow_ends_the_send
    to subject body config w app cache cache1 w1 flow i1 :
  get_msal_app config w = (Ok (app, cache), w) →
  silent_stage_fails app cache w cache1 w1 →
  initiate_device_flow app SCOPES (idp_state w1) = (flow, i1) →
  flow !! "user_code" = None →
  ∃ w',
    get_access_token config w = (Ok PNone, w') ∧
    send_email to subject body config w = (Ok false, w') ∧
    trace w' =
      (trace w1 ++
       [InitiateDeviceFlow SCOPES;
        Print ("ERROR: " +:+
               py_str (dict_get flow "error_description"
                         (PStr "Could not initiate auth")))])%list ∧
    (trace w1 = trace w ∨ trace w1 = (trace w ++ [AcquireTokenSilent SCOPES])%list) ∧
    fs w' = fs w ∧ net_state w' = net_state w ∧ tick w' = tick w.
Proof.
  intros Happ Hstage Hflow Hcode.
  pose proof (get_access_token_falls_through config w app cache cache1 w1 Happ Hstage) as Hrun.
  rewrite (device_code_flow_refused app cache1 w1 flow i1 Hflow Hcode) in Hrun.
  eexists. split; [exact Hrun |].
  split; [apply (send_email_without_token _ _ _ _ _ _ _ Hrun); reflexivity |].
  cbn [trace fs net_state tick log_event set_idp].
  split; [rewrite <- app_assoc; reflexivity |].
  destruct Hstage as [Hnone | first rest result cache' i Haccounts Hsilent Hresult];
    cbn [trace fs net_state tick log_event set_idp]; auto.
Qed.

(** Building the application: what makes it fail. *)
Lemma get_msal_app_config_error config w e :
  token_cache_json (fs w) = None ∨
    (∃ text cache, token_cache_json (fs w) = Some text ∧
                   deserialize new_cache text = Ok cache) →
  config_error config = Some e →
  get_msal_app config w = (Raise e, w).
Proof.
  intros Hcache Herror.
  unfold get_msal_app, io_bind, exists_file, read_text, lift, io_ret,
    file_exists, fs_read, content.
  cbv beta iota.
  assert (Hsub : ∀ (cache : token_cache),
            match subscript config "client_id" with
            | Ok cid =>
                match subscript config "tenant_id" with
                | Ok tid =>
                    (Ok ({| client_id := cid;
                            authority := "https://login.microsoftonline.com/" +:+ py_str tid |},
                         cache), w)
                | Raise e => (Raise e, w)
                end
            | Raise e => (Raise e, w)
            end = (Raise e, w)).
  { intros cache.
    destruct (config_error_subscript config e Herror) as [-> | [[cid ->] ->]]; reflexivity. }
  destruct Hcache as [Hnone | (text & cache & Hsome & Hload)].
  - rewrite Hnone. cbv beta iota. apply Hsub.
  - rewrite Hsome. cbv beta iota. rewrite Hsome, Hload. cbv beta iota. apply Hsub.
Qed.

Lemma get_msal_app_config_ok config w :
  token_cache_json (fs w) = None ∨
    (∃ text cache, token_cache_json (fs w) = Some text ∧
                   deserialize new_cache text = Ok cache) →
  config_error config = None →
  ∃ app cache, get_msal_app config w = (Ok (app, cache), w).
Proof.
  intros Hcache Hnone.
  destruct (config_error_none config Hnone) as (cid & tid & Hcid & Htid).
  unfold get_msal_app, io_bind, exists_file, read_text, lift, io_ret,
    file_exists, fs_read, content.
  cbv beta iota.
  destruct Hcache as [Hfile | (text & cache & Hsome & Hload)].
  - rewrite Hfile. cbv beta iota. rewrite Hcid, Htid. eauto.
  - rewrite Hsome. cbv beta iota. rewrite Hsome, Hload. cbv beta iota.
    rewrite Hcid, Htid. eauto.
Qed.

(** X8. A configuration that is not a dict, or a dict without
    [client_id] or without [tenant_id], stops [get_access_token] and
    [send_email] with a TypeError, respectively a KeyError, before
    anything is requested, printed or written: the world is untouched.
    Any other configuration builds the application.  (The persisted
    credential cache, when there is one, is assumed to load.) *)
Theorem unusable_config_stops_before_any_request to subject body config w :
  token_cache_json (fs w) = None ∨
    (∃ text cache, token_cache_json (fs w) = Some text ∧
                   deserialize new_cache text = Ok cache) →
  match config_error config with
  | Some e =>
      get_access_token config w = (Raise e, w) ∧
      send_email to subject body config w = (Raise e, w)
  | None => ∃ app cache, get_msal_app config w = (Ok (app, cache), w)
  end.
Proof.
  intros Hcache.
  destruct (config_error config) as [e |] eqn:Herror.
  - pose proof (get_msal_app_config_error config w e Hcache Herror) as Happ.
    assert (Htoken : get_access_token config w = (Raise e, w)).
    { unfold get_access_token. apply io_bind_raise. exact Happ. }
    split; [exact Htoken |].
    unfold send_email. apply io_bind_raise. exact Htoken.
  - apply get_msal_app_config_ok; assumption.
Qed.

(** The device code flow, by what it does besides printing. *)
Lemma device_code_flow_footprint app cache w :
  ∃ evs flow text,
    trace (snd (device_code_flow app cache w)) = (trace w ++ evs)%list ∧
    (actions evs = [InitiateDeviceFlow SCOPES] ∨
     actions evs = [InitiateDeviceFlow SCOPES; AcquireTokenByDeviceFlow flow] ∨
     actions evs = [InitiateDeviceFlow SCOPES; AcquireTokenByDeviceFlow flow;
                    WriteText TOKEN_CACHE text]).
Proof.
  unfold device_code_flow, io_bind, with_idp, print, emit, lift, io_ret, write_text.
  destruct (initiate_device_flow app SCOPES (idp_state w)) as [flow i1] eqn:Hflow.
  destruct (dict_in "user_code" flow); cbn [negb].
  2:{ eexists _, flow, EmptyString. cbn [snd trace log_event set_idp].
      split; [rewrite <- !app_assoc; reflexivity |]. left. reflexivity. }
  unfold getitem at 1.
  destruct (flow !! "verification_uri") as [uri |].
  2:{ eexists _, flow, EmptyString. cbn [snd trace log_event set_idp].
      split; [rewrite <- !app_assoc; reflexivity |]. left. reflexivity. }
  unfold getitem at 1.
  destruct (flow !! "user_code") as [code |].
  2:{ eexists _, flow, EmptyString. cbn [snd trace log_event set_idp].
      split; [rewrite <- !app_assoc; reflexivity |]. left. reflexivity. }
  cbn [idp_state log_event set_idp].
  destruct (acquire_token_by_device_flow app flow cache i1)
    as [[result cache'] i2] eqn:Hpoll.
  destruct (dict_in "access_token" result) eqn:Htok.
  - cbn [fs_write fs log_event set_idp set_fs].
    eexists _, flow, (serialize cache').
    destruct (getitem result "access_token");
      cbn [snd trace log_event set_idp set_fs];
      (split; [rewrite <- !app_assoc; reflexivity |]); right; right; reflexivity.
  - eexists _, flow, EmptyString. cbn [snd trace log_event set_idp].
    split; [rewrite <- !app_assoc; reflexivity |]. right. left. reflexivity.
Qed.

Lemma device_code_flow_after app cache1 w w1 silent :
  trace w1 = (trace w ++ silent)%list →
  ∃ evs flow text,
    trace (snd (device_code_flow app cache1 w1)) = (trace w ++ evs)%list ∧
    (actions evs = (actions silent ++ [InitiateDeviceFlow SCOPES])%list ∨
     actions evs = (actions silent ++ [InitiateDeviceFlow SCOPES;
                                       AcquireTokenByDeviceFlow flow])%list ∨
     actions evs = (actions silent ++ [InitiateDeviceFlow SCOPES;
                                       AcquireTokenByDeviceFlow flow;
                                       WriteText TOKEN_CACHE text])%list).
Proof.
  intros Htrace.
  destruct (device_code_flow_footprint app cache1 w1) as (evs & flow & text & Hevs & Hshape).
  exists (silent ++ evs)%list, flow, text.
  split; [rewrite Hevs, Htrace, <- app_assoc; reflexivity |].
  rewrite actions_app.
  destruct Hshape as [-> | [-> | ->]]; auto.
Qed.

(** X9. What a run of [get_access_token] does besides printing is an
    initial part of: one silent acquisition (or none), one initiation of
    the device code flow, one poll of that flow, one write of the
    credential cache.  So it never polls without
    initiating, never writes before the poll, initiates at most once, and
    touches no file but the credential cache. *)
Theorem get_access_token_footprint config w :
  ∃ evs flow text,
    trace (snd (get_access_token config w)) = (trace w ++ evs)%list ∧
    ∃ silent,
      (silent = [] ∨ silent = [AcquireTokenSilent SCOPES]) ∧
      (actions evs = silent ∨
       actions evs = (silent ++ [InitiateDeviceFlow SCOPES])%list ∨
       actions evs = (silent ++ [InitiateDeviceFlow SCOPES;
                                 AcquireTokenByDeviceFlow flow])%list ∨
       actions evs = (silent ++ [InitiateDeviceFlow SCOPES;
                                 AcquireTokenByDeviceFlow flow;
                                 WriteText TOKEN_CACHE text])%list).
Proof.
  unfold get_access_token, io_bind.
  destruct (get_msal_app config w) as [[[app cache] | e] w0] eqn:Happ;
    apply get_msal_app_pure in Happ; subst w0.
  2:{ exists [], ∅, EmptyString. cbn [snd]. split; [rewrite app_nil_r; reflexivity |].
      exists []. auto. }
  destruct (get_accounts app cache) as [| first rest].
  { destruct (device_code_flow_after app cache w w [] (eq_sym (app_nil_r _)))
      as (evs & flow & text & Hevs & Hshape).
    exists evs, flow, text. split; [exact Hevs |]. exists []. auto. }
  unfold with_idp.
  destruct (acquire_token_silent app SCOPES first cache (idp_state w))
    as [[result cache1] i] eqn:Hsilent.
  assert (Hflow : ∃ evs flow text,
            trace (snd (device_code_flow app cache1
                          (log_event (AcquireTokenSilent SCOPES) (set_idp i w)))) =
              (trace w ++ evs)%list ∧
            ∃ silent,
              (silent = [] ∨ silent = [AcquireTokenSilent SCOPES]) ∧
              (actions evs = silent ∨
               actions evs = (silent ++ [InitiateDeviceFlow SCOPES])%list ∨
               actions evs = (silent ++ [InitiateDeviceFlow SCOPES;
                                         AcquireTokenByDeviceFlow flow])%list ∨
               actions evs = (silent ++ [InitiateDeviceFlow SCOPES;
                                         AcquireTokenByDeviceFlow flow;
                                         WriteText TOKEN_CACHE text])%list)).
  { destruct (device_code_flow_after app cache1 w
                (log_event (AcquireTokenSilent SCOPES) (set_idp i w))
                [AcquireTokenSilent SCOPES] eq_refl)
      as (evs & flow & text & Hevs & Hshape).
    exists evs, flow, text. split; [exact Hevs |].
    exists [AcquireTokenSilent SCOPES]. auto. }
  destruct result as [d |]; [| exact Hflow].
  destruct (truthy (PDict d) && dict_in "access_token" d); [| exact Hflow].
  exists [AcquireTokenSilent SCOPES], ∅, EmptyString.
  split; [reflexivity |]. exists [AcquireTokenSilent SCOPES]. auto.
Qed.

(** X10. Without a usable token, nothing is sent.  When
    [get_access_token] raises, or returns None or another falsy value (an
    empty string), [send_email] ends where the token request ended, with
    that exception, respectively False: it posts nothing, writes no audit
    record, leaves the audit directory and the mail provider as they
    were, and prints nothing of its own. *)
Theorem no_token_no_post to subject body config w :
  (∀ token w1, get_access_token config w = (Ok token, w1) → truthy token = false) →
  send_email to subject body config w =
    (match fst (get_access_token config w) with
     | Ok _ => Ok false
     | Raise e => Raise e
     end, snd (get_access_token config w)) ∧
  posts (trace (snd (send_email to subject body config w))) = posts (trace w) ∧
  audit_writes (trace (snd (send_email to subject body config w))) =
    audit_writes (trace w) ∧
  sent (fs (snd (send_email to subject body config w))) = sent (fs w) ∧
  net_state (snd (send_email to subject body config w)) = net_state w.
Proof.
  intros Hfalsy.
  destruct (get_access_token config w) as [[token | e] w1] eqn:Htoken.
  - rewrite (send_email_without_token to subject body config w token w1 Htoken
               (Hfalsy token w1 eq_refl)).
    apply get_access_token_cases in Htoken
      as [(_ & _ & Hnet & _ & _ & Hsent & Haudit & Hposts) _].
    cbn [fst snd]. auto.
  - assert (Hrun : send_email to subject body config w = (Raise e, w1)).
    { unfold send_email. apply io_bind_raise. exact Htoken. }
    rewrite Hrun.
    apply get_access_token_cases in Htoken
      as [(_ & _ & Hnet & _ & _ & Hsent & Haudit & Hposts) _].
    cbn [fst snd]. auto.
Qed.


End TokenProviderMore.

Section AuthScriptMore.
Context `{PyLib, Msal, Requests}.

Lemma print_lines_run lines w :
  print_lines lines w =
    (Ok tt, {| fs := fs w; clock := clock w; tick := tick w;
               idp_state := idp_state w; net_state := net_state w;
               trace := (trace w ++ map Print lines)%list |}).
Proof.
  revert w. induction lines as [| line rest IH]; intros w.
  - simpl. unfold io_ret. rewrite app_nil_r. destruct w; reflexivity.
  - cbn [print_lines]. unfold io_bind, print, emit. rewrite IH.
    cbn [fs clock tick idp_state net_state trace log_event map].
    rewrite <- app_assoc. reflexivity.
Qed.


Lemma respects_ret f g {A} (a : A) : respects f g (io_ret a).
Proof. intros w1 w2 Hsame. split; [reflexivity | exact Hsame]. Qed.

Lemma respects_lift f g {A} (o : outcome A) : respects f g (lift o).
Proof. intros w1 w2 Hsame. split; [reflexivity | exact Hsame]. Qed.

Lemma respects_bind f g {A B} (m : io A) (k : A → io B) :
  respects f g m → (∀ a, respects f g (k a)) → respects f g (io_bind m k).
Proof.
  intros Hm Hk w1 w2 Hsame. unfold io_bind.
  destruct (Hm w1 w2 Hsame) as [Hfst Hsnd].
  destruct (m w1) as [[a | e] w1'], (m w2) as [[a' | e'] w2'];
    cbn [fst snd] in Hfst, Hsnd; try discriminate.
  - injection Hfst as <-. apply Hk. exact Hsnd.
  - injection Hfst as <-. split; [reflexivity | exact Hsnd].
Qed.

Lemma respects_emit f g e : respects f g (emit e).
Proof.
  intros w1 w2 (Hclock & Htick & Hidp & Hnet & Htrace & Hfs).
  split; [reflexivity |]. unfold emit, same_but_fs.
  cbn [snd clock tick idp_state net_state trace fs log_event].
  rewrite Htrace. auto 10.
Qed.

Lemma respects_with_idp f g {A} e (call : idp → A * idp) : respects f g (with_idp e call).
Proof.
  intros w1 w2 (Hclock & Htick & Hidp & Hnet & Htrace & Hfs).
  unfold with_idp. rewrite Hidp. destruct (call (idp_state w2)) as [a i].
  split; [reflexivity |]. unfold same_but_fs.
  cbn [snd clock tick idp_state net_state trace fs log_event set_idp].
  rewrite Htrace. auto 10.
Qed.

Lemma respects_with_net f g {A} e (call : net → A * net) : respects f g (with_net e call).
Proof.
  intros w1 w2 (Hclock & Htick & Hidp & Hnet & Htrace & Hfs).
  unfold with_net. rewrite Hnet. destruct (call (net_state w2)) as [a n].
  split; [reflexivity |]. unfold same_but_fs.
  cbn [snd clock tick idp_state net_state trace fs log_event set_net].
  rewrite Htrace. auto 10.
Qed.

Lemma respects_read_config f g :
  config_json f = config_json g → respects f g (read_text CONFIG_FILE).
Proof.
  intros Hconfig w1 w2 Hsame. split; [| exact Hsame].
  destruct Hsame as (_ & _ & _ & _ & _ & [[Hf Hg] | (text & Hf & Hg)]);
    unfold read_text, fs_read, content; cbn [fst]; rewrite Hf, Hg;
    cbn [token_saved config_json]; rewrite Hconfig; reflexivity.
Qed.

Lemma respects_write_token f g s : respects f g (write_text TOKEN_CACHE s).
Proof.
  intros w1 w2 (Hclock & Htick & Hidp & Hnet & Htrace & Hfs).
  split; [reflexivity |]. unfold write_text, fs_write, same_but_fs.
  cbn [snd clock tick idp_state net_state trace fs log_event set_fs].
  rewrite Htrace. repeat (split; [assumption || reflexivity |]).
  right. exists s.
  destruct Hfs as [[-> ->] | (text & -> & ->)]; split; reflexivity.
Qed.

Lemma respects_print_lines f g lines : respects f g (print_lines lines).
Proof.
  induction lines as [| line rest IH]; cbn [print_lines].
  - apply respects_ret.
  - apply respects_bind; [apply respects_emit | intros _; exact IH].
Qed.

(** The stand-alone script cannot tell apart two file systems with the
    same [config.json]. *)
Lemma auth_script_respects f g :
  config_json f = config_json g → respects f g auth_script.
Proof.
  intros Hconfig. unfold auth_script, print.
  apply respects_bind; [apply respects_read_config; exact Hconfig | intros text].
  apply respects_bind; [apply respects_lift | intros config].
  apply respects_bind; [apply respects_lift | intros cid].
  apply respects_bind; [apply respects_lift | intros tid].
  cbv zeta.
  do 3 (apply respects_bind; [apply respects_emit | intros _]).
  apply respects_bind; [apply respects_with_idp | intros flow].
  apply respects_bind; [apply respects_lift | intros uri].
  apply respects_bind; [apply respects_emit | intros _].
  apply respects_bind; [apply respects_lift | intros code].
  do 2 (apply respects_bind; [apply respects_emit | intros _]).
  apply respects_bind; [apply respects_lift | intros uri'].
  do 2 (apply respects_bind; [apply respects_emit | intros _]).
  apply respects_bind; [apply respects_with_idp | intros [result cache]].
  destruct (dict_in "access_token" result); [| apply respects_emit].
  apply respects_bind; [apply respects_write_token | intros _].
  apply respects_bind; [apply respects_emit | intros _].
  apply respects_bind; [apply respects_lift | intros token].
  apply respects_bind; [apply respects_with_net | intros listing].
  apply respects_bind; [apply respects_print_lines | intros _].
  destruct (snd listing); [apply respects_lift | apply respects_ret].
Qed.

(** X12. The stand-alone script reads [config.json] and nothing else:
    started on another file system with the same [config.json], it ends
    the same way, with the same trace, identity provider and mail
    provider.  In particular it never reads the persisted credential
    cache: either both runs leave their file systems alone, or both write
    the same text to the credential cache. *)
Theorem auth_script_reads_only_config w f :
  config_json f = config_json (fs w) →
  fst (auth_script (set_fs f w)) = fst (auth_script w) ∧
  trace (snd (auth_script (set_fs f w))) = trace (snd (auth_script w)) ∧
  idp_state (snd (auth_script (set_fs f w))) = idp_state (snd (auth_script w)) ∧
  net_state (snd (auth_script (set_fs f w))) = net_state (snd (auth_script w)) ∧
  ((fs (snd (auth_script (set_fs f w))) = f ∧ fs (snd (auth_script w)) = fs w) ∨
   ∃ text, fs (snd (auth_script (set_fs f w))) = token_saved f text ∧
           fs (snd (auth_script w)) = token_saved (fs w) text).
Proof.
  intros Hconfig.
  destruct (auth_script_respects f (fs w) Hconfig (set_fs f w) w)
    as (Hresult & _ & _ & Hidp & Hnet & Htrace & Hfs).
  { unfold same_but_fs. cbn [clock tick idp_state net_state trace fs set_fs]. auto 10. }
  auto 10.
Qed.

(** The script up to the device flow, with a configuration it can use. *)
Lemma auth_script_flow_missing_key w text config cid tid flow i1 :
  config_json (fs w) = Some text →
  json_loads text = Some config →
  subscript config "client_id" = Ok cid →
  subscript config "tenant_id" = Ok tid →
  initiate_device_flow
    {| client_id := cid;
       authority := "https://login.microsoftonline.com/" +:+ py_str tid |}
    SCOPES (idp_state w) = (flow, i1) →
  flow !! "verification_uri" = None ∨ flow !! "user_code" = None →
  ∃ w', auth_script w = (Raise KeyError, w') ∧
        fs w' = fs w ∧ net_state w' = net_state w ∧ idp_state w' = i1 ∧
        actions (trace w') = (actions (trace w) ++ [InitiateDeviceFlow SCOPES])%list.
Proof.
  intros Hfile Hloads Hcid Htid Hflow Hmissing.
  unfold auth_script.
  erewrite io_bind_ok; [| unfold read_text, fs_read, content; rewrite Hfile; reflexivity].
  rewrite Hloads. erewrite io_bind_ok; [| reflexivity].
  rewrite Hcid. erewrite io_bind_ok; [| reflexivity].
  rewrite Htid. erewrite io_bind_ok; [| reflexivity].
  cbv zeta.
  erewrite io_bind_ok; [| reflexivity].
  erewrite io_bind_ok; [| reflexivity].
  erewrite io_bind_ok; [| reflexivity].
  erewrite io_bind_ok;
    [| unfold with_idp; cbn [idp_state log_event]; rewrite Hflow; reflexivity].
  unfold getitem.
  destruct (flow !! "verification_uri") as [uri |] eqn:Huri.
  - destruct Hmissing as [Hnone | Hnone]; [discriminate |]. rewrite Hnone.
    erewrite io_bind_ok; [| reflexivity].
    erewrite io_bind_ok; [| reflexivity].
    erewrite io_bind_raise; [| reflexivity].
    eexists. split; [reflexivity |].
    cbn [fs net_state idp_state trace log_event set_idp].
    repeat (split; [reflexivity |]).
    rewrite !actions_snoc. cbn [actions omap list_omap]. rewrite !app_nil_r. reflexivity.
  - erewrite io_bind_raise; [| reflexivity].
    eexists. split; [reflexivity |].
    cbn [fs net_state idp_state trace log_event set_idp].
    repeat (split; [reflexivity |]).
    rewrite !actions_snoc. cbn [actions omap list_omap]. rewrite !app_nil_r. reflexivity.
Qed.

(** X13. The script does not test the answer of the initiation.  When
    the provider refuses to start the exchange (no [user_code] in the
    answer), [auth.py] ends with a KeyError where [get_access_token]'s
    device code flow prints the error and returns None; neither polls for
    a token nor writes a file. *)
Theorem auth_script_does_not_test_the_flow w text config cid tid flow i1 cache :
  config_json (fs w) = Some text →
  json_loads text = Some config →
  subscript config "client_id" = Ok cid →
  subscript config "tenant_id" = Ok tid →
  initiate_device_flow
    {| client_id := cid;
       authority := "https://login.microsoftonline.com/" +:+ py_str tid |}
    SCOPES (idp_state w) = (flow, i1) →
  flow !! "user_code" = None →
  (∃ w', auth_script w = (Raise KeyError, w') ∧
         fs w' = fs w ∧ net_state w' = net_state w ∧
         actions (trace w') = (actions (trace w) ++ [InitiateDeviceFlow SCOPES])%list) ∧
  (∃ w', device_code_flow
           {| client_id := cid;
              authority := "https://login.microsoftonline.com/" +:+ py_str tid |}
           cache w = (Ok PNone, w') ∧
         fs w' = fs w ∧ net_state w' = net_state w ∧
         actions (trace w') = (actions (trace w) ++ [InitiateDeviceFlow SCOPES])%list).
Proof.
  intros Hfile Hloads Hcid Htid Hflow Hcode. split.
  - destruct (auth_script_flow_missing_key w text config cid tid flow i1
                Hfile Hloads Hcid Htid Hflow (or_intror Hcode))
      as (w' & Hrun & Hfs & Hnet & _ & Hactions).
    exists w'. auto.
  - rewrite (device_code_flow_refused _ cache w flow i1 Hflow Hcode).
    eexists. split; [reflexivity |].
    cbn [fs net_state trace log_event set_idp].
    repeat (split; [reflexivity |]).
    rewrite !actions_snoc. cbn [actions omap list_omap]. rewrite !app_nil_r. reflexivity.
Qed.

(** X14. How the two programs start.  Without [config.json] the script
    raises FileNotFoundError where [load_config] returns None; on a
    [config.json] that is not JSON both raise ValueError; and on a
    configuration the application cannot be built from, which
    [load_config] returns as it is, the script raises the TypeError or
    KeyError.  In each case the script stops before it prints or requests
    anything. *)
Theorem auth_script_startup_errors w :
  match config_json (fs w) with
  | None =>
      auth_script w = (Raise FileNotFoundError, w) ∧ load_config w = (Ok PNone, w)
  | Some text =>
      match json_loads text with
      | None =>
          auth_script w = (Raise ValueError, w) ∧ load_config w = (Raise ValueError, w)
      | Some config =>
          load_config w = (Ok config, w) ∧
          ∀ e, config_error config = Some e → auth_script w = (Raise e, w)
      end
  end.
Proof.
  assert (Hexists : ∀ text, config_json (fs w) = Some text →
            exists_file CONFIG_FILE w = (Ok true, w)).
  { intros text Hfile. unfold exists_file, file_exists, content. rewrite Hfile. reflexivity. }
  assert (Hread : ∀ text, config_json (fs w) = Some text →
            read_text CONFIG_FILE w = (Ok text, w)).
  { intros text Hfile. unfold read_text, fs_read, content. rewrite Hfile. reflexivity. }
  destruct (config_json (fs w)) as [text |] eqn:Hfile.
  - specialize (Hexists text eq_refl). specialize (Hread text eq_refl).
    destruct (json_loads text) as [config |] eqn:Hloads.
    + split.
      { unfold load_config. rewrite (io_bind_ok _ _ _ _ _ Hexists). cbn [negb].
        rewrite (io_bind_ok _ _ _ _ _ Hread), Hloads. reflexivity. }
      intros e Herror. unfold auth_script.
      rewrite (io_bind_ok _ _ _ _ _ Hread), Hloads.
      erewrite io_bind_ok; [| reflexivity].
      destruct (config_error_subscript config e Herror) as [Hcid | [[cid Hcid] Htid]].
      * apply io_bind_raise. rewrite Hcid. reflexivity.
      * rewrite Hcid. erewrite io_bind_ok; [| reflexivity].
        apply io_bind_raise. rewrite Htid. reflexivity.
    + split.
      * unfold auth_script. rewrite (io_bind_ok _ _ _ _ _ Hread), Hloads.
        apply io_bind_raise. reflexivity.
      * unfold load_config. rewrite (io_bind_ok _ _ _ _ _ Hexists). cbn [negb].
        rewrite (io_bind_ok _ _ _ _ _ Hread), Hloads. reflexivity.
  - split.
    + unfold auth_script. apply io_bind_raise.
      unfold read_text, fs_read, content. rewrite Hfile. reflexivity.
    + unfold load_config. erewrite io_bind_ok;
        [| unfold exists_file, file_exists, content; rewrite Hfile; reflexivity].
      reflexivity.
Qed.

(** X15. When the exchange gives a token, the script opens the browser
    before it polls, writes the credential cache before it lists the
    inbox, and lists the inbox with that token whatever it is.  The
    script ends as the listing ends; an exception there leaves the
    credential cache written. *)
Theorem auth_script_saves_the_token_before_listing
    w text config cid tid flow i1 uri code result cache' i2 token :
  config_json (fs w) = Some text →
  json_loads text = Some config →
  subscript config "client_id" = Ok cid →
  subscript config "tenant_id" = Ok tid →
  let app := {| client_id := cid;
                authority := "https://login.microsoftonline.com/" +:+ py_str tid |} in
  initiate_device_flow app SCOPES (idp_state w) = (flow, i1) →
  flow !! "verification_uri" = Some uri →
  flow !! "user_code" = Some code →
  acquire_token_by_device_flow app flow new_cache i1 = (result, cache', i2) →
  result !! "access_token" = Some token →
  ∃ w',
    auth_script w =
      (match snd (fst (inbox_listing token (net_state w))) with
       | Some e => Raise e
       | None => Ok tt
       end, w') ∧
    fs w' = token_saved (fs w) (serialize cache') ∧
    actions (trace w') =
      (actions (trace w) ++
       [InitiateDeviceFlow SCOPES; BrowserOpen uri; AcquireTokenByDeviceFlow flow;
        WriteText TOKEN_CACHE (serialize cache'); HttpGetInbox token])%list.
Proof.
  intros Hfile Hloads Hcid Htid app Hflow Huri Hcode Hpoll Htoken.
  unfold auth_script.
  erewrite io_bind_ok; [| unfold read_text, fs_read, content; rewrite Hfile; reflexivity].
  rewrite Hloads. erewrite io_bind_ok; [| reflexivity].
  rewrite Hcid. erewrite io_bind_ok; [| reflexivity].
  rewrite Htid. erewrite io_bind_ok; [| reflexivity].
  cbv zeta. fold app.
  do 3 (erewrite io_bind_ok; [| reflexivity]).
  erewrite io_bind_ok;
    [| unfold with_idp; cbn [idp_state log_event]; rewrite Hflow; reflexivity].
  unfold getitem. rewrite Huri, Hcode.
  do 8 (erewrite io_bind_ok; [| reflexivity]).
  erewrite io_bind_ok;
    [| unfold with_idp; cbn [idp_state log_event set_idp]; rewrite Hpoll; reflexivity].
  unfold dict_in. rewrite Htoken.
  do 3 (erewrite io_bind_ok; [| reflexivity]).
  destruct (inbox_listing token (net_state w)) as [[lines failure] n] eqn:Hlisting.
  erewrite io_bind_ok;
    [| unfold with_net; cbn [net_state log_event set_idp set_fs]; rewrite Hlisting;
       reflexivity].
  cbn [fst snd].
  erewrite io_bind_ok; [| apply print_lines_run].
  eexists. split; [destruct failure; reflexivity |].
  cbn [fs trace log_event set_idp set_fs set_net]. split; [reflexivity |].
  rewrite actions_app, !actions_snoc. cbn [actions omap list_omap].
  rewrite !app_nil_r, <- !app_assoc.
  f_equal.
  assert (Hprints : ∀ l, actions (map Print l) = []) by (induction l; auto).
  rewrite Hprints. reflexivity.
Qed.

End AuthScriptMore.

(** * Configuration and templates *)

Lemma append_nil_r (s : string) : s +:+ EmptyString = s.
Proof.
  induction s as [| c s IH]; [reflexivity |].
  change (String c (s +:+ EmptyString) = String c s). rewrite IH. reflexivity.
Qed.

(** Joining what [split] gave, with the separator, gives the string back. *)
Lemma concat_str_split sep s :
  String.concat (String sep EmptyString) (str_split sep s) = s.
Proof.
  induction s as [| c r IH]; [reflexivity |].
  cbn [str_split].
  destruct (str_split_cons sep r) as (h & t & Hsplit). rewrite Hsplit in *.
  destruct (Ascii.eqb_spec c sep) as [-> | Hne].
  - change (String sep (String.concat (String sep EmptyString) (h :: t)) = String sep r).
    rewrite IH. reflexivity.
  - destruct t as [| y t].
    + cbn [String.concat] in *. rewrite IH. reflexivity.
    + change (String c (h +:+ String sep EmptyString +:+
                        String.concat (String sep EmptyString) (y :: t)) = String c r).
      change (h +:+ String sep EmptyString +:+
              String.concat (String sep EmptyString) (y :: t) = r) in IH.
      rewrite IH. reflexivity.
Qed.

Lemma str_split_without sep s :
  sep ∉ list_ascii_of_string s → str_split sep s = [s].
Proof.
  induction s as [| c r IH]; [reflexivity |].
  cbn [str_split list_ascii_of_string]. intros Hnot.
  destruct (Ascii.eqb_spec c sep) as [-> | Hne]; [exfalso; apply Hnot; left |].
  rewrite IH; [reflexivity |]. intros Hin. apply Hnot. right. exact Hin.
Qed.

Lemma str_split_app sep a b :
  sep ∉ list_ascii_of_string a →
  str_split sep (a +:+ String sep b) = a :: str_split sep b.
Proof.
  induction a as [| c r IH]; cbn [list_ascii_of_string]; intros Hnot.
  - change (str_split sep (String sep b) = EmptyString :: str_split sep b).
    cbn [str_split]. rewrite Ascii.eqb_refl. reflexivity.
  - change (str_split sep (String c (r +:+ String sep b)) = String c r :: str_split sep b).
    cbn [str_split].
    destruct (Ascii.eqb_spec c sep) as [-> | Hne]; [exfalso; apply Hnot; left |].
    rewrite IH; [reflexivity |]. intros Hin. apply Hnot. right. exact Hin.
Qed.

Lemma str_lower_app a b : str_lower (a +:+ b) = str_lower a +:+ str_lower b.
Proof.
  induction a as [| c a IH]; [reflexivity |].
  change (String (lower_char c) (str_lower (a +:+ b)) =
          String (lower_char c) (str_lower a +:+ str_lower b)).
  rewrite IH. reflexivity.
Qed.

(** A prefix that holds no [c] is looked for before the first [c]. *)
Lemma prefix_before_char p a c b :
  c ∉ list_ascii_of_string p →
  String.prefix p (a +:+ String c b) = String.prefix p a.
Proof.
  revert a. induction p as [| x p IH]; intros a Hnot; [destruct a; reflexivity |].
  cbn [list_ascii_of_string] in Hnot.
  destruct a as [| y a].
  - change (String.prefix (String x p) (String c b) = false). cbn [String.prefix].
    destruct (ascii_dec x c) as [-> | _]; [exfalso; apply Hnot; left | reflexivity].
  - change (String.prefix (String x p) (String y (a +:+ String c b)) =
            String.prefix (String x p) (String y a)).
    cbn [String.prefix]. destruct (ascii_dec x y); [| reflexivity].
    apply IH. intros Hin. apply Hnot. right. exact Hin.
Qed.

Lemma prefix_app p s : String.prefix p (p +:+ s) = true.
Proof.
  induction p as [| a p IH]; [destruct s; reflexivity |].
  change (String.prefix (String a p) (String a (p +:+ s)) = true).
  cbn [String.prefix]. destruct (ascii_dec a a); [exact IH | contradiction].
Qed.



Lemma list_ascii_of_string_app a b :
  list_ascii_of_string (a +:+ b) = (list_ascii_of_string a ++ list_ascii_of_string b)%list.
Proof.
  induction a as [| c a IH]; [reflexivity |].
  change (c :: list_ascii_of_string (a +:+ b) =
          c :: (list_ascii_of_string a ++ list_ascii_of_string b)%list).
  rewrite IH. reflexivity.
Qed.

Lemma str_lower_elem c s :
  c ∈ list_ascii_of_string s → lower_char c ∈ list_ascii_of_string (str_lower s).
Proof.
  induction s as [| a s IH]; cbn [list_ascii_of_string str_lower]; intros Hin.
  - inversion Hin.
  - apply elem_of_cons in Hin as [-> | Hin]; [left | right; auto].
Qed.

(** The header holds no line break. *)
Lemma newline_not_in_header header :
  str_lower header = "subject:" → ascii_of_nat 10 ∉ list_ascii_of_string header.
Proof.
  intros Hlower Hin. apply str_lower_elem in Hin. rewrite Hlower in Hin.
  cbn [list_ascii_of_string] in Hin.
  repeat (apply elem_of_cons in Hin; destruct Hin as [Heq | Hin]; [discriminate Heq |]).
  inversion Hin.
Qed.

(** Only the colon is lowered to a colon. *)
Lemma lower_char_colon c : lower_char c = ":"%char → c = ":"%char.
Proof.
  destruct c as [[] [] [] [] [] [] [] []]; vm_compute; intros Heq;
    first [reflexivity | discriminate Heq].
Qed.

Lemma lower_char_not_colon c x :
  lower_char c = x → x ≠ ":"%char → Ascii.eqb c ":" = false.
Proof.
  intros Hlower Hne. destruct (Ascii.eqb_spec c ":") as [-> | _]; [| reflexivity].
  exfalso. apply Hne. rewrite <- Hlower. reflexivity.
Qed.

(** A line that begins with the header, in any case, is cut after the
    header. *)
Lemma subject_header_split header value :
  str_lower header = "subject:" →
  String.prefix "subject:" (str_lower (header +:+ value)) = true ∧
  index1 (str_split_once ":"%char (header +:+ value)) = Ok value.
Proof.
  intros Hlower. split.
  - rewrite str_lower_app, Hlower. apply prefix_app.
  - destruct header as [| c1 [| c2 [| c3 [| c4 [| c5 [| c6 [| c7 [| c8 [| c9 rest]]]]]]]]];
      try discriminate Hlower.
    cbn [str_lower] in Hlower.
    injection Hlower as H1 H2 H3 H4 H5 H6 H7 H8.
    apply lower_char_colon in H8. subst c8.
    change (index1 (str_split_once ":"%char
              (String c1 (String c2 (String c3 (String c4 (String c5 (String c6
                 (String c7 (String ":" value))))))))) = Ok value).
    cbn [str_split_once].
    rewrite (lower_char_not_colon c1 _ H1), (lower_char_not_colon c2 _ H2),
      (lower_char_not_colon c3 _ H3), (lower_char_not_colon c4 _ H4),
      (lower_char_not_colon c5 _ H5), (lower_char_not_colon c6 _ H6),
      (lower_char_not_colon c7 _ H7) by discriminate.
    reflexivity.
Qed.


Section Templates.
Context `{PyLib, Msal, Requests}.
Context `{!Host}.

Lemma exists_file_run f w : exists_file f w = (Ok (file_exists (fs w) f), w).
Proof. reflexivity. Qed.

Lemma load_template_found name w text :
  content (fs w) (TEMPLATES_DIR // (name +:+ ".md")) = Some text →
  load_template name w =
    (let lines := str_split (ascii_of_nat 10) text in
     first <- lift (index0 lines) ;;
     if String.prefix "subject:" (str_lower first) then
       rest <- lift (index1 (str_split_once ":"%char first)) ;;
       let subject := str_strip rest in
       let body_start :=
         if (1 <? length lines)%nat &&
            match lines !! 1%nat with
            | Some second => String.eqb (str_strip second) EmptyString
            | None => false
            end
         then 2%nat else 1%nat in
       io_ret (Some subject, Some (String.concat nl (drop body_start lines)))
     else
       io_ret (Some "CANONIC", Some (String.concat nl (drop 0 lines)))) w.
Proof.
  intros Hfile. unfold load_template. cbv zeta.
  erewrite io_bind_ok; [| unfold exists_file, file_exists; rewrite Hfile; reflexivity].
  cbn [negb].
  erewrite io_bind_ok; [| unfold read_text, fs_read; rewrite Hfile; reflexivity].
  reflexivity.
Qed.


(** [save_config] on a configuration json serializes. *)
Lemma save_config_run config w :
  json_serializable config = true →
  save_config config w =
    (Ok tt,
     log_event (WriteText CONFIG_FILE (json_dumps config))
       (set_fs {| config_json := Some (json_dumps config);
                  token_cache_json := token_cache_json (fs w);
                  templates := templates (fs w); sent := sent (fs w) |} w)).
Proof.
  intros Hjson. unfold save_config.
  erewrite io_bind_ok; [| unfold lift, py_json_dumps; rewrite Hjson; reflexivity].
  reflexivity.
Qed.

(** X16. What [save_config] stores, [load_config] returns, when the
    json library reads back what it printed: [save_config] writes
    [config.json] and nothing else, and [load_config], which changes
    nothing, then returns the saved configuration whatever the file held
    before. *)
Theorem save_config_then_load_config config w :
  json_loads (json_dumps config) = Some config →
  ∃ w',
    save_config config w = (Ok tt, w') ∧
    load_config w' = (Ok config, w') ∧
    config_json (fs w') = Some (json_dumps config) ∧
    token_cache_json (fs w') = token_cache_json (fs w) ∧
    templates (fs w') = templates (fs w) ∧
    sent (fs w') = sent (fs w) ∧
    trace w' = (trace w ++ [WriteText CONFIG_FILE (json_dumps config)])%list.
Proof.
  intros Hround.
  assert (Hsave : ∃ w', save_config config w = (Ok tt, w') ∧
            fs w' = {| config_json := Some (json_dumps config);
                       token_cache_json := token_cache_json (fs w);
                       templates := templates (fs w); sent := sent (fs w) |} ∧
            trace w' = (trace w ++ [WriteText CONFIG_FILE (json_dumps config)])%list).
  { eexists. split.
    - apply save_config_run. exact (json_loads_value _ _ Hround).
    - split; reflexivity. }
  destruct Hsave as (w' & Hsave & Hfs & Htrace).
  exists w'. split; [exact Hsave |]. rewrite Hfs, Htrace.
  split; [| repeat apply conj; reflexivity].
  unfold load_config.
  erewrite io_bind_ok;
    [| unfold exists_file, file_exists, content; rewrite Hfs; cbn [config_json];
       reflexivity].
  cbn [negb].
  erewrite io_bind_ok;
    [| unfold read_text, fs_read, content; rewrite Hfs; cbn [config_json]; reflexivity].
  rewrite Hround. reflexivity.
Qed.


(** X18. A template whose text does not begin with "subject:", in any
    case of the letters, is sent under the subject CANONIC with the whole
    text as its body. *)
Theorem template_without_subject_line name w text :
  content (fs w) (TEMPLATES_DIR // (name +:+ ".md")) = Some text →
  String.prefix "subject:" (str_lower text) = false →
  load_template name w = (Ok (Some "CANONIC", Some text), w).
Proof.
  intros Hfile Hprefix.
  rewrite (load_template_found name w text Hfile). cbv zeta.
  destruct (str_split_first (ascii_of_nat 10) text) as (first & others & Hsplit & Hnot & Hshape).
  rewrite Hsplit. erewrite io_bind_ok; [| reflexivity].
  assert (Hfirst : String.prefix "subject:" (str_lower first) = false).
  { destruct Hshape as [<- | [rest ->]]; [exact Hprefix |].
    rewrite str_lower_app in Hprefix.
    change (str_lower (String (ascii_of_nat 10) rest))
      with (String (ascii_of_nat 10) (str_lower rest)) in Hprefix.
    rewrite prefix_before_char in Hprefix; [exact Hprefix |].
    apply newline_not_in_header. reflexivity. }
  rewrite Hfirst, <- Hsplit, drop_0.
  change nl with (String (ascii_of_nat 10) EmptyString). rewrite concat_str_split.
  reflexivity.
Qed.

(** X19. A template that begins with "Subject:", in any case of the
    letters: the subject is the rest of the first line, stripped.  The
    body is what follows the first line; when the second line is blank,
    the body starts after it.  A template of one line has an empty
    body. *)
Theorem template_with_subject_line name w header value :
  str_lower header = "subject:" →
  ascii_of_nat 10 ∉ list_ascii_of_string value →
  (content (fs w) (TEMPLATES_DIR // (name +:+ ".md")) = Some (header +:+ value) →
   load_template name w = (Ok (Some (str_strip value), Some EmptyString), w)) ∧
  (∀ second rest,
     content (fs w) (TEMPLATES_DIR // (name +:+ ".md")) =
       Some (header +:+ value +:+ nl +:+ second +:+ rest) →
     ascii_of_nat 10 ∉ list_ascii_of_string second →
     rest = EmptyString ∨ (∃ more, rest = nl +:+ more) →
     load_template name w =
       (Ok (Some (str_strip value),
            Some (if String.eqb (str_strip second) EmptyString
                  then str_drop 1 rest else second +:+ rest)), w)).
Proof.
  intros Hlower Hvalue.
  destruct (subject_header_split header value Hlower) as [Hprefix Hindex].
  assert (Hline : ascii_of_nat 10 ∉ list_ascii_of_string (header +:+ value)).
  { rewrite list_ascii_of_string_app. intros Hin. apply elem_of_app in Hin as [Hin | Hin].
    - exact (newline_not_in_header header Hlower Hin).
    - exact (Hvalue Hin). }
  split.
  - intros Hfile. rewrite (load_template_found name w _ Hfile). cbv zeta.
    rewrite (str_split_without _ _ Hline).
    erewrite io_bind_ok; [| reflexivity]. rewrite Hprefix, Hindex.
    erewrite io_bind_ok; [| reflexivity]. reflexivity.
  - intros second rest Hfile Hsecond Hrest.
    rewrite (load_template_found name w _ Hfile). cbv zeta.
    assert (Hlines : ∃ tail,
              str_split (ascii_of_nat 10) (header +:+ value +:+ nl +:+ second +:+ rest) =
                (header +:+ value) :: second :: tail ∧
              String.concat nl tail = str_drop 1 rest ∧
              String.concat nl (second :: tail) = second +:+ rest).
    { rewrite <- append_assoc.
      change (nl +:+ second +:+ rest) with (String (ascii_of_nat 10) (second +:+ rest)).
      rewrite (str_split_app _ _ _ Hline).
      destruct Hrest as [-> | [more ->]].
      - rewrite append_nil_r, (str_split_without _ _ Hsecond). exists []. auto.
      - change (nl +:+ more) with (String (ascii_of_nat 10) more).
        rewrite (str_split_app _ _ _ Hsecond).
        exists (str_split (ascii_of_nat 10) more). split; [reflexivity |].
        change nl with (String (ascii_of_nat 10) EmptyString).
        split; [apply concat_str_split |].
        rewrite <- (str_split_app _ _ _ Hsecond). apply concat_str_split. }
    destruct Hlines as (tail & -> & Hblank & Hfull).
    erewrite io_bind_ok; [| reflexivity]. rewrite Hprefix, Hindex.
    erewrite io_bind_ok; [| reflexivity].
    cbn [length lookup list_lookup Nat.ltb Nat.leb andb].
    destruct (String.eqb (str_strip second) EmptyString).
    + change (drop 2 ((header +:+ value) :: second :: tail)) with tail.
      rewrite Hblank. reflexivity.
    + change (drop 1 ((header +:+ value) :: second :: tail)) with (second :: tail).
      rewrite Hfull. reflexivity.
Qed.

End Templates.

(** * The commands *)

Section Commands.
Context `{PyLib, Msal, Requests}.
Context `{!Host}.

Lemma ensure_dirs_run w : ensure_dirs w = (Ok tt, started w).
Proof. reflexivity. Qed.

Lemma started_fs w :
  config_json (fs (started w)) = config_json (fs w) ∧
  token_cache_json (fs (started w)) = token_cache_json (fs w) ∧
  templates (fs (started w)) = Some (default ∅ (templates (fs w))) ∧
  sent (fs (started w)) = Some (default ∅ (sent (fs w))).
Proof.
  unfold started, fs_mkdir, entries, set_entries. cbn [fs set_fs].
  destruct (templates (fs w)) eqn:Ht; cbn [sent templates];
    destruct (sent (fs w)) eqn:Hs; cbn [config_json token_cache_json sent templates];
    rewrite ?Ht, ?Hs; auto.
Qed.

Lemma started_rest w :
  clock (started w) = clock w ∧ tick (started w) = tick w ∧
  idp_state (started w) = idp_state w ∧ net_state (started w) = net_state w ∧
  trace (started w) = trace w.
Proof. repeat split. Qed.

Lemma load_config_missing w :
  config_json (fs w) = None → load_config w = (Ok PNone, w).
Proof.
  intros Hfile. unfold load_config.
  erewrite io_bind_ok;
    [| unfold exists_file, file_exists, content; rewrite Hfile; reflexivity].
  reflexivity.
Qed.

Lemma load_config_run w text config :
  config_json (fs w) = Some text → json_loads text = Some config →
  load_config w = (Ok config, w).
Proof.
  intros Hfile Hloads. unfold load_config.
  erewrite io_bind_ok;
    [| unfold exists_file, file_exists, content; rewrite Hfile; reflexivity].
  cbn [negb].
  erewrite io_bind_ok; [| unfold read_text, fs_read, content; rewrite Hfile; reflexivity].
  rewrite Hloads. reflexivity.
Qed.

(** [send] with a configuration in place: what is left of [main]. *)
Lemma main_send_configured to template subject body w text config :
  config_json (fs w) = Some text →
  json_loads text = Some config →
  truthy config = true →
  main (CmdSend to template subject body) w =
    (chosen <- choose_content template subject body ;;
     match chosen with
     | None => io_ret tt
     | Some (Some subject, Some body) =>
         if negb (truthy (PStr subject)) || negb (truthy (PStr body)) then
           print "ERROR: Provide --template or both --subject and --body"
         else
           send_email to subject body config ;;
           io_ret tt
     | Some _ => print "ERROR: Provide --template or both --subject and --body"
     end) (started w).
Proof.
  intros Hfile Hloads Htruthy. unfold main.
  rewrite (io_bind_ok _ _ _ _ _ (ensure_dirs_run w)).
  assert (Hconfig : load_config (started w) = (Ok config, started w)).
  { apply (load_config_run _ text); [| exact Hloads].
    destruct (started_fs w) as [-> _]. exact Hfile. }
  rewrite (io_bind_ok _ _ _ _ _ Hconfig), Htruthy. reflexivity.
Qed.

Lemma send_and_drop to subject body config w :
  (send_email to subject body config ;; io_ret tt) w =
    (dropped (fst (send_email to subject body config w)),
     snd (send_email to subject body config w)).
Proof.
  unfold io_bind. destruct (send_email to subject body config w) as [[sent | e] w'];
    reflexivity.
Qed.

(** X20. Without a configuration, [send] stops at once.  When
    [config.json] is missing, or holds a JSON value that is falsy (null,
    an empty object, ...), [main] creates the two directories, prints
    "ERROR: Run ./email.py setup first" and returns: the template is not
    read, no token is requested, nothing is sent. *)
Theorem send_without_configuration to template subject body w :
  config_json (fs w) = None ∨
    (∃ text config, config_json (fs w) = Some text ∧
                    json_loads text = Some config ∧ truthy config = false) →
  main (CmdSend to template subject body) w =
    (Ok tt, log_event (Print "ERROR: Run ./email.py setup first") (started w)).
Proof.
  intros Hconfig. unfold main.
  rewrite (io_bind_ok _ _ _ _ _ (ensure_dirs_run w)).
  destruct (started_fs w) as [Hsame _].
  destruct Hconfig as [Hnone | (text & config & Hfile & Hloads & Hfalsy)].
  - rewrite (io_bind_ok _ _ _ _ _ (load_config_missing (started w) ltac:(congruence))).
    reflexivity.
  - rewrite (io_bind_ok _ _ _ _ _
               (load_config_run (started w) text config ltac:(congruence) Hloads)).
    rewrite Hfalsy. reflexivity.
Qed.


(** X22. What a configured [send] sends.  The subject is the one of the
    command line when that is given and not empty, and the template's
    otherwise; likewise the body.  [main] then runs [send_email] with
    these on the world [ensure_dirs] left, and drops what it returns:
    [main] ends the same way whether the message was accepted or not, and
    raises what [send_email] raises. *)
Theorem send_runs_send_email to template subject body w text config s b :
  config_json (fs w) = Some text →
  json_loads text = Some config →
  truthy config = true →
  s ≠ EmptyString → b ≠ EmptyString →
  (opt_truthy template = false ∧ subject = Some s ∧ body = Some b) ∨
  (∃ name t_subject t_body,
     template = Some name ∧ truthy (PStr name) = true ∧
     load_template name (started w) = (Ok (Some t_subject, Some t_body), started w) ∧
     opt_or subject (Some t_subject) = Some s ∧
     opt_or body (Some t_body) = Some b) →
  main (CmdSend to template subject body) w =
    (dropped (fst (send_email to s b config (started w))),
     snd (send_email to s b config (started w))).
Proof.
  intros Hfile Hloads Htruthy Hs Hb Hcontent.
  rewrite (main_send_configured to template subject body w text config Hfile Hloads Htruthy).
  assert (Hchosen : choose_content template subject body (started w) =
                      (Ok (Some (Some s, Some b)), started w)).
  { unfold choose_content.
    destruct Hcontent as [(Htemplate & -> & ->) |
      (name & t_subject & t_body & -> & Hname & Hloaded & Hsubject & Hbody)].
    - destruct template as [name |]; [| reflexivity].
      cbn [opt_truthy] in Htemplate. rewrite Htemplate. reflexivity.
    - rewrite Hname, (io_bind_ok _ _ _ _ _ Hloaded), Hsubject, Hbody. reflexivity. }
  rewrite (io_bind_ok _ _ _ _ _ Hchosen).
  assert (Hnonempty : ∀ x, x ≠ EmptyString → truthy (PStr x) = true).
  { intros x Hx. cbn [truthy]. destruct (String.eqb_spec x EmptyString); [contradiction |].
    reflexivity. }
  rewrite (Hnonempty s Hs), (Hnonempty b Hb). cbn [negb orb].
  apply send_and_drop.
Qed.

(** X23. Through [main], an accepted message is logged whenever the
    audit directory can hold the name the recipient gives the record.
    [main] creates the audit directory before anything else, so when the
    token is there and the provider answers 202, the record is written,
    also when the directory did not exist at the start: it then holds
    the record alone.  Of the exceptions of the audit write, the one of a
    missing directory cannot come up through [main]; the one of a name
    the directory cannot hold can. *)
Theorem send_through_main_is_logged to s b w text config token w1 resp n :
  config_json (fs w) = Some text →
  json_loads text = Some config →
  truthy config = true →
  s ≠ EmptyString → b ≠ EmptyString →
  get_access_token config (started w) = (Ok token, w1) →
  truthy token = true →
  requests_post sendmail_url (bearer_headers token)
    (sendmail_payload to s b) (net_state w1) = (resp, n) →
  status_code resp = 202%Z →
  storable (audit_file_name (clock w (S (tick w))) (local_part to)) = true →
  ∃ w' record,
    main (CmdSend to None (Some s) (Some b)) w = (Ok tt, w') ∧
    sent (fs w') =
      Some (<[audit_file_name (clock w (S (tick w))) (local_part to) := record]>
              (default ∅ (sent (fs w)))) ∧
    audit_writes (trace w') =
      (audit_writes (trace w) ++
       [(audit_file_name (clock w (S (tick w))) (local_part to), record)])%list.
Proof.
  intros Hfile Hloads Htruthy Hs Hb Htoken Htok Hpost Hstatus Hname.
  pose proof (get_access_token_cases _ _ _ _ Htoken)
    as [(Hclock & Htick & _ & _ & _ & Hsent & Haudit & _) _].
  destruct (started_fs w) as (_ & _ & _ & Hdir).
  destruct (started_rest w) as (Hclock0 & Htick0 & _ & _ & Htrace0).
  rewrite Hdir in Hsent.
  rewrite <- Hclock0, <- Htick0, <- Hclock, <- Htick in Hname.
  destruct (send_email_accepted_run to s b config (started w) token w1 resp n _
              Htoken Htok Hpost Hstatus Hsent Hname) as (w' & Hrun & Hfs & Htrace).
  exists w'. eexists. split; [| split].
  - assert (Hmain : main (CmdSend to None (Some s) (Some b)) w =
              (dropped (fst (send_email to s b config (started w))),
               snd (send_email to s b config (started w)))).
    { rewrite (main_send_configured to None (Some s) (Some b) w text config
                 Hfile Hloads Htruthy).
      assert (Hchosen : choose_content None (Some s) (Some b) (started w) =
                          (Ok (Some (Some s, Some b)), started w)) by reflexivity.
      rewrite (io_bind_ok _ _ _ _ _ Hchosen).
      assert (Hnonempty : ∀ x, x ≠ EmptyString → truthy (PStr x) = true).
      { intros x Hx. cbn [truthy].
        destruct (String.eqb_spec x EmptyString); [contradiction | reflexivity]. }
      rewrite (Hnonempty s Hs), (Hnonempty b Hb). cbn [negb orb].
      apply send_and_drop. }
    rewrite Hmain, Hrun. reflexivity.
  - rewrite Hfs. cbn [sent set_entries]. rewrite Hclock, Htick, Hclock0, Htick0.
    reflexivity.
  - rewrite Htrace. unfold audit_writes. rewrite omap_app. fold (audit_writes (trace w1)).
    rewrite Haudit, Htrace0, Hclock, Htick, Hclock0, Htick0. reflexivity.
Qed.

(** X24. [logout] forgets the credentials.  [main] removes the
    credential cache when there is one, and then says so; without one it
    does and prints nothing.  Afterwards the cache file is gone, the
    configuration is untouched, and the next application is built on an
    empty cache: when that knows no account, the next token request goes
    through the device code flow. *)
Theorem logout_forgets_the_credentials w :
  ∃ w',
    main CmdLogout w = (Ok tt, w') ∧
    token_cache_json (fs w') = None ∧
    config_json (fs w') = config_json (fs w) ∧
    templates (fs w') = templates (fs (started w)) ∧
    sent (fs w') = sent (fs (started w)) ∧
    trace w' =
      (trace w ++
       match token_cache_json (fs w) with
       | Some _ => [Print "Logged out. Token cache cleared."]
       | None => []
       end)%list ∧
    ∀ config app cache,
      get_msal_app config w' = (Ok (app, cache), w') →
      cache = new_cache ∧
      (get_accounts app new_cache = [] →
       get_access_token config w' = device_code_flow app new_cache w').
Proof.
  assert (Hbuilt : ∀ w' config app cache,
            token_cache_json (fs w') = None →
            get_msal_app config w' = (Ok (app, cache), w') →
            cache = new_cache ∧
            (get_accounts app new_cache = [] →
             get_access_token config w' = device_code_flow app new_cache w')).
  { intros w' config app cache Hnone Happ.
    assert (Hcache : cache = new_cache).
    { revert Happ.
      unfold get_msal_app, io_bind, exists_file, file_exists, content, lift, io_ret.
      rewrite Hnone.
      destruct (subscript config "client_id"); [| discriminate].
      destruct (subscript config "tenant_id"); [| discriminate].
      intros [= _ <-]. reflexivity. }
    subst cache. split; [reflexivity |]. intros Hnobody.
    apply (get_access_token_falls_through config w' app new_cache new_cache w' Happ).
    apply no_account. exact Hnobody. }
  destruct (started_fs w) as (Hconfig & Htoken & _ & _).
  unfold main. rewrite (io_bind_ok _ _ _ _ _ (ensure_dirs_run w)).
  unfold exists_file, file_exists, content, io_bind at 1. rewrite Htoken.
  destruct (token_cache_json (fs w)) as [cached |] eqn:Hcached.
  - unfold io_bind, unlink, fs_unlink, content. rewrite Htoken.
    eexists. split; [reflexivity |].
    cbn [fs trace set_fs log_event token_cache_json config_json templates sent].
    repeat (split; [first [reflexivity | assumption] |]).
    intros config app cache. apply Hbuilt. reflexivity.
  - eexists. split; [reflexivity |].
    rewrite app_nil_r.
    repeat (split; [first [reflexivity | congruence] |]).
    intros config app cache. apply Hbuilt. congruence.
Qed.

End Commands.

(** * Setup *)

Section Setup.
Context `{PyLib, Msal, Requests}.
Context `{!Host}.

Lemma stripped_truthy s : truthy (PStr s) = negb (String.eqb s EmptyString).
Proof. reflexivity. Qed.

(** [setup] up to the answers: the banner, the portal, the questions. *)
Lemma setup_asks w status w1 client w2 tenant w3 :
  os_system ("open " +:+ dquote +:+ portal_url +:+ dquote)
    (printed [nl +:+ str_mul "=" 60; "CANONIC EMAIL SETUP"; str_mul "=" 60;
              nl +:+ "Step 1: Register app in Azure Portal"; str_mul "-" 40] w) =
    (Ok status, w1) →
  input "Application (client) ID: "
    (printed [azure_steps; nl +:+ "Step 2: Enter your credentials"; str_mul "-" 40] w1) =
    (Ok client, w2) →
  input "Directory (tenant) ID: " w2 = (Ok tenant, w3) →
  setup w =
    (if truthy (PStr (str_strip client)) && truthy (PStr (str_strip tenant)) then
       save_config (PDict (dict_of [("client_id", PStr (str_strip client));
                                    ("tenant_id", PStr (str_strip tenant))])) ;;
       print (nl +:+ "Config saved to " +:+ str_path CONFIG_FILE) ;;
       print (nl +:+ "Run: ./email.py send --to someone@example.com --template atom-proposal")
     else
       print (nl +:+ "Setup cancelled. Run ./email.py setup again when ready.")) w3.
Proof.
  intros Hopen Hclient Htenant. unfold setup.
  do 5 (erewrite io_bind_ok; [| reflexivity]).
  erewrite io_bind_ok; [| exact Hopen].
  do 3 (erewrite io_bind_ok; [| reflexivity]).
  erewrite io_bind_ok; [| exact Hclient]. cbv zeta.
  erewrite io_bind_ok; [| exact Htenant].
  reflexivity.
Qed.

(** X25. [setup] saves a configuration exactly when both answers are
    not blank.  Then [config.json] holds the two answers, stripped of the
    white space around them, under [client_id] and [tenant_id], and the
    path of the file is reported.  When an answer is empty or blank,
    nothing is written: [setup] says it was cancelled, and a
    configuration saved before stays as it is. *)
Theorem setup_saves_complete_answers w status w1 client w2 tenant w3 :
  os_system ("open " +:+ dquote +:+ portal_url +:+ dquote)
    (printed [nl +:+ str_mul "=" 60; "CANONIC EMAIL SETUP"; str_mul "=" 60;
              nl +:+ "Step 1: Register app in Azure Portal"; str_mul "-" 40] w) =
    (Ok status, w1) →
  input "Application (client) ID: "
    (printed [azure_steps; nl +:+ "Step 2: Enter your credentials"; str_mul "-" 40] w1) =
    (Ok client, w2) →
  input "Directory (tenant) ID: " w2 = (Ok tenant, w3) →
  ∃ w',
    setup w = (Ok tt, w') ∧
    token_cache_json (fs w') = token_cache_json (fs w3) ∧
    templates (fs w') = templates (fs w3) ∧
    sent (fs w') = sent (fs w3) ∧
    if String.eqb (str_strip client) EmptyString || String.eqb (str_strip tenant) EmptyString
    then
      config_json (fs w') = config_json (fs w3) ∧
      trace w' =
        (trace w3 ++
         [Print (nl +:+ "Setup cancelled. Run ./email.py setup again when ready.")])%list
    else
      let text :=
        json_dumps (PDict (dict_of [("client_id", PStr (str_strip client));
                                    ("tenant_id", PStr (str_strip tenant))])) in
      config_json (fs w') = Some text ∧
      trace w' =
        (trace w3 ++
         [WriteText CONFIG_FILE text;
          Print (nl +:+ "Config saved to " +:+ str_path CONFIG_FILE);
          Print (nl +:+ "Run: ./email.py send --to someone@example.com --template atom-proposal")])%list.
Proof.
  intros Hopen Hclient Htenant.
  rewrite (setup_asks w status w1 client w2 tenant w3 Hopen Hclient Htenant).
  rewrite !stripped_truthy.
  destruct (String.eqb (str_strip client) EmptyString);
    destruct (String.eqb (str_strip tenant) EmptyString); cbn [negb andb orb].
  4:{ eexists. split; [reflexivity |].
      cbn [fs trace log_event set_fs token_cache_json templates sent config_json].
      repeat (split; [reflexivity |]). rewrite <- !app_assoc. reflexivity. }
  all: eexists; split; [reflexivity |];
    cbn [fs trace log_event]; repeat (split; [reflexivity |]); reflexivity.
Qed.

(** X26. After [setup], [send] finds its configuration.  When the json
    library reads back what it printed, the configuration [setup] saved
    from two answers that are not blank is what [load_config] returns
    next; it is truthy, and from it, when nobody is signed in yet,
    [get_msal_app] builds the application of the client the user named,
    at the authority of the tenant the user named, on an empty cache. *)
Theorem setup_then_send_is_configured w status w1 client w2 tenant w3 :
  os_system ("open " +:+ dquote +:+ portal_url +:+ dquote)
    (printed [nl +:+ str_mul "=" 60; "CANONIC EMAIL SETUP"; str_mul "=" 60;
              nl +:+ "Step 1: Register app in Azure Portal"; str_mul "-" 40] w) =
    (Ok status, w1) →
  input "Application (client) ID: "
    (printed [azure_steps; nl +:+ "Step 2: Enter your credentials"; str_mul "-" 40] w1) =
    (Ok client, w2) →
  input "Directory (tenant) ID: " w2 = (Ok tenant, w3) →
  str_strip client ≠ EmptyString →
  str_strip tenant ≠ EmptyString →
  let config := PDict (dict_of [("client_id", PStr (str_strip client));
                                ("tenant_id", PStr (str_strip tenant))]) in
  json_loads (json_dumps config) = Some config →
  ∃ w',
    setup w = (Ok tt, w') ∧
    load_config w' = (Ok config, w') ∧
    truthy config = true ∧
    config_error config = None ∧
    (token_cache_json (fs w3) = None →
     get_msal_app config w' =
       (Ok ({| client_id := PStr (str_strip client);
               authority := "https://login.microsoftonline.com/" +:+ str_strip tenant |},
            new_cache), w')).
Proof.
  intros Hopen Hclient Htenant Hc Ht config Hround.
  rewrite (setup_asks w status w1 client w2 tenant w3 Hopen Hclient Htenant).
  rewrite !stripped_truthy.
  destruct (String.eqb_spec (str_strip client) EmptyString) as [| _]; [contradiction |].
  destruct (String.eqb_spec (str_strip tenant) EmptyString) as [| _]; [contradiction |].
  cbn [negb andb]. fold config.
  assert (Hrun : ∃ w',
            (save_config config ;;
             print (nl +:+ "Config saved to " +:+ str_path CONFIG_FILE) ;;
             print (nl +:+ "Run: ./email.py send --to someone@example.com --template atom-proposal"))
              w3 = (Ok tt, w') ∧
            config_json (fs w') = Some (json_dumps config) ∧
            token_cache_json (fs w') = token_cache_json (fs w3)).
  { eexists. split; [reflexivity |]. split; reflexivity. }
  destruct Hrun as (w' & Hrun & Hfile & Hcache).
  exists w'. split; [exact Hrun |].
  split; [apply (load_config_run w' _ config Hfile Hround) |].
  split; [apply (dict_with_key_truthy _ "client_id" (PStr (str_strip client))); reflexivity |].
  split; [reflexivity |].
  intros Hnone.
  unfold get_msal_app, io_bind, exists_file, file_exists, content, lift, io_ret.
  rewrite Hcache, Hnone. reflexivity.
Qed.

End Setup.


(** * The program on the simulated environment *)

Import Sim.

(** The gate passes the context of the specification's first scenario. *)
Example validate_passes_scenario :
  validate (send_context "a@b.com" "Hi" "body" "2024-01-01T00:00:00Z") (signed_in 202 "")
  = (Ok (verdict "pass" "Audit trail ready"), signed_in 202 "").
Proof. reflexivity. Qed.

(** The gate accepts the timestamps the writers print. *)
Example validate_accepts_isoformat_Z :
  fst (validate (send_context "a@b.com" "Hi" "body" (isoformat (clock_at_noon 7) +:+ "Z"))
         (signed_in 202 ""))
  = Ok (verdict "pass" "Audit trail ready").
Proof. reflexivity. Qed.

(** C1. [send_email] never runs the gate: it posts what [validate]
    rejects.  With an empty recipient the gate answers fail, "Missing
    required field: to", and yet the message is posted to the provider
    (which here answers 400).  With the audit directory missing the gate
    answers fail, "Audit directory does not exist", and yet the message is
    posted, the provider accepts it (202), and the audit write then raises
    FileNotFoundError: sent and not logged. *)
Theorem send_email_posts_what_the_gate_rejects :
  (let w := signed_in 400 "ErrorInvalidRecipients" in
   validate (send_context "" "Hi" "body" "2024-01-01T12:00:00Z") w
   = (Ok (verdict "fail" "Missing required field: to"), w) ∧
   fst (send_email "" "Hi" "body" config w) = Ok false ∧
   posts (trace (snd (send_email "" "Hi" "body" config w))) =
     [(sendmail_url, bearer_headers (PStr "token-of-user@example.com"),
       sendmail_payload "" "Hi" "body")]) ∧
  (let w := without_audit_dir 202 "" in
   validate (send_context "a@b.com" "Hi" "body" "2024-01-01T12:00:00Z") w
   = (Ok (verdict "fail" "Audit directory does not exist"), w) ∧
   fst (send_email "a@b.com" "Hi" "body" config w) = Raise FileNotFoundError ∧
   posts (trace (snd (send_email "a@b.com" "Hi" "body" config w))) =
     [(sendmail_url, bearer_headers (PStr "token-of-user@example.com"),
       sendmail_payload "a@b.com" "Hi" "body")] ∧
   outbox (net_state (snd (send_email "a@b.com" "Hi" "body" config w))) =
     [sendmail_payload "a@b.com" "Hi" "body"]).
Proof.
  cbv zeta. split.
  - repeat apply conj; reflexivity.
  - repeat apply conj; reflexivity.
Qed.

(** C2. The record [send_email] writes after an accepted send has the
    five fields timestamp, to, subject, status, outlook: it has no
    validator id and no validator version.  [log_send], for the same
    recipient and subject at the same instant, writes all seven. *)
Theorem send_email_record_lacks_validator_fields :
  let w := signed_in 202 "" in
  let written := dict_of [
    ("timestamp", PStr "2024-01-01T12:00:00Z"); ("to", PStr "a@b.com");
    ("subject", PStr "Hi"); ("status", PStr "sent"); ("outlook", PBool true)] in
  let schema := dict_of [
    ("validator", PStr "email.audit"); ("version", PStr "1.0.0");
    ("timestamp", PStr "2024-01-01T12:00:00Z"); ("to", PStr "a@b.com");
    ("subject", PStr "Hi"); ("status", PStr "sent"); ("outlook", PBool true)] in
  fst (send_email "a@b.com" "Hi" "body" config w) = Ok true ∧
  audit_writes (trace (snd (send_email "a@b.com" "Hi" "body" config w))) =
    [("20240101-120000-a.json", json_dumps (PDict written))] ∧
  dom written = list_to_set ["timestamp"; "to"; "subject"; "status"; "outlook"] ∧
  written !! "validator" = None ∧
  written !! "version" = None ∧
  audit_writes
    (trace (snd (log_send (send_context "a@b.com" "Hi" "body" "2024-01-01T12:00:00Z")
                   SENT_DIR w))) =
    [("20240101-120000-a.json", json_dumps (PDict schema))] ∧
  dom schema = list_to_set ["validator"; "version"; "timestamp"; "to"; "subject";
                            "status"; "outlook"].
Proof. cbv zeta. repeat apply conj; reflexivity. Qed.

(** C3. The file name [send_email] builds carries the whole local part of
    the recipient: for a local part of 26 characters all 26 are in the
    name.  [log_send] cuts the same local part to its first 20. *)
Theorem send_email_file_name_is_not_truncated :
  let w := signed_in 202 "" in
  let to := "a.very.long.recipient.name@example.com" in
  String.length (local_part to) = 26 ∧
  map fst (audit_writes (trace (snd (send_email to "Hi" "body" config w)))) =
    ["20240101-120000-a.very.long.recipient.name.json"] ∧
  fst (log_send (send_context to "Hi" "body" "2024-01-01T12:00:00Z") SENT_DIR w) =
    Ok (SENT_DIR // "20240101-120000-a.very.long.recipien.json").
Proof. cbv zeta. repeat apply conj; reflexivity. Qed.

(** C7 fails as stated: the distinct recipients a@b.com and a@c.com,
    logged at the same instant, get the same file name, from [log_send]
    and from [send_email] alike. *)
Lemma distinct_recipients_share_a_file_name :
  let w := signed_in 202 "" in
  "a@b.com" ≠ "a@c.com" ∧
  fst (log_send (send_context "a@b.com" "Hi" "body" "2024-01-01T12:00:00Z") SENT_DIR w) =
    Ok (SENT_DIR // "20240101-120000-a.json") ∧
  fst (log_send (send_context "a@c.com" "Hi" "body" "2024-01-01T12:00:00Z") SENT_DIR w) =
    Ok (SENT_DIR // "20240101-120000-a.json") ∧
  map fst (audit_writes (trace (snd (send_email "a@b.com" "Hi" "body" config w)))) =
    ["20240101-120000-a.json"] ∧
  map fst (audit_writes (trace (snd (send_email "a@c.com" "Hi" "body" config w)))) =
    ["20240101-120000-a.json"].
Proof.
  cbv zeta. apply conj; [discriminate |]. repeat apply conj; reflexivity.
Qed.

(** C4. An accepted send can leave no record.  For the recipient
    a/b@x.com the provider accepts the message (202), and the record is
    to go to [sent/20240101-120000-a/b.json]: a path into a directory
    that does not exist.  The write raises FileNotFoundError, with the
    audit directory there and empty: the message is sent, the post is the
    last thing that happened, nothing is logged and no success is
    reported.  The same through [main], which has created the
    directory.  And a second accepted send, within the second of the
    first and to a recipient with the same local part, adds no record:
    it replaces the one of the first. *)
Theorem accepted_send_can_leave_no_record :
  (let w := signed_in 202 "" in
   let run := send_email "a/b@x.com" "Hi" "body" config w in
   sent (fs w) = Some ∅ ∧
   fst run = Raise FileNotFoundError ∧
   outbox (net_state (snd run)) = [sendmail_payload "a/b@x.com" "Hi" "body"] ∧
   last (trace (snd run)) =
     Some (HttpPost sendmail_url (bearer_headers (PStr "token-of-user@example.com"))
             (sendmail_payload "a/b@x.com" "Hi" "body")) ∧
   audit_writes (trace (snd run)) = [] ∧
   sent (fs (snd run)) = Some ∅) ∧
  (let w := without_audit_dir 202 "" in
   let run := main (CmdSend "a/b@x.com" None (Some "Hi") (Some "body")) w in
   fst run = Raise FileNotFoundError ∧
   outbox (net_state (snd run)) = [sendmail_payload "a/b@x.com" "Hi" "body"] ∧
   audit_writes (trace (snd run)) = [] ∧
   sent (fs (snd run)) = Some ∅) ∧
  (let w := signed_in 202 "" in
   let first := send_email "a@b.com" "Hi" "body" config w in
   let second := send_email "a@c.com" "Hello" "body" config (snd first) in
   fst first = Ok true ∧ fst second = Ok true ∧
   outbox (net_state (snd second)) =
     [sendmail_payload "a@b.com" "Hi" "body"; sendmail_payload "a@c.com" "Hello" "body"] ∧
   map fst (audit_writes (trace (snd second))) =
     ["20240101-120000-a.json"; "20240101-120000-a.json"] ∧
   size <$> sent (fs (snd second)) = Some 1%nat).
Proof.
  cbv zeta. split; [| split].
  - repeat apply conj; reflexivity.
  - repeat apply conj; reflexivity.
  - repeat apply conj; reflexivity.
Qed.

(** C5 fails as stated: what [send_email] returns for a refused message
    carries neither the status nor the body.  A 401 with the body
    Unauthorized and a 500 with the body Server Error give the same
    return value, False; the status and the body are in the line each
    run prints. *)
Lemma rejected_sends_return_the_same_false :
  let unauthorized := send_email "a@b.com" "Hi" "body" config (signed_in 401 "Unauthorized") in
  let failing := send_email "a@b.com" "Hi" "body" config (signed_in 500 "Server Error") in
  fst unauthorized = Ok false ∧
  fst failing = Ok false ∧
  last (trace (snd unauthorized)) = Some (Print "ERROR: 401 - Unauthorized") ∧
  last (trace (snd failing)) = Some (Print "ERROR: 500 - Server Error").
Proof. cbv zeta. repeat apply conj; reflexivity. Qed.

(** C8 fails as stated: what [get_access_token] returns for a failed
    exchange carries no description.  A declined device code and an
    expired one give the same return value, None; the description of the
    provider is in the line each run prints. *)
Lemma failed_exchanges_return_the_same_none :
  let declined := get_access_token config (first_run false) in
  let expired := @get_access_token pylib msal_expiring requests config first_run_expiring in
  fst declined = Ok PNone ∧
  fst expired = Ok PNone ∧
  last (trace (snd declined)) = Some (Print "ERROR: The user declined the request") ∧
  last (trace (snd expired)) = Some (Print "ERROR: The device code has expired") ∧
  fs (snd declined) = fs (first_run false) ∧
  fs (snd expired) = fs first_run_expiring.
Proof. cbv zeta. repeat apply conj; reflexivity. Qed.

(** * The statements at concrete inputs *)

(** C6 at a context without [to] whose timestamp is not a timestamp
    either: the missing field is reported. *)
Lemma validate_first_failing_rule_wins_witness :
  validate (dict_of [("subject", PStr "Hi"); ("timestamp", PStr "not a timestamp")])
    (signed_in 202 "")
  = (Ok (verdict "fail" "Missing required field: to"), signed_in 202 "").
Proof.
  apply (proj1 (validate_first_failing_rule_wins _ (signed_in 202 ""))).
  left. reflexivity.
Defined.

(** X27 for a signed-in user and a provider that answers 202: one
    record, in an audit directory that was empty. *)
Lemma accepted_send_is_logged_when_the_record_can_be_stored_witness :
  ∃ w' text,
    send_email "a@b.com" "Hi" "body" config (signed_in 202 "") = (Ok true, w') ∧
    sent (fs w') = Some {[ "20240101-120000-a.json" := text ]} ∧
    audit_writes (trace w') = [("20240101-120000-a.json", text)].
Proof.
  destruct (proj1 accepted_send_is_logged_when_the_record_can_be_stored
              "a@b.com" "Hi" "body" config (signed_in 202 "")
              (PStr "token-of-user@example.com")
              (snd (get_access_token config (signed_in 202 "")))
              {| status_code := 202; text := "" |}
              (snd (requests_post sendmail_url
                      (bearer_headers (PStr "token-of-user@example.com"))
                      (sendmail_payload "a@b.com" "Hi" "body")
                      (net_state (signed_in 202 ""))))
              ∅)
    as (name & record & reports & w' & Hrun & Hname & _ & Hsent & Haudit & _);
    [reflexivity | reflexivity | reflexivity | reflexivity | reflexivity | reflexivity |].
  exists w', (json_dumps (PDict record)).
  split; [exact Hrun |]. rewrite Hsent, Haudit, Hname. split; reflexivity.
Defined.

(** C5 for a provider that answers 401: the error line, and an audit
    directory still empty. *)
Lemma rejected_send_reports_error_and_logs_nothing_witness :
  ∃ w',
    send_email "a@b.com" "Hi" "body" config (signed_in 401 "Unauthorized") = (Ok false, w') ∧
    last (trace w') = Some (Print "ERROR: 401 - Unauthorized") ∧
    sent (fs w') = Some ∅.
Proof.
  destruct (rejected_send_reports_error_and_logs_nothing
              "a@b.com" "Hi" "body" config (signed_in 401 "Unauthorized")
              (PStr "token-of-user@example.com")
              (snd (get_access_token config (signed_in 401 "Unauthorized")))
              {| status_code := 401; text := "Unauthorized" |}
              (snd (requests_post sendmail_url
                      (bearer_headers (PStr "token-of-user@example.com"))
                      (sendmail_payload "a@b.com" "Hi" "body")
                      (net_state (signed_in 401 "Unauthorized")))))
    as (w' & Hrun & Htrace & _ & _ & _ & Hsent);
    [reflexivity | reflexivity | reflexivity | simpl; lia |].
  exists w'. split; [exact Hrun |]. rewrite Htrace, Hsent. split; reflexivity.
Defined.

(** C7 as amended, for alice and bob at the same instant. *)
Lemma file_names_differ_iff_local_parts_differ_witness :
  SENT_DIR // "20240101-120000-alice.json" = SENT_DIR // "20240101-120000-bob.json" ↔
  str_take 20 (local_part "alice@example.com") = str_take 20 (local_part "bob@example.com").
Proof.
  eapply (proj1 file_names_differ_iff_local_parts_differ
            (send_context "alice@example.com" "Hi" "body" "2024-01-01T12:00:00Z")
            (send_context "bob@example.com" "Hi" "body" "2024-01-01T12:00:00Z")
            "alice@example.com" "bob@example.com" SENT_DIR
            (signed_in 202 "") (signed_in 202 "") _ _
            (snd (log_send (send_context "alice@example.com" "Hi" "body"
                                         "2024-01-01T12:00:00Z")
                    SENT_DIR (signed_in 202 "")))
            (snd (log_send (send_context "bob@example.com" "Hi" "body"
                                         "2024-01-01T12:00:00Z")
                    SENT_DIR (signed_in 202 ""))));
    [reflexivity | reflexivity | repeat split | reflexivity | reflexivity].
Defined.

(** C8 for a first run whose user declines the device code. *)
Lemma failed_exchange_persists_nothing_witness :
  ∃ w',
    get_access_token config (first_run false) = (Ok PNone, w') ∧
    fs w' = fs (first_run false) ∧
    last (trace w') = Some (Print "ERROR: The user declined the request").
Proof.
  eapply (proj1 (@failed_exchange_persists_nothing pylib msal requests) config (first_run false) app (cache_of [])
            (cache_of []) (first_run false)
            (dict_of [("user_code", PStr "ABCD1234");
                      ("verification_uri", PStr "https://microsoft.com/devicelogin")])
            (idp_state (first_run false))
            (PStr "https://microsoft.com/devicelogin") (PStr "ABCD1234")
            (dict_of [("error", PStr "authorization_declined");
                      ("error_description", PStr "The user declined the request")])
            (cache_of []) (idp_state (first_run false)));
    [reflexivity | apply no_account; reflexivity | reflexivity | reflexivity
     | reflexivity | reflexivity | reflexivity].
Defined.

(** C9 for a signed-in user, and for the request that follows a first
    run whose user approved the device code. *)
Lemma cached_token_skips_device_flow_witness :
  (∃ w', get_access_token config (signed_in 202 "")
           = (Ok (PStr "token-of-user@example.com"), w') ∧
         trace w' = [AcquireTokenSilent SCOPES]) ∧
  (∃ w w', device_code_flow app (cache_of []) (first_run true)
             = (Ok (PStr "token-of-user@example.com"), w) ∧
           get_access_token config w = (Ok (PStr "token-of-user@example.com"), w') ∧
           device_flows (trace w') = device_flows (trace w)).
Proof.
  split.
  - destruct (proj1 (@cached_token_skips_device_flow pylib msal requests)
                config (signed_in 202 "") app
                (cache_of ["user@example.com"]) "user@example.com" []
                (dict_of [("access_token", PStr "token-of-user@example.com")])
                (cache_of ["user@example.com"]) (idp_state (signed_in 202 ""))
                (PStr "token-of-user@example.com"))
      as (w' & Hrun & Htrace & _); [reflexivity | reflexivity | reflexivity | reflexivity |].
    exists w'. split; [exact Hrun | exact Htrace].
  - destruct (@device_code_flow_approved pylib msal requests
                app (cache_of []) (first_run true)
                (dict_of [("user_code", PStr "ABCD1234");
                          ("verification_uri", PStr "https://microsoft.com/devicelogin")])
                (idp_state (first_run true))
                (PStr "https://microsoft.com/devicelogin") (PStr "ABCD1234")
                (dict_of [("access_token", PStr "token-of-user@example.com")])
                (cache_of ["user@example.com"]) (idp_state (first_run true))
                (PStr "token-of-user@example.com"))
      as (w & Hflow & Hfs & Hidp);
      [reflexivity | reflexivity | reflexivity | reflexivity | reflexivity |].
    destruct (proj2 (@cached_token_skips_device_flow pylib msal requests)
                app (cache_of []) (first_run true)
                (PStr "token-of-user@example.com") w config (PStr "abc") (PStr "def"))
      as (flow & i1 & result & saved & i2 & _ & Hfile & Hnext);
      [exact Hflow | reflexivity | reflexivity | reflexivity |].
    rewrite Hfs in Hfile. injection Hfile as Hsaved.
    destruct (Hnext (cache_of ["user@example.com"]) "user@example.com" []
                (dict_of [("access_token", PStr "token-of-user@example.com")])
                (cache_of ["user@example.com"]) (idp_state (first_run true))
                (PStr "token-of-user@example.com"))
      as (w' & Hrun & _ & Hflows);
      [change (deserialize new_cache (String.concat nl saved)
               = Ok (cache_of ["user@example.com"]));
       rewrite <- Hsaved; reflexivity
      | reflexivity | rewrite Hidp; reflexivity | reflexivity |].
    exists w, w'. split; [exact Hflow |]. split; [exact Hrun | exact Hflows].
Defined.

Lemma passed_context_is_logged_witness :
  ∃ name text m w',
    sent (fs (signed_in 202 "")) = Some m ∧
    log_send (send_context "a@b.com" "Hi" "body" "2024-01-01T12:00:00Z") SENT_DIR
      (signed_in 202 "") = (Ok (SENT_DIR // name), w') ∧
    sent (fs w') = Some (<[name := text]> m) ∧
    audit_writes (trace w') =
      (audit_writes (trace (signed_in 202 "")) ++ [(name, text)])%list.
Proof.
  apply (@passed_context_is_logged pylib msal requests
           (send_context "a@b.com" "Hi" "body" "2024-01-01T12:00:00Z")
           (signed_in 202 "") "a@b.com" (PStr "Hi")); reflexivity.
Defined.

Lemma log_send_same_name_overwrites_witness :
  ∃ name text1 text2 w1 w2,
    log_send (send_context "a@b.com" "Hi" "body" "2024-01-01T12:00:00Z") SENT_DIR
      (signed_in 202 "") = (Ok (SENT_DIR // name), w1) ∧
    entries (fs w1) SENT_DIR = Some (<[name := text1]> ∅) ∧
    log_send (send_context "a@c.com" "Hello" "body" "2024-01-01T12:00:00Z") SENT_DIR
      w1 = (Ok (SENT_DIR // name), w2) ∧
    entries (fs w2) SENT_DIR = Some (<[name := text2]> ∅) ∧
    audit_writes (trace w2) =
      (audit_writes (trace (signed_in 202 "")) ++
       audit_writes [WriteText (SENT_DIR // name) text1;
                     WriteText (SENT_DIR // name) text2])%list.
Proof.
  apply (@log_send_same_name_overwrites pylib msal requests
           (send_context "a@b.com" "Hi" "body" "2024-01-01T12:00:00Z")
           (send_context "a@c.com" "Hello" "body" "2024-01-01T12:00:00Z")
           "a@b.com" "a@c.com" (PStr "Hi") (PStr "Hello") SENT_DIR (signed_in 202 "") ∅);
    try reflexivity.
  repeat apply conj; reflexivity.
Defined.

Lemma gate_passes_what_log_send_cannot_log_witness :
  log_send (dict_of [("to", PStr "a@b.com"); ("subject", PBytes "Hi");
                     ("timestamp", PStr "2024-01-01T12:00:00Z")])
    SENT_DIR (signed_in 202 "") = (Raise TypeError, advance (signed_in 202 "")) ∧
  sent (fs (signed_in 202 "")) ≠ None ∧
  ∃ e, log_send (send_context "a/b@x.com" "Hi" "body" "2024-01-01T12:00:00Z")
         SENT_DIR (signed_in 202 "") = (Raise e, advance (signed_in 202 "")).
Proof.
  split.
  - apply (proj1 (@gate_passes_what_log_send_cannot_log pylib msal requests)
             (dict_of [("to", PStr "a@b.com"); ("subject", PBytes "Hi");
                       ("timestamp", PStr "2024-01-01T12:00:00Z")])
             (signed_in 202 "") "a@b.com" (PBytes "Hi")); reflexivity.
  - apply (proj2 (@gate_passes_what_log_send_cannot_log pylib msal requests)
             (send_context "a/b@x.com" "Hi" "body" "2024-01-01T12:00:00Z")
             (signed_in 202 "") "a/b@x.com" (PStr "Hi")); reflexivity.
Defined.

Lemma log_send_file_name_shape_witness :
  ∃ prefix rest,
    SENT_DIR // "20240101-120000-a.very.long.recipien.json" =
      SENT_DIR // (strftime_compact (clock_at_noon 0) +:+ "-" +:+ prefix +:+ ".json") ∧
    "a.very.long.recipient.name@example.com" = prefix +:+ rest ∧
    (String.length prefix ≤ 20)%nat ∧
    ("@"%char ∉ list_ascii_of_string prefix) ∧
    ((String.length (local_part "a.very.long.recipient.name@example.com") ≤ 20)%nat →
     prefix = local_part "a.very.long.recipient.name@example.com") ∧
    ("a.very.long.recipient.name@example.com" =
       local_part "a.very.long.recipient.name@example.com" ∨
     ∃ domain, "a.very.long.recipient.name@example.com" =
                 local_part "a.very.long.recipient.name@example.com" +:+ ("@" +:+ domain)).
Proof.
  apply (@log_send_file_name_shape pylib msal requests
           (send_context "a.very.long.recipient.name@example.com" "Hi" "body"
              "2024-01-01T12:00:00Z")
           SENT_DIR (signed_in 202 "") "a.very.long.recipient.name@example.com"
           (SENT_DIR // "20240101-120000-a.very.long.recipien.json")
           (snd (log_send
                   (send_context "a.very.long.recipient.name@example.com" "Hi" "body"
                      "2024-01-01T12:00:00Z") SENT_DIR (signed_in 202 ""))));
    reflexivity.
Defined.

Lemma refused_device_flow_ends_the_send_witness :
  ∃ w',
    @get_access_token pylib msal_refusing requests config first_run_refused =
      (Ok PNone, w') ∧
    @send_email pylib msal_refusing requests "a@b.com" "Hi" "body" config
      first_run_refused = (Ok false, w') ∧
    trace w' =
      [InitiateDeviceFlow SCOPES;
       Print "ERROR: Application not found in the directory"] ∧
    fs w' = fs_fresh.
Proof.
  destruct (@refused_device_flow_ends_the_send pylib msal_refusing requests
              "a@b.com" "Hi" "body" config first_run_refused
              {| client_id := PStr "abc";
                 authority := "https://login.microsoftonline.com/def" |}
              (@new_cache msal_refusing) (@new_cache msal_refusing) first_run_refused
              (dict_of [("error", PStr "invalid_client");
                        ("error_description",
                         PStr "Application not found in the directory")])
              {| approves := true; refresh_valid := true |}
              eq_refl
              (@no_account msal_refusing requests
                 {| client_id := PStr "abc";
                    authority := "https://login.microsoftonline.com/def" |}
                 (@new_cache msal_refusing) first_run_refused eq_refl)
              eq_refl eq_refl)
    as (w' & Htoken & Hsend & Htrace & _ & Hfs & _).
  exists w'. repeat apply conj; assumption.
Defined.

Lemma unusable_config_stops_before_any_request_witness :
  get_access_token config_without_tenant (first_run true) =
    (Raise KeyError, first_run true) ∧
  send_email "a@b.com" "Hi" "body" config_without_tenant (first_run true) =
    (Raise KeyError, first_run true).
Proof.
  exact (@unusable_config_stops_before_any_request pylib msal requests
           "a@b.com" "Hi" "body" config_without_tenant (first_run true)
           (or_introl eq_refl)).
Defined.

Lemma no_token_no_post_witness :
  send_email "a@b.com" "Hi" "body" config (first_run false) =
    (Ok false, snd (get_access_token config (first_run false))) ∧
  posts (trace (snd (send_email "a@b.com" "Hi" "body" config (first_run false)))) = [] ∧
  outbox (net_state (snd (send_email "a@b.com" "Hi" "body" config (first_run false)))) = [].
Proof.
  destruct (@no_token_no_post pylib msal requests "a@b.com" "Hi" "body" config
              (first_run false)) as (Hrun & Hposts & _ & _ & Hnet).
  - intros token w1 Heq.
    assert (Hnone : get_access_token config (first_run false) =
                      (Ok PNone, snd (get_access_token config (first_run false))))
      by reflexivity.
    rewrite Hnone in Heq. injection Heq as <- _. reflexivity.
  - repeat apply conj; [exact Hrun | exact Hposts | rewrite Hnet; reflexivity].
Defined.


Lemma auth_script_reads_only_config_witness :
  fst (auth_script (set_fs fs_fresh (signed_in 202 ""))) =
    fst (auth_script (signed_in 202 "")) ∧
  trace (snd (auth_script (set_fs fs_fresh (signed_in 202 "")))) =
    trace (snd (auth_script (signed_in 202 ""))).
Proof.
  destruct (@auth_script_reads_only_config pylib msal requests (signed_in 202 "") fs_fresh
              eq_refl) as (Hresult & Htrace & _).
  split; assumption.
Defined.

Lemma auth_script_does_not_test_the_flow_witness :
  (∃ w', @auth_script pylib msal_refusing requests first_run_refused =
           (Raise KeyError, w') ∧ fs w' = fs_fresh) ∧
  (∃ w', @device_code_flow pylib msal_refusing requests
           {| client_id := PStr "abc";
              authority := "https://login.microsoftonline.com/def" |}
           (@new_cache msal_refusing) first_run_refused = (Ok PNone, w') ∧
         fs w' = fs_fresh).
Proof.
  destruct (@auth_script_does_not_test_the_flow pylib msal_refusing requests
              first_run_refused config_text config (PStr "abc") (PStr "def")
              (dict_of [("error", PStr "invalid_client");
                        ("error_description",
                         PStr "Application not found in the directory")])
              {| approves := true; refresh_valid := true |}
              (@new_cache msal_refusing)
              eq_refl eq_refl eq_refl eq_refl eq_refl eq_refl)
    as [(w1 & Hscript & Hfs1 & _) (w2 & Hflow & Hfs2 & _)].
  split; [exists w1 | exists w2]; split; assumption.
Defined.

Lemma auth_script_saves_the_token_before_listing_witness :
  ∃ w',
    auth_script (first_run true) = (Ok tt, w') ∧
    fs w' = token_saved fs_fresh "user@example.com" ∧
    actions (trace w') =
      [InitiateDeviceFlow SCOPES;
       BrowserOpen (PStr "https://microsoft.com/devicelogin");
       AcquireTokenByDeviceFlow
         (dict_of [("user_code", PStr "ABCD1234");
                   ("verification_uri", PStr "https://microsoft.com/devicelogin")]);
       WriteText TOKEN_CACHE "user@example.com";
       HttpGetInbox (PStr "token-of-user@example.com")].
Proof.
  exact (@auth_script_saves_the_token_before_listing pylib msal requests
           (first_run true) config_text config (PStr "abc") (PStr "def")
           (dict_of [("user_code", PStr "ABCD1234");
                     ("verification_uri", PStr "https://microsoft.com/devicelogin")])
           {| approves := true; refresh_valid := true |}
           (PStr "https://microsoft.com/devicelogin") (PStr "ABCD1234")
           (dict_of [("access_token", PStr "token-of-user@example.com")])
           (cache_of ["user@example.com"])
           {| approves := true; refresh_valid := true |}
           (PStr "token-of-user@example.com")
           eq_refl eq_refl eq_refl eq_refl eq_refl eq_refl eq_refl eq_refl eq_refl).
Defined.

Lemma save_config_then_load_config_witness :
  ∃ w',
    save_config config unconfigured = (Ok tt, w') ∧
    load_config w' = (Ok config, w') ∧
    config_json (fs w') = Some config_text.
Proof.
  destruct (@save_config_then_load_config pylib msal requests config unconfigured eq_refl)
    as (w' & Hsave & Hload & Hfile & _).
  exists w'. repeat apply conj; assumption.
Defined.


Lemma template_without_subject_line_witness :
  load_template "plain" (with_templates 202 "") =
    (Ok (Some "CANONIC", Some "Hello"), with_templates 202 "").
Proof.
  apply (@template_without_subject_line pylib msal requests host "plain"
           (with_templates 202 "") "Hello"); reflexivity.
Defined.

Lemma template_with_subject_line_witness :
  load_template "welcome" (with_templates 202 "") =
    (Ok (Some "Proposal", Some ("Dear reader," +:+ nl +:+ "here it is.")),
     with_templates 202 "").
Proof.
  assert (Hvalue : ascii_of_nat 10 ∉ list_ascii_of_string " Proposal").
  { intros Hin. cbn [list_ascii_of_string] in Hin.
    repeat (apply elem_of_cons in Hin; destruct Hin as [Heq | Hin]; [discriminate Heq |]).
    inversion Hin. }
  destruct (@template_with_subject_line pylib msal requests host "welcome"
              (with_templates 202 "") "Subject:" " Proposal" eq_refl Hvalue)
    as [_ Hlines].
  apply (Hlines EmptyString (nl +:+ "Dear reader," +:+ nl +:+ "here it is.")).
  - reflexivity.
  - intros Hin. inversion Hin.
  - right. eexists. reflexivity.
Defined.

Lemma send_without_configuration_witness :
  main (CmdSend "a@b.com" None (Some "Hi") (Some "body")) unconfigured =
    (Ok tt, log_event (Print "ERROR: Run ./email.py setup first") (started unconfigured)).
Proof.
  exact (@send_without_configuration pylib msal requests host
           "a@b.com" None (Some "Hi") (Some "body") unconfigured (or_introl eq_refl)).
Defined.


Lemma send_runs_send_email_witness :
  main (CmdSend "a@b.com" (Some "welcome") None (Some "Custom body"))
    (with_templates 202 "") =
    (dropped (fst (send_email "a@b.com" "Proposal" "Custom body" config
                     (started (with_templates 202 "")))),
     snd (send_email "a@b.com" "Proposal" "Custom body" config
            (started (with_templates 202 "")))).
Proof.
  apply (@send_runs_send_email pylib msal requests host
           "a@b.com" (Some "welcome") None (Some "Custom body") (with_templates 202 "")
           config_text config "Proposal" "Custom body");
    try reflexivity; try discriminate.
  right.
  exists "welcome", "Proposal", ("Dear reader," +:+ nl +:+ "here it is.").
  repeat apply conj; reflexivity.
Defined.

Lemma send_through_main_is_logged_witness :
  ∃ w' record,
    main (CmdSend "a@b.com" None (Some "Hi") (Some "body")) (without_audit_dir 202 "") =
      (Ok tt, w') ∧
    sent (fs w') = Some {[ "20240101-120000-a.json" := record ]}.
Proof.
  pose proof (@send_through_main_is_logged pylib msal requests host
                "a@b.com" "Hi" "body" (without_audit_dir 202 "") config_text config
                (PStr "token-of-user@example.com")
                (snd (get_access_token config (started (without_audit_dir 202 ""))))
                {| status_code := 202; text := EmptyString |}
                {| answer := {| status_code := 202; text := EmptyString |};
                   outbox := [sendmail_payload "a@b.com" "Hi" "body"] |}
                eq_refl eq_refl eq_refl ltac:(discriminate) ltac:(discriminate)
                eq_refl eq_refl eq_refl eq_refl eq_refl)
    as (w' & record & Hrun & Hsent & _).
  exists w', record. split; [exact Hrun | exact Hsent].
Defined.

Lemma setup_saves_complete_answers_witness :
  ∃ w', setup unconfigured = (Ok tt, w') ∧ config_json (fs w') = Some config_text.
Proof.
  destruct (@setup_saves_complete_answers pylib msal requests host
              unconfigured 0%Z
              (printed [nl +:+ str_mul "=" 60; "CANONIC EMAIL SETUP"; str_mul "=" 60;
                        nl +:+ "Step 1: Register app in Azure Portal"; str_mul "-" 40]
                 unconfigured)
              "  abc "
              (printed [azure_steps; nl +:+ "Step 2: Enter your credentials";
                        str_mul "-" 40]
                 (printed [nl +:+ str_mul "=" 60; "CANONIC EMAIL SETUP"; str_mul "=" 60;
                           nl +:+ "Step 1: Register app in Azure Portal"; str_mul "-" 40]
                    unconfigured))
              " def  "
              (printed [azure_steps; nl +:+ "Step 2: Enter your credentials";
                        str_mul "-" 40]
                 (printed [nl +:+ str_mul "=" 60; "CANONIC EMAIL SETUP"; str_mul "=" 60;
                           nl +:+ "Step 1: Register app in Azure Portal"; str_mul "-" 40]
                    unconfigured))
              eq_refl eq_refl eq_refl) as (w' & Hrun & _ & _ & _ & Hsaved).
  exists w'. split; [exact Hrun |].
  exact (proj1 (Hsaved : config_json (fs w') = Some config_text ∧ _)).
Defined.

Lemma setup_then_send_is_configured_witness :
  ∃ w',
    setup unconfigured = (Ok tt, w') ∧
    load_config w' = (Ok config, w') ∧
    get_msal_app config w' = (Ok (app, cache_of []), w').
Proof.
  destruct (@setup_then_send_is_configured pylib msal requests host
              unconfigured 0%Z
              (printed [nl +:+ str_mul "=" 60; "CANONIC EMAIL SETUP"; str_mul "=" 60;
                        nl +:+ "Step 1: Register app in Azure Portal"; str_mul "-" 40]
                 unconfigured)
              "  abc "
              (printed [azure_steps; nl +:+ "Step 2: Enter your credentials";
                        str_mul "-" 40]
                 (printed [nl +:+ str_mul "=" 60; "CANONIC EMAIL SETUP"; str_mul "=" 60;
                           nl +:+ "Step 1: Register app in Azure Portal"; str_mul "-" 40]
                    unconfigured))
              " def  "
              (printed [azure_steps; nl +:+ "Step 2: Enter your credentials";
                        str_mul "-" 40]
                 (printed [nl +:+ str_mul "=" 60; "CANONIC EMAIL SETUP"; str_mul "=" 60;
                           nl +:+ "Step 1: Register app in Azure Portal"; str_mul "-" 40]
                    unconfigured))
              eq_refl eq_refl eq_refl ltac:(discriminate) ltac:(discriminate) eq_refl)
    as (w' & Hrun & Hload & _ & _ & Happ).
  exists w'. split; [exact Hrun |]. split; [exact Hload |]. exact (Happ eq_refl).
Defined.
